(** * CopilotKit Python SDK: runtime protocol, serializer and run loop

    A shallow embedding of [copilotkit/protocol.py] and
    [copilotkit/runloop.py]: the event constructors and the JSON Lines
    serializer, the execution record, the state predictor, the event
    dispatcher and the run loop.

    Python values are embedded as follows.
    - JSON-like data ([None], [bool], [int], [str], [list], [dict] with
      string keys) is the inductive type [json]; floats are left out.
    - A [str] is a [string] whose characters are read as code points
      below 256.
    - A [dict] is an association list in insertion order, which is the
      order [json.dumps] prints.
    - An [Enum] member is a value of its own: it only ever occurs as a
      top-level field of an event dictionary ([pyval]).
    - A pydantic model used as agent state is represented by its
      [model_dump()] dictionary.
    - Exceptions are values of [exn]; a computation that mutates the
      execution record and may raise lives in the monad [M], where the
      mutations done before the raise are kept, as in Python.
    - The partial JSON parser the predictor calls belongs to another
      package; the dispatcher takes it as a parameter, and the module
      [PartialJson] gives one such parser to run the scenarios with. *)

From Stdlib Require Import String Ascii List ZArith Bool Lia.
From Stdlib Require Import DecimalString DecimalZ DecimalPos.
Import ListNotations.
Local Open Scope string_scope.
Set Warnings "-register-all".

(* ================================================================== *)
(** * Part I: the model *)
(* ================================================================== *)

Module Py.

(** ** Characters that cannot be written inside a literal *)

Definition dquote : ascii := "034"%char.
Definition backslash : ascii := "092"%char.
Definition newline : ascii := "010"%char.
Definition NL : string := String newline "".

(** [py "{'a': 1}"] is the Python text [{"a": 1}]: every apostrophe of
    the literal stands for a double quote. *)
Fixpoint py (s : string) : string :=
  match s with
  | EmptyString => EmptyString
  | String c r => String (if Ascii.eqb c "'"%char then dquote else c) (py r)
  end.

(** ** JSON data *)

Inductive json : Type :=
| JNull
| JBool (b : bool)
| JInt (z : Z)
| JStr (s : string)
| JList (l : list json)
| JDict (d : list (string * json)).

Definition dict := list (string * json).

(** ** Dictionaries: [d.get(k)], [d[k] = v], [{**a, **b}] *)

Fixpoint dict_get {V : Type} (k : string) (d : list (string * V)) : option V :=
  match d with
  | [] => None
  | (k', v) :: r => if String.eqb k k' then Some v else dict_get k r
  end.

Fixpoint dict_set {V : Type} (k : string) (v : V) (d : list (string * V))
  : list (string * V) :=
  match d with
  | [] => [(k, v)]
  | (k', v') :: r =>
      if String.eqb k k' then (k', v) :: r else (k', v') :: dict_set k v r
  end.

Definition dict_merge {V : Type} (a b : list (string * V)) : list (string * V) :=
  fold_left (fun acc kv => dict_set (fst kv) (snd kv) acc) b a.

Definition dict_keys {V : Type} (d : list (string * V)) : list string :=
  map fst d.

Definition dict_values {V : Type} (d : list (string * V)) : list V :=
  map snd d.

(** [k in keys] for a list of strings. *)
Definition str_in (k : string) (keys : list string) : bool :=
  existsb (String.eqb k) keys.

(** ** Python equality [a == b] on JSON data

    [bool] is a subclass of [int] ([True == 1]); dictionaries compare
    regardless of order. *)

Fixpoint json_eqb (a b : json) {struct a} : bool :=
  match a, b with
  | JNull, JNull => true
  | JBool x, JBool y => Bool.eqb x y
  | JBool x, JInt y => Z.eqb (if x then 1 else 0) y
  | JInt x, JBool y => Z.eqb x (if y then 1 else 0)
  | JInt x, JInt y => Z.eqb x y
  | JStr x, JStr y => String.eqb x y
  | JList x, JList y =>
      (fix all2 (x : list json) (y : list json) {struct x} : bool :=
         match x, y with
         | [], [] => true
         | a' :: x', b' :: y' => json_eqb a' b' && all2 x' y'
         | _, _ => false
         end) x y
  | JDict x, JDict y =>
      Nat.eqb (length x) (length y) &&
      (fix all (x : list (string * json)) {struct x} : bool :=
         match x with
         | [] => true
         | (k, v) :: x' =>
             match dict_get k y with
             | Some w => json_eqb v w && all x'
             | None => false
             end
         end) x
  | _, _ => false
  end.

(** A Python [dict] has no key twice; [well_formed] says so for every
    dictionary inside a value. *)
Fixpoint distinct (keys : list string) : bool :=
  match keys with
  | [] => true
  | k :: r => negb (str_in k r) && distinct r
  end.

Fixpoint well_formed (j : json) : bool :=
  match j with
  | JList l => forallb well_formed l
  | JDict d =>
      distinct (map fst d) && forallb (fun kv => well_formed (snd kv)) d
  | _ => true
  end.

(** ** [json.dumps] with its defaults: [ensure_ascii=True], separators
    [", "] and [": "] *)

Definition hex_digit (n : nat) : ascii :=
  nth n ["0"; "1"; "2"; "3"; "4"; "5"; "6"; "7"; "8"; "9";
         "a"; "b"; "c"; "d"; "e"; "f"]%char "0"%char.

(** [ESCAPE_DCT] of [json.encoder], then the [\u00xx] fallback for every
    character outside [' '..'~']. *)
Definition escape_char (c : ascii) : string :=
  let n := nat_of_ascii c in
  if Nat.eqb n 34 then String backslash (String dquote "")
  else if Nat.eqb n 92 then String backslash (String backslash "")
  else if Nat.eqb n 10 then String backslash "n"
  else if Nat.eqb n 13 then String backslash "r"
  else if Nat.eqb n 9 then String backslash "t"
  else if Nat.eqb n 8 then String backslash "b"
  else if Nat.eqb n 12 then String backslash "f"
  else if Nat.ltb n 32 || Nat.ltb 126 n then
    String backslash
      (String "u" (String "0" (String "0"
         (String (hex_digit (n / 16)) (String (hex_digit (n mod 16)) "")))))
  else String c "".

Fixpoint escape_string (s : string) : string :=
  match s with
  | EmptyString => EmptyString
  | String c r => escape_char c ++ escape_string r
  end.

Definition encode_basestring_ascii (s : string) : string :=
  String dquote (escape_string s ++ String dquote "").

Definition int_repr (z : Z) : string := NilZero.string_of_int (Z.to_int z).

Fixpoint json_dumps (j : json) : string :=
  match j with
  | JNull => "null"
  | JBool true => "true"
  | JBool false => "false"
  | JInt z => int_repr z
  | JStr s => encode_basestring_ascii s
  | JList l => "[" ++ String.concat ", " (map json_dumps l) ++ "]"
  | JDict d =>
      "{" ++ String.concat ", "
               (map (fun kv => encode_basestring_ascii (fst kv) ++ ": "
                               ++ json_dumps (snd kv)) d)
          ++ "}"
  end.

(** ** Text as lines *)

Fixpoint no_newline (s : string) : bool :=
  match s with
  | EmptyString => true
  | String c r => negb (Ascii.eqb c newline) && no_newline r
  end.

(** The newline-terminated lines of a text, and the unterminated rest. *)
Fixpoint split_lines (s : string) : list string * string :=
  match s with
  | EmptyString => ([], EmptyString)
  | String c r =>
      let (ls, rest) := split_lines r in
      if Ascii.eqb c newline then (EmptyString :: ls, rest)
      else match ls with
           | [] => ([], String c rest)
           | l :: ls' => (String c l :: ls', rest)
           end
  end.

(** ** Exceptions and the state-and-exception monad *)

Inductive exn : Type :=
| KeyError (key : string)
| AttributeError (attr : string)
| TypeError (msg : string).

Inductive result (A : Type) : Type :=
| Ok (a : A)
| Raise (e : exn).
Arguments Ok {A} a.
Arguments Raise {A} e.

End Py.
Export Py.

(* ------------------------------------------------------------------ *)
(** ** protocol.py *)
(* ------------------------------------------------------------------ *)

Module Protocol.

Inductive RuntimeEventTypes : Type :=
| TEXT_MESSAGE_START
| TEXT_MESSAGE_CONTENT
| TEXT_MESSAGE_END
| ACTION_EXECUTION_START
| ACTION_EXECUTION_ARGS
| ACTION_EXECUTION_END
| ACTION_EXECUTION_RESULT
| AGENT_STATE_MESSAGE
| META_EVENT
| RUN_STARTED
| RUN_FINISHED
| RUN_ERROR
| NODE_STARTED
| NODE_FINISHED.

(** [RuntimeEventTypes.X.value] *)
Definition RuntimeEventTypes_value (t : RuntimeEventTypes) : string :=
  match t with
  | TEXT_MESSAGE_START => "TextMessageStart"
  | TEXT_MESSAGE_CONTENT => "TextMessageContent"
  | TEXT_MESSAGE_END => "TextMessageEnd"
  | ACTION_EXECUTION_START => "ActionExecutionStart"
  | ACTION_EXECUTION_ARGS => "ActionExecutionArgs"
  | ACTION_EXECUTION_END => "ActionExecutionEnd"
  | ACTION_EXECUTION_RESULT => "ActionExecutionResult"
  | AGENT_STATE_MESSAGE => "AgentStateMessage"
  | META_EVENT => "MetaEvent"
  | RUN_STARTED => "RunStarted"
  | RUN_FINISHED => "RunFinished"
  | RUN_ERROR => "RunError"
  | NODE_STARTED => "NodeStarted"
  | NODE_FINISHED => "NodeFinished"
  end.

Inductive RuntimeMetaEventName : Type :=
| LANG_GRAPH_INTERRUPT_EVENT
| PREDICT_STATE
| EXIT.

Definition RuntimeMetaEventName_value (n : RuntimeMetaEventName) : string :=
  match n with
  | LANG_GRAPH_INTERRUPT_EVENT => "LangGraphInterruptEvent"
  | PREDICT_STATE => "PredictState"
  | EXIT => "Exit"
  end.

(** A field of an event dictionary: a member of one of the two [Enum]
    classes, or plain data. *)
Inductive pyval : Type :=
| PType (t : RuntimeEventTypes)
| PName (n : RuntimeMetaEventName)
| PJson (j : json).

(** An event is a Python [dict]; the [TypedDict] classes only annotate it. *)
Definition event := list (string * pyval).

Definition RuntimeEventTypes_eqb (a b : RuntimeEventTypes) : bool :=
  String.eqb (RuntimeEventTypes_value a) (RuntimeEventTypes_value b).

(** [v == RuntimeEventTypes.X]: a plain [Enum] member equals only itself. *)
Definition is_type (v : pyval) (t : RuntimeEventTypes) : bool :=
  match v with
  | PType t' => RuntimeEventTypes_eqb t' t
  | _ => false
  end.

(** [v in [RuntimeEventTypes.X, ...]] *)
Definition type_in (v : pyval) (ts : list RuntimeEventTypes) : bool :=
  existsb (is_type v) ts.

(** [v == RuntimeMetaEventName.X] *)
Definition is_name (v : pyval) (n : RuntimeMetaEventName) : bool :=
  match v, n with
  | PName LANG_GRAPH_INTERRUPT_EVENT, LANG_GRAPH_INTERRUPT_EVENT => true
  | PName PREDICT_STATE, PREDICT_STATE => true
  | PName EXIT, EXIT => true
  | _, _ => false
  end.

(** An [Optional[str]] argument as data. *)
Definition opt_str (o : option string) : json :=
  match o with
  | Some s => JStr s
  | None => JNull
  end.

(** *** The helper constructors *)

Definition text_message_start (message_id : string)
  (parent_message_id : option string) : event :=
  [ ("type", PType TEXT_MESSAGE_START);
    ("messageId", PJson (JStr message_id));
    ("parentMessageId", PJson (opt_str parent_message_id)) ].

Definition text_message_content (message_id content : string) : event :=
  [ ("type", PType TEXT_MESSAGE_CONTENT);
    ("messageId", PJson (JStr message_id));
    ("content", PJson (JStr content)) ].

Definition text_message_end (message_id : string) : event :=
  [ ("type", PType TEXT_MESSAGE_END);
    ("messageId", PJson (JStr message_id)) ].

Definition action_execution_start (action_execution_id action_name : string)
  (parent_message_id : option string) : event :=
  [ ("type", PType ACTION_EXECUTION_START);
    ("actionExecutionId", PJson (JStr action_execution_id));
    ("actionName", PJson (JStr action_name));
    ("parentMessageId", PJson (opt_str parent_message_id)) ].

Definition action_execution_args (action_execution_id args : string) : event :=
  [ ("type", PType ACTION_EXECUTION_ARGS);
    ("actionExecutionId", PJson (JStr action_execution_id));
    ("args", PJson (JStr args)) ].

Definition action_execution_end (action_execution_id : string) : event :=
  [ ("type", PType ACTION_EXECUTION_END);
    ("actionExecutionId", PJson (JStr action_execution_id)) ].

Definition action_execution_result
  (action_name action_execution_id result : string) : event :=
  [ ("type", PType ACTION_EXECUTION_RESULT);
    ("actionName", PJson (JStr action_name));
    ("actionExecutionId", PJson (JStr action_execution_id));
    ("result", PJson (JStr result)) ].

(** [node_name] is passed as the run loop holds it, which is whatever the
    last NodeStarted event carried. *)
Definition agent_state_message (thread_id agent_name : string)
  (node_name : pyval) (run_id : string) (active : bool)
  (role state : string) (running : bool) : event :=
  [ ("type", PType AGENT_STATE_MESSAGE);
    ("threadId", PJson (JStr thread_id));
    ("agentName", PJson (JStr agent_name));
    ("nodeName", node_name);
    ("runId", PJson (JStr run_id));
    ("active", PJson (JBool active));
    ("role", PJson (JStr role));
    ("state", PJson (JStr state));
    ("running", PJson (JBool running)) ].

Definition meta_event (name : RuntimeMetaEventName) (value : json) : event :=
  [ ("type", PType META_EVENT);
    ("name", PName name);
    ("value", PJson value) ].

(** *** The serializer *)

(** [v.value if isinstance(v, Enum) else v] *)
Definition enum_to_value (v : pyval) : json :=
  match v with
  | PType t => JStr (RuntimeEventTypes_value t)
  | PName n => JStr (RuntimeMetaEventName_value n)
  | PJson j => j
  end.

(** The inner [serialize_event]; its [isinstance(event, dict)] test holds
    for every event. *)
Definition serialize_event (e : event) : dict :=
  map (fun kv => (fst kv, enum_to_value (snd kv))) e.

Definition emit_runtime_events (events : list event) : string :=
  String.concat NL (map (fun e => json_dumps (JDict (serialize_event e))) events)
  ++ NL.

Definition emit_runtime_event (e : event) : string :=
  emit_runtime_events [e].

End Protocol.
Export Protocol.

(* ------------------------------------------------------------------ *)
(** ** runloop.py *)
(* ------------------------------------------------------------------ *)

Module Runloop.

(** [CopilotKitRunExecution].  The fields the dispatcher fills from an
    event hold whatever the event carried. *)
Record CopilotKitRunExecution : Type := mkExecution {
  thread_id : string;
  agent_name : string;
  run_id : string;
  should_exit : pyval;
  node_name : pyval;
  is_finished : bool;
  predict_state_configuration : pyval;
  predicted_state : dict;
  argument_buffer : string;
  current_tool_call : pyval;
  state : pyval
}.

Definition set_should_exit (v : pyval) (x : CopilotKitRunExecution) :=
  mkExecution (thread_id x) (agent_name x) (run_id x) v (node_name x)
    (is_finished x) (predict_state_configuration x) (predicted_state x)
    (argument_buffer x) (current_tool_call x) (state x).

Definition set_node_name (v : pyval) (x : CopilotKitRunExecution) :=
  mkExecution (thread_id x) (agent_name x) (run_id x) (should_exit x) v
    (is_finished x) (predict_state_configuration x) (predicted_state x)
    (argument_buffer x) (current_tool_call x) (state x).

Definition set_is_finished (v : bool) (x : CopilotKitRunExecution) :=
  mkExecution (thread_id x) (agent_name x) (run_id x) (should_exit x)
    (node_name x) v (predict_state_configuration x) (predicted_state x)
    (argument_buffer x) (current_tool_call x) (state x).

Definition set_predict_state_configuration (v : pyval)
  (x : CopilotKitRunExecution) :=
  mkExecution (thread_id x) (agent_name x) (run_id x) (should_exit x)
    (node_name x) (is_finished x) v (predicted_state x)
    (argument_buffer x) (current_tool_call x) (state x).

Definition set_predicted_state (v : dict) (x : CopilotKitRunExecution) :=
  mkExecution (thread_id x) (agent_name x) (run_id x) (should_exit x)
    (node_name x) (is_finished x) (predict_state_configuration x) v
    (argument_buffer x) (current_tool_call x) (state x).

Definition set_argument_buffer (v : string) (x : CopilotKitRunExecution) :=
  mkExecution (thread_id x) (agent_name x) (run_id x) (should_exit x)
    (node_name x) (is_finished x) (predict_state_configuration x)
    (predicted_state x) v (current_tool_call x) (state x).

Definition set_current_tool_call (v : pyval) (x : CopilotKitRunExecution) :=
  mkExecution (thread_id x) (agent_name x) (run_id x) (should_exit x)
    (node_name x) (is_finished x) (predict_state_configuration x)
    (predicted_state x) (argument_buffer x) v (state x).

Definition set_state (v : pyval) (x : CopilotKitRunExecution) :=
  mkExecution (thread_id x) (agent_name x) (run_id x) (should_exit x)
    (node_name x) (is_finished x) (predict_state_configuration x)
    (predicted_state x) (argument_buffer x) (current_tool_call x) v.

(** *** Computations over the execution record *)

Definition M (A : Type) : Type :=
  CopilotKitRunExecution -> result A * CopilotKitRunExecution.

Definition ret {A : Type} (a : A) : M A := fun x => (Ok a, x).

Definition raise {A : Type} (e : exn) : M A := fun x => (Raise e, x).

Definition bind {A B : Type} (m : M A) (f : A -> M B) : M B :=
  fun x =>
    match m x with
    | (Ok a, x') => f a x'
    | (Raise e, x') => (Raise e, x')
    end.

(** [execution[...]] read through a projection. *)
Definition read {A : Type} (proj : CopilotKitRunExecution -> A) : M A :=
  fun x => (Ok (proj x), x).

(** [execution[...] = v] through a setter. *)
Definition write (upd : CopilotKitRunExecution -> CopilotKitRunExecution)
  : M unit :=
  fun x => (Ok tt, upd x).

Definition lift {A : Type} (r : result A) : M A := fun x => (r, x).

Declare Scope py_scope.
Delimit Scope py_scope with py.
Notation "x <- m ;; k" := (bind m (fun x => k))
  (at level 61, m at next level, right associativity) : py_scope.
Notation "m ;; k" := (bind m (fun _ => k))
  (at level 61, right associativity) : py_scope.
Local Open Scope py_scope.

(** [event[key]] *)
Definition item (e : event) (key : string) : M pyval :=
  match dict_get key e with
  | Some v => ret v
  | None => raise (KeyError key)
  end.

(** *** [_filter_state] *)

Definition _to_dict_if_pydantic (obj : pyval) : pyval := obj.

(** [exclude_keys or ["messages", "id"]]: an empty list is falsy too. *)
Definition default_exclude_keys (exclude_keys : option (list string))
  : list string :=
  match exclude_keys with
  | None | Some [] => ["messages"; "id"]
  | Some l => l
  end.

Definition _filter_state (state : pyval) (exclude_keys : option (list string))
  : result dict :=
  let state := _to_dict_if_pydantic state in
  let exclude_keys := default_exclude_keys exclude_keys in
  match state with
  | PJson (JDict d) =>
      Ok (filter (fun kv => negb (str_in (fst kv) exclude_keys)) d)
  | _ => Raise (AttributeError "items")
  end.

(** *** [predict_state] *)

(** [a == b] where [a] is data and [b] any field value. *)
Definition py_eqb (a : json) (b : pyval) : bool :=
  match b with
  | PJson j => json_eqb a j
  | _ => false
  end.

(** [x not in tool_names] is [negb (py_in x tool_names)]. *)
Definition py_in (x : pyval) (l : list json) : bool :=
  match x with
  | PJson j => existsb (json_eqb j) l
  | _ => false
  end.

(** [execution["predict_state_configuration"].values()] / [.items()] *)
Definition config_items (c : pyval) (attr : string)
  : result (list (string * json)) :=
  match c with
  | PJson (JDict d) => Ok d
  | _ => Raise (AttributeError attr)
  end.

(** [config.get("tool_name")], [None] when the key is missing. *)
Definition config_get (config : json) (key : string) : result json :=
  match config with
  | JDict d =>
      match dict_get key d with
      | Some v => Ok v
      | None => Ok JNull
      end
  | _ => Raise (AttributeError "get")
  end.

(** [[config.get("tool_name") for config in configs]] *)
Fixpoint tool_names_of (configs : list json) : result (list json) :=
  match configs with
  | [] => Ok []
  | c :: r =>
      match config_get c "tool_name" with
      | Raise e => Raise e
      | Ok n =>
          match tool_names_of r with
          | Raise e => Raise e
          | Ok ns => Ok (n :: ns)
          end
      end
  end.

(** [v["tool_name"]] on a configuration entry. *)
Definition config_item (v : json) (key : string) : result json :=
  match v with
  | JDict d =>
      match dict_get key d with
      | Some w => Ok w
      | None => Raise (KeyError key)
      end
  | _ => Raise (TypeError "not subscriptable")
  end.

(** [current_arguments.get(tool_argument)]: the parsed value must be a
    dictionary and the key hashable; the keys of a parsed object are
    strings, so no other key is found. *)
Definition arguments_get (current_arguments tool_argument : json)
  : result json :=
  match current_arguments with
  | JDict d =>
      match tool_argument with
      | JStr k =>
          match dict_get k d with
          | Some v => Ok v
          | None => Ok JNull
          end
      | JList _ | JDict _ => Raise (TypeError "unhashable type")
      | _ => Ok JNull
      end
  | _ => Raise (AttributeError "get")
  end.

Definition is_none (j : json) : bool :=
  match j with
  | JNull => true
  | _ => false
  end.

(** The body of [for k, v in ...items()], threading [emit_update]. *)
Fixpoint predict_loop (items : list (string * json)) (current_arguments : json)
  (emit_update : bool) : M bool :=
  match items with
  | [] => ret emit_update
  | (k, v) :: rest =>
      tool_name <- lift (config_item v "tool_name") ;;
      current <- read current_tool_call ;;
      if py_eqb tool_name current then
        tool_argument <- lift (config_get v "tool_argument") ;;
        if negb (is_none tool_argument) then
          argument_value <- lift (arguments_get current_arguments tool_argument) ;;
          if negb (is_none argument_value) then
            ps <- read predicted_state ;;
            write (set_predicted_state (dict_set k argument_value ps)) ;;
            predict_loop rest current_arguments true
          else predict_loop rest current_arguments emit_update
        else
          ps <- read predicted_state ;;
          write (set_predicted_state (dict_set k current_arguments ps)) ;;
          predict_loop rest current_arguments true
      else predict_loop rest current_arguments emit_update
  end.

(** [{**execution["state"], **execution["predicted_state"]}] *)
Definition merged_state (st : pyval) (predicted : dict) : result pyval :=
  match st with
  | PJson (JDict d) => Ok (PJson (JDict (dict_merge d predicted)))
  | _ => Raise (TypeError "not a mapping")
  end.

Section WithParser.

(** [PartialJSONParser().parse] of the third-party package [partialjson]:
    [None] stands for any exception it raises. *)
Variable partial_parse : string -> option json.

Definition predict_state (thread_id agent_name run_id : string) (ev : event)
  : M (option event) :=
  ty <- item ev "type" ;;
  if is_type ty ACTION_EXECUTION_START then
    name <- item ev "actionName" ;;
    write (set_current_tool_call name) ;;
    write (set_argument_buffer "") ;;
    ret None
  else if is_type ty ACTION_EXECUTION_ARGS then
    buf <- read argument_buffer ;;
    args <- item ev "args" ;;
    match args with
    | PJson (JStr chunk) =>
        write (set_argument_buffer (buf ++ chunk)) ;;
        cfg <- read predict_state_configuration ;;
        configs <- lift (config_items cfg "values") ;;
        tool_names <- lift (tool_names_of (dict_values configs)) ;;
        current <- read current_tool_call ;;
        if negb (py_in current tool_names) then ret None
        else
          buf' <- read argument_buffer ;;
          match partial_parse buf' with
          | None => ret None
          | Some current_arguments =>
              cfg' <- read predict_state_configuration ;;
              items <- lift (config_items cfg' "items") ;;
              emit_update <- predict_loop items current_arguments false ;;
              if (emit_update : bool) then
                node <- read node_name ;;
                st <- read state ;;
                ps <- read predicted_state ;;
                merged <- lift (merged_state st ps) ;;
                filtered <- lift (_filter_state merged None) ;;
                ret (Some (agent_state_message thread_id agent_name node run_id
                             true "assistant" (json_dumps (JDict filtered))
                             true))
              else ret None
          end
    | _ => raise (TypeError "can only concatenate str to str")
    end
  else ret None.

(** *** [handle_runtime_event]

    The [print] calls of the RUN_ERROR branch write to standard output
    only; they are not part of the model. *)

Definition protocol_event_types : list RuntimeEventTypes :=
  [ TEXT_MESSAGE_START; TEXT_MESSAGE_CONTENT; TEXT_MESSAGE_END;
    ACTION_EXECUTION_START; ACTION_EXECUTION_ARGS; ACTION_EXECUTION_END;
    ACTION_EXECUTION_RESULT; AGENT_STATE_MESSAGE ].

Definition predicting_event_types : list RuntimeEventTypes :=
  [ ACTION_EXECUTION_START; ACTION_EXECUTION_ARGS ].

(** The [AgentStateMessage] of the NODE_STARTED and NODE_FINISHED
    branches, built from the record as it stands. *)
Definition node_state_message (active : bool) : M event :=
  tid <- read thread_id ;;
  an <- read agent_name ;;
  node <- read node_name ;;
  rid <- read run_id ;;
  st <- read state ;;
  filtered <- lift (_filter_state st None) ;;
  ret (agent_state_message tid an node rid active "assistant"
         (json_dumps (JDict filtered)) true).

Definition handle_runtime_event (ev : event) : M (option string) :=
  ty <- item ev "type" ;;
  if type_in ty protocol_event_types then
    events <-
      (if type_in ty predicting_event_types then
         tid <- read thread_id ;;
         an <- read agent_name ;;
         rid <- read run_id ;;
         message <- predict_state tid an rid ev ;;
         match message with
         | Some m => ret [ev; m]
         | None => ret [ev]
         end
       else ret [ev]) ;;
    ret (Some (emit_runtime_events events))
  else if is_type ty META_EVENT then
    name <- item ev "name" ;;
    if is_name name PREDICT_STATE then
      value <- item ev "value" ;;
      write (set_predict_state_configuration value) ;;
      ret None
    else if is_name name EXIT then
      value <- item ev "value" ;;
      write (set_should_exit value) ;;
      ret None
    else ret None
  else if is_type ty RUN_STARTED then
    st <- item ev "state" ;;
    write (set_state st) ;;
    ret None
  else if is_type ty NODE_STARTED then
    node <- item ev "node_name" ;;
    write (set_node_name node) ;;
    st <- item ev "state" ;;
    write (set_state st) ;;
    message <- node_state_message true ;;
    ret (Some (emit_runtime_event message))
  else if is_type ty NODE_FINISHED then
    write (set_predict_state_configuration (PJson (JDict []))) ;;
    write (set_current_tool_call (PJson JNull)) ;;
    write (set_argument_buffer "") ;;
    write (set_predicted_state []) ;;
    st <- item ev "state" ;;
    write (set_state st) ;;
    message <- node_state_message false ;;
    ret (Some (emit_runtime_event message))
  else if is_type ty RUN_FINISHED then
    write (set_is_finished true) ;;
    ret None
  else if is_type ty RUN_ERROR then
    error_info <- item ev "error" ;;
    write (set_is_finished true) ;;
    ret None
  else ret None.

(** *** [copilotkit_run]

    The queue is given as the list of events the producer task puts on
    it, in the order it puts them.  The generator yields one text per
    handled event that forwards something. *)

Inductive run_end : Type :=
| Finished           (* left the loop through [break]; the stream ends *)
| Waiting            (* queue drained, [local_queue.get()] is pending *)
| Failed (e : exn).  (* the handler raised *)

Fixpoint copilotkit_run (queue : list event) (execution : CopilotKitRunExecution)
  : list string * run_end * CopilotKitRunExecution :=
  match queue with
  | [] => ([], Waiting, execution)
  | ev :: rest =>
      match handle_runtime_event ev execution with
      | (Raise e, execution') => ([], Failed e, execution')
      | (Ok json_lines, execution') =>
          let yielded :=
            match json_lines with
            | Some text => [text]
            | None => []
            end in
          if is_finished execution' then (yielded, Finished, execution')
          else
            match copilotkit_run rest execution' with
            | (more, e, final) => ((yielded ++ more)%list, e, final)
            end
      end
  end.

(** The dispatcher applied to a sequence of events, regardless of
    [is_finished]; it stops at the first exception. *)
Fixpoint handle_all (evs : list event) (x : CopilotKitRunExecution)
  : result (list (option string)) * CopilotKitRunExecution :=
  match evs with
  | [] => (Ok [], x)
  | ev :: rest =>
      match handle_runtime_event ev x with
      | (Raise e, x') => (Raise e, x')
      | (Ok out, x') =>
          match handle_all rest x' with
          | (Ok outs, x'') => (Ok (out :: outs), x'')
          | (Raise e, x'') => (Raise e, x'')
          end
      end
  end.

End WithParser.

End Runloop.
Export Runloop.

(* ------------------------------------------------------------------ *)
(** ** The tolerant parser *)
(* ------------------------------------------------------------------ *)

Module PartialJson.

(** The source calls [PartialJSONParser().parse], from the third-party
    package [partialjson]; the package is not part of the repository.
    This module holds a reader with the tolerance section 4.3 of the
    specification asks of it. *)

Definition is_space (c : ascii) : bool :=
  let n := nat_of_ascii c in
  Nat.eqb n 32 || Nat.eqb n 9 || Nat.eqb n 10 || Nat.eqb n 13.

Fixpoint lstrip (s : string) : string :=
  match s with
  | EmptyString => EmptyString
  | String c r => if is_space c then lstrip r else s
  end.

Definition is_digit (c : ascii) : bool :=
  let n := nat_of_ascii c in
  Nat.leb 48 n && Nat.leb n 57.

(** The digits a text starts with, and what follows them. *)
Fixpoint span_digits (s : string) : string * string :=
  match s with
  | EmptyString => (EmptyString, EmptyString)
  | String c r =>
      if is_digit c then
        let (digits, rest) := span_digits r in (String c digits, rest)
      else (EmptyString, s)
  end.

Definition starts_float_part (s : string) : bool :=
  match s with
  | String c _ =>
      Ascii.eqb c "."%char || Ascii.eqb c "e"%char || Ascii.eqb c "E"%char
  | EmptyString => false
  end.

(** An optional sign and digits, read as Python's [int(...)].  The data
    of this model has no floating-point numbers: digits that go on with
    a fraction or an exponent are given no reading here. *)
Definition parse_number (s : string) : option (json * string) :=
  let (sign, r) :=
    match s with
    | String c r => if Ascii.eqb c "-"%char then ("-", r) else ("", s)
    | EmptyString => ("", s)
    end in
  let (digits, rest) := span_digits r in
  if starts_float_part rest then None
  else
    match NilZero.int_of_string (sign ++ digits) with
    | Some d => Some (JInt (Z.of_int d), rest)
    | None => None
    end.

(** A literal, possibly cut short by the end of the input. *)
Fixpoint parse_literal (lit s : string) : option string :=
  match lit, s with
  | EmptyString, _ => Some s
  | String _ _, EmptyString => Some EmptyString
  | String a lit', String b s' =>
      if Ascii.eqb a b then parse_literal lit' s' else None
  end.

Definition hex_value (c : ascii) : option nat :=
  let n := nat_of_ascii c in
  if Nat.leb 48 n && Nat.leb n 57 then Some (n - 48)
  else if Nat.leb 97 n && Nat.leb n 102 then Some (n - 87)
  else if Nat.leb 65 n && Nat.leb n 70 then Some (n - 55)
  else None.

(** The character a one-letter escape stands for. *)
Definition unescape (c : ascii) : option ascii :=
  let n := nat_of_ascii c in
  if Nat.eqb n 34 then Some dquote
  else if Nat.eqb n 92 then Some backslash
  else if Nat.eqb n 47 then Some "/"%char
  else if Nat.eqb n 110 then Some newline
  else if Nat.eqb n 114 then Some "013"%char
  else if Nat.eqb n 116 then Some "009"%char
  else if Nat.eqb n 98 then Some "008"%char
  else if Nat.eqb n 102 then Some "012"%char
  else None.

Definition push (c : ascii) (r : option (string * string))
  : option (string * string) :=
  match r with
  | Some (body, rest) => Some (String c body, rest)
  | None => None
  end.

(** A character that JSON allows inside a string only as an escape. *)
Definition is_control (c : ascii) : bool := Nat.ltb (nat_of_ascii c) 32.

(** The body of a string after its opening quote: the decoded text and
    what follows the closing quote.  A string the input ends in is taken
    as far as it goes.  A string that is closed has to be a JSON string:
    [raw_control] remembers a control character met unescaped, which
    makes the closing quote a failure. *)
Fixpoint parse_string_from (raw_control : bool) (s : string)
  : option (string * string) :=
  match s with
  | EmptyString => Some (EmptyString, EmptyString)
  | String c r =>
      if Ascii.eqb c dquote then
        if raw_control then None else Some (EmptyString, r)
      else if Ascii.eqb c backslash then
        match r with
        | EmptyString => Some (EmptyString, EmptyString)
        | String e r' =>
            match unescape e with
            | Some ch => push ch (parse_string_from raw_control r')
            | None =>
                if Ascii.eqb e "u"%char then
                  match r' with
                  | String h1 (String h2 (String h3 (String h4 r''))) =>
                      match hex_value h1, hex_value h2,
                            hex_value h3, hex_value h4 with
                      | Some 0, Some 0, Some a, Some b =>
                          push (ascii_of_nat (16 * a + b))
                            (parse_string_from raw_control r'')
                      | _, _, _, _ => None
                      end
                  | _ => Some (EmptyString, EmptyString)
                  end
                else None
            end
        end
      else push c (parse_string_from (raw_control || is_control c) r)
  end.

Definition parse_string (s : string) : option (string * string) :=
  parse_string_from false s.

(** Modelled from the spec: the tolerant partial parse of section 4.3,
    in place of the parser of the package [partialjson].  It accepts
    syntactically incomplete input (unterminated strings, unclosed braces
    and arrays), returns the partial object implied by as much
    well-formed prefix as it can recover, and fails on anything else.
    It is a recursive-descent reader that takes the end of the input for
    the end of whatever is open; numbers are integers, and a key whose
    value has not started yet maps to [None].  [fuel] bounds the depth of
    the recursion. *)
Fixpoint parse_any (fuel : nat) (s : string) {struct fuel}
  : option (json * string) :=
  match fuel with
  | O => None
  | S fuel' =>
      match lstrip s with
      | EmptyString => None
      | String c r as s' =>
          if Ascii.eqb c "{"%char then parse_object fuel' r []
          else if Ascii.eqb c "["%char then parse_array fuel' r []
          else if Ascii.eqb c dquote then
            match parse_string r with
            | Some (body, rest) => Some (JStr body, rest)
            | None => None
            end
          else if Ascii.eqb c "t"%char then
            option_map (fun rest => (JBool true, rest)) (parse_literal "true" s')
          else if Ascii.eqb c "f"%char then
            option_map (fun rest => (JBool false, rest)) (parse_literal "false" s')
          else if Ascii.eqb c "n"%char then
            option_map (fun rest => (JNull, rest)) (parse_literal "null" s')
          else parse_number s'
      end
  end

with parse_object (fuel : nat) (s : string) (acc : dict) {struct fuel}
  : option (json * string) :=
  match fuel with
  | O => None
  | S fuel' =>
      match lstrip s with
      | EmptyString => Some (JDict acc, EmptyString)
      | String c r =>
          if Ascii.eqb c "}"%char then Some (JDict acc, r)
          else if Ascii.eqb c dquote then
            match parse_string r with
            | None => None
            | Some (key, after_key) =>
                match lstrip after_key with
                | EmptyString => Some (JDict (dict_set key JNull acc), EmptyString)
                | String c1 r1 =>
                    if Ascii.eqb c1 "}"%char then
                      Some (JDict (dict_set key JNull acc), r1)
                    else if Ascii.eqb c1 ":"%char then
                      match lstrip r1 with
                      | EmptyString =>
                          Some (JDict (dict_set key JNull acc), EmptyString)
                      | String c2 r2 as value_text =>
                          if Ascii.eqb c2 "}"%char then
                            Some (JDict (dict_set key JNull acc), r2)
                          else
                            match parse_any fuel' value_text with
                            | None => None
                            | Some (value, after_value) =>
                                let acc' := dict_set key value acc in
                                match lstrip after_value with
                                | String c3 r3 =>
                                    if Ascii.eqb c3 ","%char
                                    then parse_object fuel' r3 acc'
                                    else parse_object fuel' (String c3 r3) acc'
                                | EmptyString => Some (JDict acc', EmptyString)
                                end
                            end
                      end
                    else None
                end
            end
          else None
      end
  end

with parse_array (fuel : nat) (s : string) (acc : list json) {struct fuel}
  : option (json * string) :=
  match fuel with
  | O => None
  | S fuel' =>
      match lstrip s with
      | EmptyString => Some (JList acc, EmptyString)
      | String c r as s' =>
          if Ascii.eqb c "]"%char then Some (JList acc, r)
          else
            match parse_any fuel' s' with
            | None => None
            | Some (value, after_value) =>
                let acc' := (acc ++ [value])%list in
                match lstrip after_value with
                | String c3 r3 =>
                    if Ascii.eqb c3 ","%char
                    then parse_array fuel' r3 acc'
                    else parse_array fuel' (String c3 r3) acc'
                | EmptyString => Some (JList acc', EmptyString)
                end
            end
      end
  end.

(** Modelled from the spec: [PartialJSONParser().parse(s)], the tolerant
    partial parse of section 4.3 as a whole; [None] is an unrecoverable
    failure.  The empty text reads as the empty object. *)
Definition parse (s : string) : option json :=
  match s with
  | EmptyString => Some (JDict [])
  | _ => option_map fst (parse_any (2 * String.length s + 2) s)
  end.

(** Modelled from the spec: the decoding a client of the stream does of
    a JSON-encoded string such as the [state] field (section 6).  It is
    the same reader, which here must consume the whole text. *)
Definition json_loads (s : string) : option json :=
  match parse_any (2 * String.length s + 2) s with
  | Some (j, EmptyString) => Some j
  | _ => None
  end.

(** Characters a JSON value begins with, and texts that may follow a
    value inside a list or an object. *)
Definition value_start (c : ascii) : bool :=
  is_digit c || Ascii.eqb c "-" || Ascii.eqb c "{" || Ascii.eqb c "["
  || Ascii.eqb c dquote || Ascii.eqb c "t" || Ascii.eqb c "f"
  || Ascii.eqb c "n".

Definition ends_value (rest : string) : bool :=
  match rest with
  | EmptyString => true
  | String c _ => Ascii.eqb c "," || Ascii.eqb c "]" || Ascii.eqb c "}"
  end.

Definition stops_digits (rest : string) : bool :=
  match rest with
  | EmptyString => true
  | String c _ => negb (is_digit c)
  end.

Definition ends_number (rest : string) : bool :=
  stops_digits rest && negb (starts_float_part rest).

(** One [key: value] entry as [json.dumps] prints it. *)
Definition entry_text (kv : string * json) : string :=
  encode_basestring_ascii (fst kv) ++ ": " ++ json_dumps (snd kv).

(** The recursion depth reading [json_dumps j] takes. *)
Fixpoint fuel_of (j : json) : nat :=
  match j with
  | JList l => 2 + fold_right (fun x n => 1 + fuel_of x + n) 0 l
  | JDict d => 2 + fold_right (fun kv n => 1 + fuel_of (snd kv) + n) 0 d
  | _ => 1
  end.

Definition array_fuel (l : list json) : nat :=
  fold_right (fun x n => 1 + fuel_of x + n) 0 l.

Definition object_fuel (d : dict) : nat :=
  fold_right (fun kv n => 1 + fuel_of (snd kv) + n) 0 d.

(** [json_dumps j], followed by anything that may follow a value, is
    read back as [j]. *)
Definition reads (j : json) : Prop :=
  forall rest, ends_value rest = true ->
    parse_any (fuel_of j) (json_dumps j ++ rest) = Some (j, rest).

End PartialJson.

(* ------------------------------------------------------------------ *)
(** ** Vocabulary of the statements *)
(* ------------------------------------------------------------------ *)

Module Statements.

(** The JSON line of one event, without its newline. *)
Definition json_line (e : event) : string :=
  json_dumps (JDict (serialize_event e)).

(** The wire form of a top-level field. *)
Definition wire_value (v : pyval) : json :=
  match v with
  | PType t => JStr (RuntimeEventTypes_value t)
  | PName n => JStr (RuntimeMetaEventName_value n)
  | PJson j => j
  end.

(** What [_filter_state] keeps with its default keys. *)
Definition keep_default (d : dict) : dict :=
  filter (fun kv => negb (str_in (fst kv) ["messages"; "id"])) d.

(** Every event type the dispatcher has a branch for. *)
Definition handled_event_types : list RuntimeEventTypes :=
  (protocol_event_types ++
   [META_EVENT; RUN_STARTED; NODE_STARTED; NODE_FINISHED; RUN_FINISHED;
    RUN_ERROR])%list.



(** The prediction fields of [x'] put on top of [x]. *)
Definition with_prediction_of (x' x : CopilotKitRunExecution) :=
  set_predicted_state (predicted_state x')
    (set_argument_buffer (argument_buffer x')
       (set_current_tool_call (current_tool_call x') x)).

(** An AgentStateMessage event. *)
Definition is_snapshot (m : event) : Prop :=
  dict_get "type" m = Some (PType AGENT_STATE_MESSAGE).

(** What may be forwarded for one event taken from the queue: a protocol
    event goes out as it is, first, and only a tool start or a tool
    chunk may be followed, in the same text, by one snapshot; any other
    event forwards nothing or one snapshot. *)
Definition forwards (ev : event) (out : option string) : Prop :=
  match dict_get "type" ev with
  | None => False
  | Some ty =>
      if type_in ty protocol_event_types then
        out = Some (emit_runtime_events [ev])
        \/ (type_in ty predicting_event_types = true
            /\ exists m, is_snapshot m
                         /\ out = Some (emit_runtime_events [ev; m]))
      else
        out = None
        \/ exists m, is_snapshot m /\ out = Some (emit_runtime_events [m])
  end.

(** The texts a generator yields for a sequence of handler results. *)
Definition yields (outs : list (option string)) : list string :=
  flat_map (fun o => match o with
                     | Some text => [text]
                     | None => []
                     end) outs.

(** [d'] is [d] without the bookkeeping keys: it has neither
    ["messages"] nor ["id"], and agrees with [d] on every other key. *)
Definition business_state_of (d' d : dict) : Prop :=
  dict_get "messages" d' = None
  /\ dict_get "id" d' = None
  /\ forall k, k <> "messages" -> k <> "id" -> dict_get k d' = dict_get k d.

(** The ["state"] field of a snapshot is the JSON text of [d']. *)
Definition carries_state (m : event) (d' : dict) : Prop :=
  dict_get "state" m = Some (PJson (JStr (json_dumps (JDict d')))).

(** The object a client decodes from the ["state"] field of a snapshot. *)
Definition decoded_state (m : event) : option json :=
  match dict_get "state" m with
  | Some (PJson (JStr text)) => PartialJson.json_loads text
  | _ => None
  end.

(** The agent state and the predicted values are proper Python data. *)
Definition proper_state (st predicted : dict) : bool :=
  well_formed (JDict st) && forallb (fun kv => well_formed (snd kv)) predicted.

(** A [PredictStateConfig] entry: a [tool_name] string and an optional
    [tool_argument] string. *)
Definition config_ok (c : json) : bool :=
  match c with
  | JDict d =>
      match dict_get "tool_name" d with
      | Some (JStr _) =>
          match dict_get "tool_argument" d with
          | None | Some JNull | Some (JStr _) => true
          | _ => false
          end
      | _ => false
      end
  | _ => false
  end.

End Statements.
Export Statements.

(* ------------------------------------------------------------------ *)
(** ** The concrete scenarios *)
(* ------------------------------------------------------------------ *)

Module Scenarios.

(** The execution record of the [copilotkit_run] docstring. *)
Definition fresh_execution : CopilotKitRunExecution :=
  mkExecution "thread_1" "assistant" "run_1" (PJson (JBool false))
    (PJson (JStr "")) false (PJson (JDict [])) [] "" (PJson JNull)
    (PJson (JDict [])).

(** Lifecycle events have no helper constructor; they are dictionary
    literals of the [TypedDict] shapes. *)
Definition run_started (st : json) : event :=
  [ ("type", PType RUN_STARTED); ("state", PJson st) ].

Definition run_finished (st : json) : event :=
  [ ("type", PType RUN_FINISHED); ("state", PJson st) ].

Definition node_started (name : string) (st : json) : event :=
  [ ("type", PType NODE_STARTED); ("node_name", PJson (JStr name));
    ("state", PJson st) ].

Definition node_finished (name : string) (st : json) : event :=
  [ ("type", PType NODE_FINISHED); ("node_name", PJson (JStr name));
    ("state", PJson st) ].

(** Scenario 1: a text message, then the end of the run. *)
Definition text_run : list event :=
  [ text_message_start "m1" None;
    text_message_content "m1" "Hi";
    text_message_end "m1";
    run_finished (JDict []) ].

(** Scenario 2: the state key ["name"] predicted from the argument
    ["name"] of the tool ["update_user"]. *)
Definition name_config : json :=
  JDict [ ("name", JDict [ ("tool_name", JStr "update_user");
                           ("tool_argument", JStr "name") ]) ].

Definition tool_start : event :=
  action_execution_start "exec1" "update_user" None.

Definition first_chunk : event :=
  action_execution_args "exec1" (py "{'name': 'Al").

Definition second_chunk : event :=
  action_execution_args "exec1" (py "ice'}").

Definition configured_execution : CopilotKitRunExecution :=
  set_predict_state_configuration (PJson name_config) fresh_execution.

(** The snapshot the predictor builds in scenario 2 for a run identified
    as in [x], whose filtered state is [d]. *)
Definition name_snapshot (x : CopilotKitRunExecution) (d : dict) : event :=
  agent_state_message (thread_id x) (agent_name x) (node_name x) (run_id x)
    true "assistant" (json_dumps (JDict d)) true.

(** An execution record in the middle of a tool call. *)
Definition busy_execution : CopilotKitRunExecution :=
  mkExecution "thread_1" "assistant" "run_1" (PJson (JBool false))
    (PJson (JStr "n1")) false (PJson name_config) [("name", JStr "Al")]
    (py "{'name': 'Al") (PJson (JStr "update_user"))
    (PJson (JDict [("id", JStr "t"); ("city", JStr "Oslo")])).

(** A whole run around scenario 2. *)
Definition full_run : list event :=
  [ run_started (JDict [("id", JStr "t"); ("city", JStr "Oslo")]);
    node_started "n1" (JDict [("id", JStr "t"); ("city", JStr "Oslo")]);
    meta_event PREDICT_STATE name_config;
    tool_start; first_chunk; second_chunk;
    action_execution_end "exec1";
    node_finished "n2" (JDict [("messages", JList []); ("name", JStr "Alice")]);
    run_finished (JDict []) ].

(** The record right after the tool start of scenario 2. *)
Definition started_execution : CopilotKitRunExecution :=
  set_argument_buffer ""
    (set_current_tool_call (PJson (JStr "update_user")) configured_execution).

(** A chunk the modelled parser cannot read: the number is cut inside
    its fraction. *)
Definition unreadable_chunk : event :=
  action_execution_args "exec1" (py "{'name': 1.").

(** The record and the snapshot after the second chunk, from
    [busy_execution]. *)
Definition predicted_execution : CopilotKitRunExecution :=
  set_predicted_state [("name", JStr "Alice")]
    (set_argument_buffer (py "{'name': 'Alice'}") busy_execution).

Definition alice_snapshot : event :=
  agent_state_message "thread_1" "assistant" (PJson (JStr "n1")) "run_1"
    true "assistant" (py "{'city': 'Oslo', 'name': 'Alice'}") true.

(** The end of the node of [full_run]. *)
Definition closing_event : event :=
  node_finished "n2" (JDict [("messages", JList []); ("name", JStr "Alice")]).

(** What handling [closing_event] from [predicted_execution] gives. *)
Definition closing_snapshot : event :=
  agent_state_message "thread_1" "assistant" (PJson (JStr "n1")) "run_1"
    false "assistant" (py "{'name': 'Alice'}") true.

Definition closed_execution : CopilotKitRunExecution :=
  mkExecution "thread_1" "assistant" "run_1" (PJson (JBool false))
    (PJson (JStr "n1")) false (PJson (JDict [])) [] "" (PJson JNull)
    (PJson (JDict [("messages", JList []); ("name", JStr "Alice")])).

(** Events no branch of the dispatcher knows. *)
Definition heartbeat : event :=
  [ ("type", PJson (JStr "Heartbeat")); ("beat", PJson (JInt 7)) ].

Definition interrupt : event :=
  meta_event LANG_GRAPH_INTERRUPT_EVENT (JDict [("message", JStr "wait")]).

End Scenarios.
Export Scenarios.

(* ------------------------------------------------------------------ *)
(** ** runloop.py: the context variables and [queue_put] *)
(* ------------------------------------------------------------------ *)

Module ContextVars.

(** [RuntimeError(msg)] *)
Inductive context_error : Type :=
| RuntimeError (msg : string).

(** The two context variables, both with default [None].  The variable
    [_CONTEXT_QUEUE] holds an [asyncio.Queue], given here by the events
    waiting in it, oldest first. *)
Record context : Type := mkContext {
  _CONTEXT_QUEUE : option (list event);
  _CONTEXT_EXECUTION : option CopilotKitRunExecution
}.

Definition default_context : context := mkContext None None.

Definition get_context_queue (c : context) : context_error + list event :=
  match _CONTEXT_QUEUE c with
  | None => inl (RuntimeError "No context queue is set!")
  | Some q => inr q
  end.

(** [ContextVar.set] returns a token that remembers the value before. *)
Definition set_context_queue (q : list event) (c : context)
  : option (list event) * context :=
  (_CONTEXT_QUEUE c, mkContext (Some q) (_CONTEXT_EXECUTION c)).

Definition reset_context_queue (token : option (list event)) (c : context)
  : context :=
  mkContext token (_CONTEXT_EXECUTION c).

(** No test for [None] here: outside a run the caller gets [None]. *)
Definition get_context_execution (c : context)
  : option CopilotKitRunExecution :=
  _CONTEXT_EXECUTION c.

Definition set_context_execution (x : CopilotKitRunExecution) (c : context)
  : option CopilotKitRunExecution * context :=
  (_CONTEXT_EXECUTION c, mkContext (_CONTEXT_QUEUE c) (Some x)).

Definition reset_context_execution (token : option CopilotKitRunExecution)
  (c : context) : context :=
  mkContext (_CONTEXT_QUEUE c) token.

(** [await q.put(event)]: the queue [copilotkit_run] binds is unbounded,
    so a put never waits. *)
Definition put (q : list event) (ev : event) : list event := (q ++ [ev])%list.

(** What a coroutine does with the queue, one step at a time: it is
    suspended and the other tasks run, or it puts one event. *)
Inductive step : Type :=
| Suspend
| Enqueue (ev : event).

(** [yield_control()]: the coroutine waits for a future that the event
    loop completes on its next turn, so every task that is ready runs
    once in between. *)
Definition yield_control : list step := [Suspend].

(** What the other tasks do with the queue while this one is suspended:
    producers put events at its back and the reader takes events from
    its front; given as the number of events taken and the events put. *)
Definition interference : Type := (nat * list event)%type.

Definition at_suspension (i : interference) (q : list event) : list event :=
  skipn (fst i) (q ++ snd i).

(** The steps of a coroutine, run against what the other tasks do at
    its suspension points, one entry of [others] for each in turn; once
    [others] has run out the other tasks leave the queue alone. *)
Fixpoint run_steps (steps : list step) (others : list interference)
  (q : list event) : list event :=
  match steps with
  | [] => q
  | Enqueue ev :: rest => run_steps rest others (put q ev)
  | Suspend :: rest =>
      match others with
      | [] => run_steps rest [] q
      | i :: others' => run_steps rest others' (at_suspension i q)
      end
  end.

(** The body of [queue_put]: without [priority] it first lets the other
    tasks run; then it puts the events one after the other with no
    suspension in between; then it lets the other tasks run. *)
Definition queue_put_steps (events : list event) (priority : bool)
  : list step :=
  ((if priority then [] else yield_control)
   ++ map Enqueue events ++ yield_control)%list.

(** [queue_put] among other tasks.  The context variable is read after
    the first suspension; a suspension does not change what this task's
    variable is bound to, so the lookup fails or succeeds as it would
    have before, and what the other tasks did meanwhile shows in the
    contents of the queue. *)
Definition queue_put_among (others : list interference) (events : list event)
  (priority : bool) (c : context) : context_error + context :=
  match get_context_queue c with
  | inl e => inl e
  | inr q =>
      inr (mkContext
             (Some (run_steps (queue_put_steps events priority) others q))
             (_CONTEXT_EXECUTION c))
  end.

(** [queue_put] while no other task touches the queue. *)
Definition queue_put (events : list event) (priority : bool) (c : context)
  : context_error + context :=
  queue_put_among [] events priority c.

End ContextVars.
Export ContextVars.

(* ------------------------------------------------------------------ *)
(** ** utils.py *)
(* ------------------------------------------------------------------ *)

Module Utils.

Fixpoint starts_with (p s : string) : bool :=
  match p, s with
  | EmptyString, _ => true
  | String a p', String b s' => Ascii.eqb a b && starts_with p' s'
  | String _ _, EmptyString => false
  end.

(** [sub in s] for two strings. *)
Fixpoint contains (sub s : string) : bool :=
  starts_with sub s ||
  match s with
  | EmptyString => false
  | String _ s' => contains sub s'
  end.

(** [k in schema]: key of a dictionary, element of a list, substring of
    a string; anything else is not iterable. *)
Definition schema_has (schema : json) (k : string) : result bool :=
  match schema with
  | JDict d =>
      Ok (match dict_get k d with
          | Some _ => true
          | None => false
          end)
  | JList l => Ok (existsb (json_eqb (JStr k)) l)
  | JStr s => Ok (contains k s)
  | _ => Raise (TypeError "argument is not iterable")
  end.

(** The dictionary comprehension, item by item. *)
Fixpoint schema_items (items : dict) (schema : json) : result dict :=
  match items with
  | [] => Ok []
  | (k, v) :: rest =>
      match schema_has schema k with
      | Raise e => Raise e
      | Ok found =>
          match schema_items rest schema with
          | Raise e => Raise e
          | Ok kept =>
              if found || String.eqb k "messages" then Ok ((k, v) :: kept)
              else Ok kept
          end
      end
  end.

(** The body of the [try]: [obj.items()] needs a dictionary. *)
Definition schema_filter (obj schema : json) : result json :=
  match obj with
  | JDict d =>
      match schema_items d schema with
      | Ok kept => Ok (JDict kept)
      | Raise e => Raise e
      end
  | _ => Raise (AttributeError "items")
  end.

Definition filter_by_schema_keys (obj schema : json) : json :=
  match schema_filter obj schema with
  | Ok filtered => filtered
  | Raise _ => obj
  end.

End Utils.
Export Utils.

(* ------------------------------------------------------------------ *)
(** ** Vocabulary for the behaviour of the run loop and of the filters *)
(* ------------------------------------------------------------------ *)

Module Behaviour.

(** One [emit_runtime_event] per event, the texts put end to end. *)
Definition emit_each (events : list event) : string :=
  String.concat "" (map emit_runtime_event events).

(** The protocol events the dispatcher passes on without looking at
    them: every protocol event but a tool start and a tool chunk. *)
Definition plain_event_types : list RuntimeEventTypes :=
  [ TEXT_MESSAGE_START; TEXT_MESSAGE_CONTENT; TEXT_MESSAGE_END;
    ACTION_EXECUTION_END; ACTION_EXECUTION_RESULT; AGENT_STATE_MESSAGE ].

Definition has_key {V : Type} (k : string) (d : list (string * V)) : bool :=
  match dict_get k d with
  | Some _ => true
  | None => false
  end.

(** The events that end a run: RunFinished, and a RunError that carries
    its ["error"] field. *)
Definition ends_run (ev : event) : bool :=
  match dict_get "type" ev with
  | Some ty =>
      is_type ty RUN_FINISHED || (is_type ty RUN_ERROR && has_key "error" ev)
  | None => false
  end.

(** What the run loop does with one event when it stops right after it. *)
Definition single_step (handled : result (option string) * CopilotKitRunExecution)
  : list string * run_end * CopilotKitRunExecution :=
  match handled with
  | (Ok out, x') => (yields [out], Finished, x')
  | (Raise e, x') => ([], Failed e, x')
  end.

(** A text of one or two newline-terminated lines and nothing else. *)
Definition one_or_two_lines (text : string) : Prop :=
  exists ls, split_lines text = (ls, "") /\ (length ls = 1 \/ length ls = 2).

(** The record after a NodeFinished event has reset the prediction
    working set. *)
Definition reset_prediction (x : CopilotKitRunExecution) :=
  set_predicted_state []
    (set_argument_buffer ""
       (set_current_tool_call (PJson JNull)
          (set_predict_state_configuration (PJson (JDict [])) x))).

Definition is_dict (j : json) : bool :=
  match j with
  | JDict _ => true
  | _ => false
  end.

Definition is_dict_value (v : pyval) : bool :=
  match v with
  | PJson j => is_dict j
  | _ => false
  end.

(** The [tool_name] of every entry of a configuration. *)
Definition configured_tools (cfg : dict) : list json :=
  map (fun c => match c with
                | JDict d =>
                    match dict_get "tool_name" d with
                    | Some n => n
                    | None => JNull
                    end
                | _ => JNull
                end) (dict_values cfg).

(** An entry for the current tool that names one of its arguments. *)
Definition needs_argument (current : pyval) (c : json) : bool :=
  match c with
  | JDict d =>
      match dict_get "tool_name" d, dict_get "tool_argument" d with
      | Some tn, Some (JStr _) => py_eqb tn current
      | _, _ => false
      end
  | _ => false
  end.

(** The value a well-typed configuration entry predicts from the parsed
    arguments [args] of the tool [current]: nothing for another tool;
    the whole object when the entry names no argument; else the named
    argument, unless it is missing or [None]. *)
Definition prediction_for (current : pyval) (args : dict) (c : json)
  : option json :=
  match c with
  | JDict d =>
      match dict_get "tool_name" d with
      | Some tn =>
          if py_eqb tn current then
            match dict_get "tool_argument" d with
            | None | Some JNull => Some (JDict args)
            | Some (JStr a) =>
                match dict_get a args with
                | Some v => if is_none v then None else Some v
                | None => None
                end
            | Some _ => None
            end
          else None
      | None => None
      end
  | _ => None
  end.

Definition predicts (current : pyval) (args : dict) (c : json) : bool :=
  match prediction_for current args c with
  | Some _ => true
  | None => false
  end.

(** The predictions of the entries of a configuration, written one after
    the other into a predicted state. *)
Definition predicted_after (current : pyval) (args : dict) (cfg : dict)
  (predicted : dict) : dict :=
  fold_left
    (fun ps kc =>
       match prediction_for current args (snd kc) with
       | Some v => dict_set (fst kc) v ps
       | None => ps
       end) cfg predicted.

(** Tool chunks as the producer streams them, each with the
    [actionExecutionId] it names and its piece of text. *)
Definition chunk_events (chunks : list (string * string)) : list event :=
  map (fun c => action_execution_args (fst c) (snd c)) chunks.

Definition chunk_texts (chunks : list (string * string)) : string :=
  String.concat "" (map snd chunks).

(** [k in schema or k == "messages"] for a dictionary [schema]. *)
Definition kept_by_schema (schema : dict) (k : string) : bool :=
  has_key k schema || String.eqb k "messages".

(** The values [in] works on. *)
Definition iterable (schema : json) : bool :=
  match schema with
  | JDict _ | JList _ | JStr _ => true
  | _ => false
  end.

End Behaviour.
Export Behaviour.

(* ------------------------------------------------------------------ *)
(** ** More concrete cases *)
(* ------------------------------------------------------------------ *)

Module Cases.

(** A text-message end whose type is spelled as a string, not given as
    the [Enum] member. *)
Definition spelled_end : event :=
  [ ("type", PJson (JStr "TextMessageEnd"));
    ("messageId", PJson (JStr "m1")) ].

Definition secret_state : dict :=
  [ ("secret", JInt 1); ("messages", JList []); ("city", JStr "Oslo") ].

(** The [RunError] shape. *)
Definition run_error (error : json) : event :=
  [ ("type", PType RUN_ERROR); ("error", PJson error) ].

(** A NodeStarted event that lacks its ["state"]. *)
Definition stateless_node_started : event :=
  [ ("type", PType NODE_STARTED); ("node_name", PJson (JStr "n2")) ].

Definition finished_execution : CopilotKitRunExecution :=
  set_is_finished true fresh_execution.

(** In the middle of a call of a tool no entry is configured for. *)
Definition search_execution : CopilotKitRunExecution :=
  set_current_tool_call (PJson (JStr "search")) started_execution.

(** [busy_execution] with an agent state that already has a name. *)
Definition bob_execution : CopilotKitRunExecution :=
  set_state (PJson (JDict [("name", JStr "Bob"); ("city", JStr "Oslo")]))
    busy_execution.

(** The value of the Predict State example in the docstring of
    [meta_event]: one flat dictionary of strings. *)
Definition flat_config : json :=
  JDict [ ("state_key", JStr "user_data"); ("tool", JStr "update_user");
          ("tool_argument", JStr "profile") ].

Definition flat_execution : CopilotKitRunExecution :=
  set_predict_state_configuration (PJson flat_config) started_execution.

(** Tool arguments that are a JSON array. *)
Definition list_chunk : event :=
  action_execution_args "exec1" "[1, 2]".

(** Two chunks that name different tool calls. *)
Definition mixed_chunks : list (string * string) :=
  [ ("exec1", py "{'name': 'Al"); ("exec2", py "ice'}") ].

(** A run told to exit, with more to come. *)
Definition exit_run : list event :=
  [ meta_event EXIT (JBool true); text_message_end "m1" ].

(** Inside a run: a queue that holds one event, and the record. *)
Definition running_context : context :=
  mkContext (Some [tool_start]) (Some fresh_execution).

End Cases.
Export Cases.

(* ================================================================== *)
(** * Part II: properties *)
(* ================================================================== *)

Module PyFacts.

(** ** Induction over nested JSON data *)

Lemma json_rect_nested (P : json -> Prop) :
  P JNull ->
  (forall b, P (JBool b)) ->
  (forall z, P (JInt z)) ->
  (forall s, P (JStr s)) ->
  (forall l, Forall P l -> P (JList l)) ->
  (forall d, Forall (fun kv => P (snd kv)) d -> P (JDict d)) ->
  forall j, P j.
Proof.
  intros Hnull Hbool Hint Hstr Hlist Hdict.
  fix IH 1. intros [| b | z | s | l | d].
  - exact Hnull.
  - apply Hbool.
  - apply Hint.
  - apply Hstr.
  - apply Hlist. induction l as [|x r IHr]; constructor; [apply IH|exact IHr].
  - apply Hdict. induction d as [|kv r IHr]; constructor; [apply IH|exact IHr].
Qed.

(** ** Newlines *)

Lemma no_newline_app (a b : string) :
  no_newline (a ++ b) = no_newline a && no_newline b.
Proof.
  induction a as [|c a IH]; simpl; [reflexivity|].
  now rewrite IH, andb_assoc.
Qed.

Lemma no_newline_concat (sep : string) (l : list string) :
  no_newline sep = true ->
  Forall (fun s => no_newline s = true) l ->
  no_newline (String.concat sep l) = true.
Proof.
  intros Hsep Hl. induction Hl as [|x r Hx Hr IH]; [reflexivity|].
  destruct r as [|y r]; simpl; [exact Hx|].
  rewrite !no_newline_app, Hx, Hsep. exact IH.
Qed.

Lemma no_newline_escape_char (c : ascii) : no_newline (escape_char c) = true.
Proof.
  destruct c as [[] [] [] [] [] [] [] []]; vm_compute; reflexivity.
Qed.

Lemma no_newline_escape_string (s : string) :
  no_newline (escape_string s) = true.
Proof.
  induction s as [|c s IH]; simpl; [reflexivity|].
  now rewrite no_newline_app, no_newline_escape_char, IH.
Qed.

Lemma no_newline_encode (s : string) :
  no_newline (encode_basestring_ascii s) = true.
Proof.
  unfold encode_basestring_ascii. simpl.
  now rewrite no_newline_app, no_newline_escape_string.
Qed.

Lemma no_newline_uint (d : Decimal.uint) :
  no_newline (NilEmpty.string_of_uint d) = true.
Proof. induction d; simpl; auto. Qed.

Lemma no_newline_int_repr (z : Z) : no_newline (int_repr z) = true.
Proof.
  unfold int_repr, NilZero.string_of_int, NilZero.string_of_uint.
  destruct (Z.to_int z) as [d|d]; destruct d; simpl;
    auto using no_newline_uint.
Qed.

Lemma json_dumps_no_newline (j : json) : no_newline (json_dumps j) = true.
Proof.
  induction j as [| [] | z | s | l IH | d IH] using json_rect_nested;
    try reflexivity.
  - apply no_newline_int_repr.
  - apply no_newline_encode.
  - cbn [json_dumps no_newline append]. rewrite no_newline_app, andb_true_r.
    apply no_newline_concat; [reflexivity|].
    apply Forall_map. exact IH.
  - cbn [json_dumps no_newline append]. rewrite no_newline_app, andb_true_r.
    apply no_newline_concat; [reflexivity|].
    apply Forall_map. revert IH. apply Forall_impl. intros kv Hkv.
    cbv beta in Hkv.
    rewrite (no_newline_app (encode_basestring_ascii (fst kv))).
    rewrite no_newline_encode. exact Hkv.
Qed.

(** ** Splitting a text into its lines *)

Lemma append_assoc (a b c : string) : (a ++ b) ++ c = a ++ b ++ c.
Proof. induction a; simpl; congruence. Qed.

Lemma append_nil_r (a : string) : a ++ "" = a.
Proof. induction a; simpl; congruence. Qed.

Lemma split_lines_cons (l rest : string) :
  no_newline l = true ->
  split_lines (l ++ String newline rest) =
  (l :: fst (split_lines rest), snd (split_lines rest)).
Proof.
  induction l as [|c l IH]; cbn [append split_lines no_newline]; intros H.
  - now destruct (split_lines rest).
  - apply andb_true_iff in H as [Hc Hl].
    rewrite (IH Hl). apply negb_true_iff in Hc. now rewrite Hc.
Qed.

Lemma append_NL (l rest : string) :
  (l ++ NL) ++ rest = l ++ String newline rest.
Proof. induction l as [|c l IH]; simpl; [reflexivity|now rewrite IH]. Qed.

Lemma split_lines_all (ls : list string) :
  Forall (fun l => no_newline l = true) ls ->
  split_lines (String.concat "" (map (fun l => l ++ NL) ls)) = (ls, "").
Proof.
  induction 1 as [|l ls Hl Hls IH]; [reflexivity|].
  assert (E : String.concat "" (map (fun l => l ++ NL) (l :: ls))
              = l ++ String newline
                  (String.concat "" (map (fun l => l ++ NL) ls))).
  { cbn [map String.concat]. destruct ls as [|l' ls]; cbn [map].
    - now rewrite <- append_NL, append_nil_r.
    - cbn [append]. apply append_NL. }
  rewrite E, split_lines_cons, IH by assumption. reflexivity.
Qed.

(** [sep.join(l) + sep] puts [sep] after every element of a non-empty
    list. *)
Lemma concat_sep_terminated (sep : string) (l : list string) :
  l <> [] ->
  String.concat sep l ++ sep = String.concat "" (map (fun s => s ++ sep) l).
Proof.
  induction l as [|x r IH]; [congruence|]. intros _.
  destruct r as [|y r].
  - simpl. reflexivity.
  - change (String.concat sep (x :: y :: r))
      with (x ++ sep ++ String.concat sep (y :: r)).
    change (String.concat "" (map (fun s => s ++ sep) (x :: y :: r)))
      with ((x ++ sep) ++ "" ++
            String.concat "" (map (fun s => s ++ sep) (y :: r))).
    rewrite !append_assoc, IH by congruence. reflexivity.
Qed.

(** ** Dictionaries *)

Lemma dict_get_set_same {V : Type} (k : string) (v : V) (d : list (string * V)) :
  dict_get k (dict_set k v d) = Some v.
Proof.
  induction d as [|[k' v'] r IH]; simpl.
  - now rewrite String.eqb_refl.
  - destruct (String.eqb k k') eqn:E; simpl; rewrite E; auto.
Qed.

Lemma dict_get_set_other {V : Type} (k k0 : string) (v : V)
  (d : list (string * V)) :
  k0 <> k -> dict_get k0 (dict_set k v d) = dict_get k0 d.
Proof.
  intros Hne. induction d as [|[k' v'] r IH]; simpl.
  - destruct (String.eqb_spec k0 k); congruence.
  - destruct (String.eqb_spec k k'); simpl.
    + subst. destruct (String.eqb_spec k0 k'); congruence.
    + now rewrite IH.
Qed.

Lemma dict_get_filter {V : Type} (f : string -> bool) (k : string)
  (d : list (string * V)) :
  dict_get k (filter (fun kv => f (fst kv)) d) =
  if f k then dict_get k d else None.
Proof.
  induction d as [|[k' v'] r IH]; simpl.
  - now destruct (f k).
  - destruct (f k') eqn:Ek'; simpl.
    + destruct (String.eqb_spec k k').
      * subst. now rewrite Ek'.
      * exact IH.
    + rewrite IH. destruct (String.eqb_spec k k'); [subst; now rewrite Ek'|].
      reflexivity.
Qed.

End PyFacts.

(* ------------------------------------------------------------------ *)
(** ** Decoding what [json.dumps] printed *)
(* ------------------------------------------------------------------ *)

Module RoundTrip.
Import PyFacts PartialJson.

(** *** Strings *)

Lemma parse_string_escape_char (c : ascii) (tail : string) :
  parse_string (escape_char c ++ tail) = push c (parse_string tail).
Proof.
  destruct c as [[] [] [] [] [] [] [] []]; reflexivity.
Qed.

Lemma parse_string_escape (s rest : string) :
  parse_string (escape_string s ++ String dquote rest) = Some (s, rest).
Proof.
  induction s as [|c s IH]; cbn [escape_string append].
  - cbn. reflexivity.
  - rewrite append_assoc, parse_string_escape_char, IH. reflexivity.
Qed.

Lemma parse_string_encode (s rest : string) :
  exists body, encode_basestring_ascii s ++ rest = String dquote body
               /\ parse_string body = Some (s, rest).
Proof.
  unfold encode_basestring_ascii. eexists. split.
  - cbn [append]. reflexivity.
  - rewrite append_assoc. cbn [append]. apply parse_string_escape.
Qed.

(* numbers *)

(** *** Integers *)

Lemma span_digits_uint (d : Decimal.uint) (rest : string) :
  stops_digits rest = true ->
  span_digits (NilEmpty.string_of_uint d ++ rest)
  = (NilEmpty.string_of_uint d, rest).
Proof.
  intros Hrest. induction d; cbn [NilEmpty.string_of_uint append span_digits];
    try (rewrite IHd; reflexivity).
  destruct rest as [|c r]; [reflexivity|]. cbn in Hrest. cbn [span_digits].
  apply negb_true_iff in Hrest. now rewrite Hrest.
Qed.

Lemma uint_head_digit (d : Decimal.uint) :
  d <> Decimal.Nil ->
  exists c r, NilEmpty.string_of_uint d = String c r
              /\ is_digit c = true /\ Ascii.eqb c "-" = false.
Proof.
  destruct d; [congruence|..]; intros _; cbn [NilEmpty.string_of_uint];
    eexists; eexists; repeat split.
Qed.

Lemma to_int_nonnil (z : Z) :
  exists d, d <> Decimal.Nil
            /\ (Z.to_int z = Decimal.Pos d \/ Z.to_int z = Decimal.Neg d).
Proof.
  destruct z as [|p|p]; cbn [Z.to_int].
  - exists (Decimal.D0 Decimal.Nil). split; [discriminate|now left].
  - exists (Pos.to_uint p). split; [apply Unsigned.to_uint_nonnil|now left].
  - exists (Pos.to_uint p). split; [apply Unsigned.to_uint_nonnil|now right].
Qed.

Lemma parse_number_digits (sign ds rest : string) (c : ascii) (r : string) :
  ds = String c r ->
  Ascii.eqb c "-" = false ->
  span_digits (ds ++ rest) = (ds, rest) ->
  starts_float_part rest = false ->
  (sign = "" \/ sign = "-") ->
  parse_number (sign ++ ds ++ rest)
  = match NilZero.int_of_string (sign ++ ds) with
    | Some i => Some (JInt (Z.of_int i), rest)
    | None => None
    end.
Proof.
  intros -> Hm Hspan Hf [->| ->]; unfold parse_number; cbn [append] in *.
  - rewrite Hm, Hspan, Hf. reflexivity.
  - cbn [Ascii.eqb Bool.eqb]. rewrite Hspan, Hf. reflexivity.
Qed.

Lemma parse_number_int_repr (z : Z) (rest : string) :
  ends_number rest = true ->
  parse_number (int_repr z ++ rest) = Some (JInt z, rest).
Proof.
  intros Hrest. apply andb_true_iff in Hrest as [Hd Hf].
  apply negb_true_iff in Hf.
  assert (Hi : NilZero.int_of_string (int_repr z) = Some (Z.to_int z)).
  { unfold int_repr. apply NilZero.isi.
    - destruct z; cbn; try discriminate;
        intros H; injection H; apply Unsigned.to_uint_nonnil.
    - destruct z; cbn; try discriminate;
        intros H; injection H; apply Unsigned.to_uint_nonnil. }
  assert (Hshape : exists sign d, d <> Decimal.Nil
            /\ (sign = "" \/ sign = "-")
            /\ int_repr z = sign ++ NilEmpty.string_of_uint d).
  { unfold int_repr.
    destruct (to_int_nonnil z) as (d & Hnn & [E|E]); rewrite E;
      cbn [NilZero.string_of_int]; unfold NilZero.string_of_uint;
      (destruct d eqn:Ed; [congruence|..]); rewrite <- Ed in *.
    all: cbv iota.
    all: first [ exists "", d; split; [assumption|split; [now left|reflexivity]]
               | exists "-", d; split; [assumption|split; [now right|reflexivity]] ]. }
  destruct Hshape as (sign & d & Hnn & Hsign & Hrepr).
  destruct (uint_head_digit d Hnn) as (c & r & Hs & Hc & Hm).
  rewrite Hrepr in *. rewrite append_assoc.
  rewrite (parse_number_digits sign _ rest c r Hs Hm
             (span_digits_uint d rest Hd) Hf Hsign).
  rewrite Hi. now rewrite DecimalZ.of_to.
Qed.

(** *** More fuel reads the same *)

Ltac mono_step IH H :=
  repeat match type of H with
    | context [match ?x with _ => _ end] =>
        lazymatch x with
        | parse_any _ _ =>
            let E := fresh "E" in
            destruct x as [[? ?]|] eqn:E; [|discriminate H];
            eapply (proj1 IH) in E; [rewrite E|lia]
        | _ => destruct x eqn:?; try discriminate H
        end
    end.

Lemma parse_fuel_mono (f : nat) :
  (forall s r, parse_any f s = Some r ->
     forall f', f <= f' -> parse_any f' s = Some r)
  /\ (forall s acc r, parse_object f s acc = Some r ->
        forall f', f <= f' -> parse_object f' s acc = Some r)
  /\ (forall s acc r, parse_array f s acc = Some r ->
        forall f', f <= f' -> parse_array f' s acc = Some r).
Proof.
  induction f as [|f IH].
  - repeat split; intros; discriminate.
  - repeat split.
    + intros s r H f' Hle. destruct f' as [|f']; [lia|].
      cbn [parse_any] in *. mono_step IH H; try assumption.
      * eapply (proj1 (proj2 IH)); [eassumption|lia].
      * eapply (proj2 (proj2 IH)); [eassumption|lia].
    + intros s acc r H f' Hle. destruct f' as [|f']; [lia|].
      cbn [parse_object] in *. mono_step IH H; try assumption.
      all: eapply (proj1 (proj2 IH)); [eassumption|lia].
    + intros s acc r H f' Hle. destruct f' as [|f']; [lia|].
      cbn [parse_array] in *. mono_step IH H; try assumption.
      all: eapply (proj2 (proj2 IH)); [eassumption|lia].
Qed.

(** *** First characters *)

Lemma value_start_facts (c : ascii) :
  value_start c = true ->
  is_space c = false /\ Ascii.eqb c "]" = false /\ Ascii.eqb c "}" = false.
Proof.
  destruct c as [[] [] [] [] [] [] [] []]; cbn; intros H;
    try discriminate H; repeat split.
Qed.

Lemma ends_value_number (rest : string) :
  ends_value rest = true -> ends_number rest = true.
Proof.
  destruct rest as [|c r]; [reflexivity|].
  destruct c as [[] [] [] [] [] [] [] []]; cbn; intros H;
    try discriminate H; reflexivity.
Qed.

Lemma parse_any_number (f : nat) (c : ascii) (r : string) :
  is_digit c || Ascii.eqb c "-" = true ->
  parse_any (S f) (String c r) = parse_number (String c r).
Proof.
  destruct c as [[] [] [] [] [] [] [] []]; cbn [is_digit nat_of_ascii]; intros H;
    try discriminate H; reflexivity.
Qed.

Lemma json_dumps_head (j : json) :
  exists c r, json_dumps j = String c r /\ value_start c = true.
Proof.
  destruct j as [|[]|z|s|l|d]; try (eexists; eexists; split; reflexivity).
  cbn [json_dumps]. unfold int_repr.
  destruct (to_int_nonnil z) as (d & Hnn & [E|E]); rewrite E;
    cbn [NilZero.string_of_int]; unfold NilZero.string_of_uint.
  - destruct (uint_head_digit d Hnn) as (c & r & Hs & Hc & Hm).
    destruct d; [congruence|..]; rewrite Hs; exists c, r;
      (split; [reflexivity|]); unfold value_start; now rewrite Hc.
  - eexists; eexists; split; reflexivity.
Qed.

(** *** Lists and objects *)

Lemma reads_at (j : json) (f : nat) (rest : string) :
  reads j -> fuel_of j <= f -> ends_value rest = true ->
  parse_any f (json_dumps j ++ rest) = Some (j, rest).
Proof.
  intros R Hle Hrest.
  exact (proj1 (parse_fuel_mono _) _ _ (R rest Hrest) f Hle).
Qed.

Lemma lstrip_value (j : json) (u : string) :
  lstrip (json_dumps j ++ u) = json_dumps j ++ u.
Proof.
  destruct (json_dumps_head j) as (c & r & -> & Hc).
  apply value_start_facts in Hc as (Hs & _). cbn [append lstrip].
  now rewrite Hs.
Qed.

Lemma concat_cons2 (sep x : string) (y : string) (l : list string) :
  String.concat sep (x :: y :: l) = x ++ sep ++ String.concat sep (y :: l).
Proof. reflexivity. Qed.

Lemma read_array (rest : string) (l : list json) :
  ends_value rest = true ->
  Forall (fun x => well_formed x = true -> reads x) l ->
  forallb well_formed l = true ->
  forall t acc,
    lstrip t = String.concat ", " (map json_dumps l) ++ "]" ++ rest ->
    parse_array (S (array_fuel l)) t acc = Some (JList (acc ++ l), rest).
Proof.
  intros Hrest IH. induction IH as [|x l' Hx _ IHl]; intros Hwf t acc Ht.
  - cbn [parse_array]. rewrite Ht. cbn. now rewrite app_nil_r.
  - cbn [forallb] in Hwf. apply andb_true_iff in Hwf as [Hwx Hwl].
    specialize (Hx Hwx). specialize (IHl Hwl).
    unfold array_fuel. cbn [fold_right]. fold (array_fuel l').
    remember (1 + fuel_of x + array_fuel l') as g eqn:Hg.
    cbn [parse_array]. rewrite Ht.
    set (u := match l' with
              | [] => "]" ++ rest
              | _ => ", " ++ String.concat ", " (map json_dumps l')
                     ++ "]" ++ rest
              end).
    assert (Hbody : String.concat ", " (map json_dumps (x :: l')) ++ "]" ++ rest
                    = json_dumps x ++ u).
    { subst u. destruct l' as [|y l'']; cbn [map].
      - reflexivity.
      - rewrite concat_cons2, !append_assoc. reflexivity. }
    rewrite Hbody.
    assert (Hu : ends_value u = true) by (subst u; now destruct l').
    destruct (json_dumps_head x) as (c & r & Hhead & Hc).
    apply value_start_facts in Hc as (_ & Hc & _).
    rewrite Hhead. cbn [append]. rewrite Hc.
    change (String c (r ++ u)) with (String c r ++ u). rewrite <- Hhead.
    rewrite (reads_at x g u Hx) by (assumption || lia).
    replace (acc ++ x :: l')%list with ((acc ++ [x]) ++ l')%list
      by now rewrite <- app_assoc.
    subst u. destruct l' as [|y l''].
    + cbn [append lstrip is_space nat_of_ascii Nat.eqb orb Ascii.eqb Bool.eqb].
      eapply (proj2 (proj2 (parse_fuel_mono _)));
        [apply IHl; reflexivity|subst g; cbn; lia].
    + cbn [append lstrip]. cbn [is_space nat_of_ascii Nat.eqb orb].
      cbn [Ascii.eqb Bool.eqb].
      eapply (proj2 (proj2 (parse_fuel_mono _))); [apply IHl|subst g; cbn; lia].
      cbn [lstrip is_space nat_of_ascii Nat.eqb orb].
      change (String.concat ", " (map json_dumps (y :: l'')))
        with (String.concat ", " (json_dumps y :: map json_dumps l'')).
      destruct l'' as [|z l'']; cbn [map String.concat];
        rewrite ?append_assoc; apply lstrip_value.
Qed.

Lemma str_in_app (k : string) (a b : list string) :
  str_in k (a ++ b) = str_in k a || str_in k b.
Proof. unfold str_in. apply existsb_app. Qed.

Lemma distinct_middle (k : string) (a b : list string) :
  distinct (a ++ k :: b) = true -> str_in k a = false.
Proof.
  unfold str_in.
  induction a as [|a0 a IH]; cbn [app distinct existsb]; intros H.
  - reflexivity.
  - apply andb_true_iff in H as [H0 H1]. rewrite (IH H1), orb_false_r.
    apply negb_true_iff in H0. rewrite str_in_app in H0.
    apply orb_false_iff in H0 as [_ H0]. unfold str_in in H0.
    cbn [existsb] in H0.
    apply orb_false_iff in H0 as [H0 _]. now rewrite String.eqb_sym.
Qed.

Lemma dict_set_fresh (k : string) (v : json) (acc : dict) :
  str_in k (map fst acc) = false -> dict_set k v acc = (acc ++ [(k, v)])%list.
Proof.
  unfold str_in.
  induction acc as [|[k' v'] acc IH]; cbn [map fst existsb dict_set app];
    intros H; [reflexivity|].
  apply orb_false_iff in H as [H0 H1]. rewrite H0. now rewrite (IH H1).
Qed.

Lemma read_object (rest : string) (d : dict) :
  ends_value rest = true ->
  Forall (fun kv => well_formed (snd kv) = true -> reads (snd kv)) d ->
  forallb (fun kv => well_formed (snd kv)) d = true ->
  forall t acc,
    distinct (map fst (acc ++ d)) = true ->
    lstrip t = String.concat ", " (map entry_text d) ++ "}" ++ rest ->
    parse_object (S (object_fuel d)) t acc = Some (JDict (acc ++ d), rest).
Proof.
  intros Hrest IH. induction IH as [|[k v] d' Hv _ IHd]; intros Hwf t acc Hk Ht.
  - cbn [parse_object]. rewrite Ht. cbn. now rewrite app_nil_r.
  - cbn [forallb snd] in Hwf. apply andb_true_iff in Hwf as [Hwv Hwd].
    cbn [snd] in Hv. specialize (Hv Hwv). specialize (IHd Hwd).
    unfold object_fuel. cbn [fold_right snd]. fold (object_fuel d').
    remember (1 + fuel_of v + object_fuel d') as g eqn:Hg.
    cbn [parse_object]. rewrite Ht.
    set (u := match d' with
              | [] => "}" ++ rest
              | _ => ", " ++ String.concat ", " (map entry_text d')
                     ++ "}" ++ rest
              end).
    assert (Hbody : String.concat ", " (map entry_text ((k, v) :: d'))
                    ++ "}" ++ rest
                    = String dquote (escape_string k
                        ++ String dquote (": " ++ json_dumps v ++ u))).
    { subst u. unfold entry_text at 1.
      destruct d' as [|y d'']; cbn [map fst snd].
      - cbn [String.concat]. unfold encode_basestring_ascii.
        cbn [append]. rewrite !append_assoc. reflexivity.
      - rewrite concat_cons2. unfold entry_text at 1.
        unfold encode_basestring_ascii.
        cbn [append fst snd]. rewrite !append_assoc. reflexivity. }
    rewrite Hbody.
    assert (Hu : ends_value u = true) by (subst u; now destruct d').
    change ((dquote =? "}")%char) with false.
    change ((dquote =? dquote)%char) with true. cbv iota.
    rewrite parse_string_escape.
    change (lstrip (": " ++ json_dumps v ++ u))
      with (String ":" (String " " (json_dumps v ++ u))).
    cbv iota beta.
    change ((":" =? "}")%char) with false.
    change ((":" =? ":")%char) with true. cbv iota.
    change (lstrip (String " " (json_dumps v ++ u)))
      with (lstrip (json_dumps v ++ u)).
    rewrite lstrip_value.
    destruct (json_dumps_head v) as (c & r & Hhead & Hc).
    apply value_start_facts in Hc as (_ & _ & Hc).
    rewrite Hhead. cbn [append]. rewrite Hc.
    change (String c (r ++ u)) with (String c r ++ u). rewrite <- Hhead.
    rewrite (reads_at v g u Hv) by (assumption || lia).
    rewrite map_app in Hk. cbn [map fst] in Hk.
    rewrite (dict_set_fresh k v acc (distinct_middle _ _ _ Hk)).
    replace (acc ++ (k, v) :: d')%list with ((acc ++ [(k, v)]) ++ d')%list
      by now rewrite <- app_assoc.
    assert (Hk' : distinct (map fst ((acc ++ [(k, v)]) ++ d')) = true).
    { rewrite <- app_assoc, map_app. exact Hk. }
    subst u. destruct d' as [|y d''].
    + cbn [append lstrip is_space nat_of_ascii Nat.eqb orb Ascii.eqb Bool.eqb].
      eapply (proj1 (proj2 (parse_fuel_mono _)));
        [apply IHd; [exact Hk'|reflexivity]|subst g; cbn; lia].
    + cbn [append lstrip]. cbn [is_space nat_of_ascii Nat.eqb orb].
      cbn [Ascii.eqb Bool.eqb].
      eapply (proj1 (proj2 (parse_fuel_mono _)));
        [apply IHd; [exact Hk'|]|subst g; cbn; lia].
      cbn [lstrip is_space nat_of_ascii Nat.eqb orb].
      destruct d'' as [|z d'']; cbn [map String.concat];
        unfold entry_text at 1; unfold encode_basestring_ascii;
        cbn [append lstrip]; reflexivity.
Qed.

(** *** Every value *)

Lemma int_repr_head (z : Z) :
  exists c r, int_repr z = String c r /\ is_digit c || Ascii.eqb c "-" = true.
Proof.
  unfold int_repr.
  destruct (to_int_nonnil z) as (d & Hnn & [E|E]); rewrite E;
    cbn [NilZero.string_of_int]; unfold NilZero.string_of_uint.
  - destruct (uint_head_digit d Hnn) as (c & r & Hs & Hc & Hm).
    destruct d; [congruence|..]; rewrite Hs; exists c, r;
      (split; [reflexivity|]); now rewrite Hc.
  - eexists; eexists; split; reflexivity.
Qed.

Lemma lstrip_items (l : list json) (rest : string) :
  lstrip (String.concat ", " (map json_dumps l) ++ "]" ++ rest)
  = String.concat ", " (map json_dumps l) ++ "]" ++ rest.
Proof.
  destruct l as [|x [|y l]]; cbn [map String.concat].
  - reflexivity.
  - apply lstrip_value.
  - rewrite !append_assoc. apply lstrip_value.
Qed.

Lemma lstrip_entries (d : dict) (rest : string) :
  lstrip (String.concat ", " (map entry_text d) ++ "}" ++ rest)
  = String.concat ", " (map entry_text d) ++ "}" ++ rest.
Proof.
  destruct d as [|x [|y d]]; cbn [map String.concat]; reflexivity.
Qed.

Lemma reads_all (j : json) : well_formed j = true -> reads j.
Proof.
  induction j as [| b | z | s | l IH | d IH] using json_rect_nested;
    intros Hwf rest Hrest.
  - reflexivity.
  - destruct b; reflexivity.
  - cbn [json_dumps fuel_of].
    destruct (int_repr_head z) as (c & r & Hs & Hc).
    pose proof (parse_number_int_repr z rest (ends_value_number _ Hrest)) as P.
    rewrite Hs in *. cbn [append] in *. rewrite parse_any_number by exact Hc.
    exact P.
  - cbn [json_dumps fuel_of].
    destruct (parse_string_encode s rest) as (body & -> & Hbody).
    cbn [parse_any lstrip]. change (is_space dquote) with false. cbv iota.
    change ((dquote =? "{")%char) with false.
    change ((dquote =? "[")%char) with false.
    change ((dquote =? dquote)%char) with true. cbv iota.
    now rewrite Hbody.
  - cbn [json_dumps fuel_of well_formed] in *.
    change (2 + fold_right (fun x n => 1 + fuel_of x + n) 0 l)
      with (S (S (array_fuel l))).
    remember (S (array_fuel l)) as g.
    rewrite append_assoc. cbn [append parse_any lstrip].
    change (is_space "[") with false. cbv iota.
    change (("[" =? "{")%char) with false.
    change (("[" =? "[")%char) with true. cbv iota.
    subst g. rewrite append_assoc.
    apply read_array; try assumption. apply lstrip_items.
  - cbn [json_dumps fuel_of well_formed] in *.
    apply andb_true_iff in Hwf as [Hk Hv].
    change (2 + fold_right (fun kv n => 1 + fuel_of (snd kv) + n) 0 d)
      with (S (S (object_fuel d))).
    remember (S (object_fuel d)) as g.
    rewrite append_assoc. cbn [append parse_any lstrip].
    change (is_space "{") with false. cbv iota.
    change (("{" =? "{")%char) with true. cbv iota.
    subst g. rewrite append_assoc.
    apply read_object; try assumption. apply lstrip_entries.
Qed.

(** *** The fuel [json_loads] gives is enough *)

Lemma length_app (a b : string) :
  String.length (a ++ b) = String.length a + String.length b.
Proof. induction a; cbn [append String.length]; lia. Qed.

Lemma length_concat_ge (sep : string) (l : list string) :
  fold_right (fun s n => String.length s + n) 0 l
  <= String.length (String.concat sep l).
Proof.
  induction l as [|x [|y l] IH]; cbn [fold_right String.concat] in *.
  - cbn. lia.
  - lia.
  - rewrite !length_app. lia.
Qed.

Lemma json_dumps_nonempty (j : json) : 1 <= String.length (json_dumps j).
Proof.
  destruct (json_dumps_head j) as (c & r & -> & _). cbn. lia.
Qed.

Lemma fuel_bound (j : json) :
  S (fuel_of j) <= 2 * String.length (json_dumps j).
Proof.
  induction j as [| b | z | s | l IH | d IH] using json_rect_nested.
  - cbn. lia.
  - destruct b; cbn; lia.
  - pose proof (json_dumps_nonempty (JInt z)).
    cbn [json_dumps fuel_of] in *. lia.
  - cbn [json_dumps fuel_of]. unfold encode_basestring_ascii.
    cbn [String.length]. rewrite length_app. cbn [String.length]. lia.
  - cbn [json_dumps fuel_of]. cbn [append String.length].
    rewrite length_app. cbn [String.length].
    pose proof (length_concat_ge ", " (map json_dumps l)) as B.
    assert (A : fold_right (fun x n => 1 + fuel_of x + n) 0 l
                <= 2 * fold_right (fun s n => String.length s + n) 0
                         (map json_dumps l)).
    { clear B. induction IH as [|x r Hx _ IHr]; cbn [fold_right map]; lia. }
    lia.
  - cbn [json_dumps fuel_of].
    pose proof (length_concat_ge ", "
                  (map (fun kv => encode_basestring_ascii (fst kv) ++ ": "
                                  ++ json_dumps (snd kv)) d)) as B.
    set (body := String.concat ", " _) in *.
    cbn [append String.length]. rewrite length_app. cbn [String.length].
    assert (A : fold_right (fun kv n => 1 + fuel_of (snd kv) + n) 0 d
                <= 2 * fold_right (fun s n => String.length s + n) 0
                         (map (fun kv => encode_basestring_ascii (fst kv)
                                         ++ ": " ++ json_dumps (snd kv)) d)).
    { clear B body. induction IH as [|x r Hx _ IHr]; cbn [fold_right map];
        [lia|]. cbv beta in Hx. rewrite !length_app. lia. }
    lia.
Qed.

(** Decoding the text [json.dumps] prints for well-formed data gives
    the data back. *)
Theorem json_loads_dumps (j : json) :
  well_formed j = true -> json_loads (json_dumps j) = Some j.
Proof.
  intros Hwf. unfold json_loads.
  pose proof (reads_at j (2 * String.length (json_dumps j) + 2) ""
                (reads_all j Hwf)) as R.
  rewrite append_nil_r in R. rewrite R; [reflexivity| |reflexivity].
  pose proof (fuel_bound j). lia.
Qed.

(** *** Well-formed dictionaries stay well-formed *)

Lemma str_in_dict_set (a k : string) (v : json) (d : dict) :
  str_in a (map fst (dict_set k v d))
  = str_in a (map fst d) || String.eqb a k.
Proof.
  unfold str_in.
  induction d as [|[k' v'] r IH]; cbn [dict_set map fst existsb].
  - now rewrite orb_false_r.
  - destruct (String.eqb_spec k k') as [->|Hne]; cbn [map fst existsb].
    + destruct (a =? k')%string; [reflexivity|now rewrite orb_false_r].
    + rewrite IH. now rewrite orb_assoc.
Qed.

Lemma distinct_dict_set (k : string) (v : json) (d : dict) :
  distinct (map fst d) = true -> distinct (map fst (dict_set k v d)) = true.
Proof.
  induction d as [|[k' v'] r IH]; cbn [dict_set map fst distinct]; intros H.
  - reflexivity.
  - apply andb_true_iff in H as [H0 H1].
    destruct (String.eqb_spec k k') as [->|Hne]; cbn [map fst distinct].
    + now rewrite H0, H1.
    + rewrite str_in_dict_set, (IH H1). apply negb_true_iff in H0.
      rewrite H0. destruct (String.eqb_spec k' k); [congruence|reflexivity].
Qed.

Lemma values_dict_set (k : string) (v : json) (d : dict) :
  well_formed v = true ->
  forallb (fun kv => well_formed (snd kv)) d = true ->
  forallb (fun kv => well_formed (snd kv)) (dict_set k v d) = true.
Proof.
  intros Hv. induction d as [|[k' v'] r IH]; cbn [dict_set forallb snd].
  - now rewrite Hv.
  - intros H. apply andb_true_iff in H as [H0 H1].
    destruct (k =? k')%string; cbn [forallb snd].
    + now rewrite Hv, H1.
    + now rewrite H0, (IH H1).
Qed.

Lemma well_formed_dict_merge (a b : dict) :
  well_formed (JDict a) = true ->
  forallb (fun kv => well_formed (snd kv)) b = true ->
  well_formed (JDict (dict_merge a b)) = true.
Proof.
  unfold dict_merge. revert a.
  induction b as [|[k v] b IH]; intros a Ha Hb; cbn [fold_left fst snd].
  - exact Ha.
  - cbn [forallb snd] in Hb. apply andb_true_iff in Hb as [Hv Hb].
    apply IH; [|exact Hb].
    cbn [well_formed] in *. apply andb_true_iff in Ha as [Hk Hvals].
    now rewrite distinct_dict_set, values_dict_set.
Qed.

Lemma str_in_filter (f : string * json -> bool) (a : string) (d : dict) :
  str_in a (map fst d) = false -> str_in a (map fst (filter f d)) = false.
Proof.
  unfold str_in.
  induction d as [|kv r IH]; cbn [filter map existsb]; intros H.
  - reflexivity.
  - apply orb_false_iff in H as [H0 H1].
    destruct (f kv); cbn [map existsb]; [now rewrite H0, (IH H1)|now apply IH].
Qed.

Lemma well_formed_filter (f : string * json -> bool) (d : dict) :
  well_formed (JDict d) = true -> well_formed (JDict (filter f d)) = true.
Proof.
  cbn [well_formed].
  induction d as [|kv r IH]; cbn [filter map distinct forallb]; intros H.
  - reflexivity.
  - apply andb_true_iff in H as [Hk Hv].
    apply andb_true_iff in Hk as [Hk0 Hk1].
    apply andb_true_iff in Hv as [Hv0 Hv1].
    assert (Hr : distinct (map fst r) && forallb (fun kv => well_formed (snd kv)) r
                 = true) by now rewrite Hk1, Hv1.
    apply IH in Hr. destruct (f kv); [|exact Hr].
    cbn [map distinct forallb]. apply andb_true_iff in Hr as [Hr0 Hr1].
    apply negb_true_iff in Hk0.
    now rewrite (str_in_filter f _ _ Hk0), Hr0, Hv0, Hr1.
Qed.

End RoundTrip.

Module ProtocolFacts.
Import PyFacts RoundTrip.

Lemma dict_get_serialize_event (e : event) (k : string) :
  dict_get k (serialize_event e) = option_map enum_to_value (dict_get k e).
Proof.
  induction e as [|[k' v] r IH]; simpl; [reflexivity|].
  destruct (String.eqb k k'); [reflexivity|exact IH].
Qed.

Lemma emit_runtime_events_unfold (events : list event) :
  events <> [] ->
  emit_runtime_events events =
  String.concat "" (map (fun l => l ++ NL) (map json_line events)).
Proof.
  intros Hne. unfold emit_runtime_events.
  rewrite concat_sep_terminated.
  - reflexivity.
  - destruct events; [congruence|discriminate].
Qed.

Lemma split_lines_emit (events : list event) :
  events <> [] ->
  split_lines (emit_runtime_events events) = (map json_line events, "").
Proof.
  intros Hne. rewrite emit_runtime_events_unfold by assumption.
  apply split_lines_all, Forall_map, Forall_forall.
  intros e _. apply json_dumps_no_newline.
Qed.

(** C7.  For a non-empty sequence of events, the text returned by
    [emit_runtime_events] splits into exactly one newline-terminated
    line per event, in input order, with nothing after the last newline
    and no newline inside a line; a top-level field holding an [Enum]
    member is printed as the member's wire string, every other field as
    it is; each line decodes to the dictionary of its event with the
    enum members so replaced; and [emit_runtime_event] is
    [emit_runtime_events] on the singleton sequence. *)
Theorem emit_runtime_events_one_line_per_event (events : list event) :
  events <> [] ->
  split_lines (emit_runtime_events events) = (map json_line events, "")
  /\ Forall (fun e => no_newline (json_line e) = true) events
  /\ (forall e k v, In e events -> dict_get k e = Some v ->
        dict_get k (serialize_event e) = Some (wire_value v))
  /\ (forall e, In e events ->
        well_formed (JDict (serialize_event e)) = true ->
        PartialJson.json_loads (json_line e) = Some (JDict (serialize_event e)))
  /\ (forall e, emit_runtime_event e = emit_runtime_events [e]).
Proof.
  intros Hne. split; [|split; [|split; [|split]]].
  - now apply split_lines_emit.
  - apply Forall_forall. intros e _. apply json_dumps_no_newline.
  - intros e k v _ Hk. rewrite dict_get_serialize_event, Hk.
    now destruct v.
  - intros e _ Hwf. now apply json_loads_dumps.
  - reflexivity.
Qed.

Lemma emit_runtime_events_one_line_per_event_witness :
  [text_message_start "m1" None; meta_event EXIT (JBool true)] <> []
  /\ split_lines
       (emit_runtime_events
          [text_message_start "m1" None; meta_event EXIT (JBool true)])
     = ([py "{'type': 'TextMessageStart', 'messageId': 'm1', 'parentMessageId': null}";
         py "{'type': 'MetaEvent', 'name': 'Exit', 'value': true}"], "").
Proof.
  split; [discriminate|].
  exact (proj1 (emit_runtime_events_one_line_per_event
                  [text_message_start "m1" None; meta_event EXIT (JBool true)]
                  ltac:(discriminate))).
Defined.

End ProtocolFacts.

Module RunloopFacts.
Import PyFacts RoundTrip ProtocolFacts.

Local Open Scope py_scope.

(** ** Proof steps for monadic code *)

Ltac unfold_m :=
  unfold item, bind, ret, raise, read, write, lift in *.

Ltac break_hyp H :=
  match type of H with
  | context [match ?x with _ => _ end] => destruct x eqn:?
  | context [if ?x then _ else _] => destruct x eqn:?
  end.

Ltac pair_inv H := injection H as ?; subst.

(** Case analysis on every test a hypothesis still contains. *)
Ltac crunch :=
  repeat match goal with
    | H : (_, _) = (_, _) |- _ => pair_inv H
    | H : Ok _ = Ok _ |- _ => pair_inv H
    | H : Some _ = Some _ |- _ => pair_inv H
    | H : Ok _ = Raise _ |- _ => discriminate H
    | H : Raise _ = Ok _ |- _ => discriminate H
    | H : Some _ = None |- _ => discriminate H
    | H : None = Some _ |- _ => discriminate H
    | H : context [match ?x with _ => _ end] |- _ => destruct x eqn:?
    end.

Lemma filter_state_default (d : dict) :
  _filter_state (PJson (JDict d)) None = Ok (keep_default d).
Proof. reflexivity. Qed.

Lemma filter_state_ok (st : pyval) (d' : dict) :
  _filter_state st None = Ok d' ->
  exists d, st = PJson (JDict d) /\ d' = keep_default d.
Proof.
  destruct st as [t|n|[]]; try discriminate.
  intros H. injection H as <-. eauto.
Qed.

(** ** The loop of [predict_state] only writes [predicted_state] *)

Lemma set_predicted_state_id (x : CopilotKitRunExecution) :
  set_predicted_state (predicted_state x) x = x.
Proof. now destruct x. Qed.

Lemma predict_loop_frame (items : list (string * json)) (args : json) :
  forall (b : bool) (x x' : CopilotKitRunExecution) (r : result bool),
    predict_loop items args b x = (r, x') ->
    x' = set_predicted_state (predicted_state x') x.
Proof.
  induction items as [|[k v] rest IH]; intros b x x' r H; cbn [predict_loop] in H;
    unfold_m.
  - pair_inv H. now rewrite set_predicted_state_id.
  - repeat (break_hyp H; try (pair_inv H; now rewrite set_predicted_state_id));
      apply IH in H; rewrite H; now destruct x.
Qed.

(** ** What [predict_state] may change, and what it returns *)

Section WithParser.

Variable parse : string -> option json.

Lemma with_prediction_of_id (x : CopilotKitRunExecution) :
  with_prediction_of x x = x.
Proof. now destruct x. Qed.

Lemma predict_state_frame (tid an rid : string) (ev : event)
  (x x' : CopilotKitRunExecution) (r : result (option event)) :
  predict_state parse tid an rid ev x = (r, x') ->
  x' = with_prediction_of x' x.
Proof.
  unfold predict_state. unfold_m. intros H.
  crunch.
  all: try match goal with
         | L : predict_loop _ _ _ _ = _ |- _ =>
             apply predict_loop_frame in L; rewrite L
         end.
  all: match goal with
       | |- _ = with_prediction_of _ ?y => now destruct y
       end.
Qed.

Lemma predict_state_some (tid an rid : string) (ev : event)
  (x x' : CopilotKitRunExecution) (m : event) :
  predict_state parse tid an rid ev x = (Ok (Some m), x') ->
  exists st,
    state x' = PJson (JDict st) /\
    m = agent_state_message tid an (node_name x') rid true "assistant"
          (json_dumps
             (JDict (keep_default (dict_merge st (predicted_state x')))))
          true.
Proof.
  unfold predict_state, merged_state. unfold_m. intros H.
  crunch.
  match goal with
  | L : _filter_state _ _ = Ok _ |- _ =>
      rewrite filter_state_default in L; pair_inv L
  end.
  eexists. split; reflexivity.
Qed.

(** ** The dispatcher, branch by branch *)

Ltac eval_tests H :=
  cbn [type_in is_type is_name existsb RuntimeEventTypes_eqb
       RuntimeEventTypes_value String.eqb Ascii.eqb Bool.eqb orb
       protocol_event_types predicting_event_types] in H.

Ltac open_handler E :=
  unfold handle_runtime_event, node_state_message in E; unfold_m.

Ltac open_goal :=
  unfold handle_runtime_event, node_state_message; unfold_m.

Ltac eval_goal :=
  cbn [type_in is_type is_name existsb RuntimeEventTypes_eqb
       RuntimeEventTypes_value String.eqb Ascii.eqb Bool.eqb orb
       protocol_event_types predicting_event_types].

(** C5.  Whatever the execution record holds, handling a NodeFinished
    event leaves the prediction working set reset: [predicted_state] is
    the empty dictionary, [argument_buffer] the empty string,
    [current_tool_call] is [None] and [predict_state_configuration] the
    empty dictionary. *)
Theorem node_finished_resets_prediction (ev : event)
  (x : CopilotKitRunExecution) :
  dict_get "type" ev = Some (PType NODE_FINISHED) ->
  let x' := snd (handle_runtime_event parse ev x) in
  predicted_state x' = []
  /\ argument_buffer x' = ""
  /\ current_tool_call x' = PJson JNull
  /\ predict_state_configuration x' = PJson (JDict []).
Proof.
  intros Hty. destruct (handle_runtime_event parse ev x) as [r x'] eqn:E.
  open_handler E. rewrite Hty in E. eval_tests E.
  crunch; repeat split; reflexivity.
Qed.

(** C9.  A MetaEvent forwards nothing.  With name PREDICT_STATE the
    dispatcher returns [None] and the record differs from the one before
    only in [predict_state_configuration], which is the event's value;
    with name EXIT it returns [None] and the record differs only in
    [should_exit], which is the event's value.  Field by field: after a
    MetaEvent with either name, or the interrupt name, the one field
    named holds the event's value and each of the other ten fields of
    the record holds what it held before. *)
Theorem meta_event_updates_one_field (ev : event) (value : pyval)
  (x : CopilotKitRunExecution) :
  dict_get "type" ev = Some (PType META_EVENT) ->
  dict_get "value" ev = Some value ->
  (dict_get "name" ev = Some (PName PREDICT_STATE) ->
     handle_runtime_event parse ev x
     = (Ok None, set_predict_state_configuration value x))
  /\ (dict_get "name" ev = Some (PName EXIT) ->
        handle_runtime_event parse ev x = (Ok None, set_should_exit value x))
  /\ (forall name, dict_get "name" ev = Some name ->
        fst (handle_runtime_event parse ev x) = Ok None)
  /\ (forall name, dict_get "name" ev = Some (PName name) ->
        let x' := snd (handle_runtime_event parse ev x) in
        predict_state_configuration x'
        = match name with
          | PREDICT_STATE => value
          | _ => predict_state_configuration x
          end
        /\ should_exit x'
           = match name with
             | EXIT => value
             | _ => should_exit x
             end
        /\ thread_id x' = thread_id x
        /\ agent_name x' = agent_name x
        /\ run_id x' = run_id x
        /\ node_name x' = node_name x
        /\ is_finished x' = is_finished x
        /\ predicted_state x' = predicted_state x
        /\ argument_buffer x' = argument_buffer x
        /\ current_tool_call x' = current_tool_call x
        /\ state x' = state x).
Proof.
  intros Hty Hval. split; [|split; [|split]].
  - intros Hname. open_goal. now rewrite Hty, Hname, Hval.
  - intros Hname. open_goal. now rewrite Hty, Hname, Hval.
  - intros name Hname. open_goal. rewrite Hty, Hname, Hval.
    eval_goal. destruct name as [t|[]|j]; reflexivity.
  - intros name Hname. open_goal. rewrite Hty, Hname, Hval.
    eval_goal. destruct name; cbn; repeat split; reflexivity.
Qed.

(** C8.  An event whose type is none of the event types the dispatcher
    has a branch for, and a MetaEvent whose name is neither PREDICT_STATE
    nor EXIT, are handled without an exception: the dispatcher returns
    [None] and the execution record is the one it was given. *)
Theorem unknown_event_is_a_no_op (ev : event) (x : CopilotKitRunExecution) :
  (forall ty, dict_get "type" ev = Some ty ->
      type_in ty handled_event_types = false ->
      handle_runtime_event parse ev x = (Ok None, x))
  /\ (forall name, dict_get "type" ev = Some (PType META_EVENT) ->
        dict_get "name" ev = Some name ->
        is_name name PREDICT_STATE = false ->
        is_name name EXIT = false ->
        handle_runtime_event parse ev x = (Ok None, x)).
Proof.
  split.
  - intros ty Hty Hno. open_goal. rewrite Hty.
    destruct ty as [[]|n|j]; try discriminate Hno; reflexivity.
  - intros name Hty Hname H1 H2. open_goal. rewrite Hty, Hname.
    eval_goal. now rewrite H1, H2.
Qed.

(** ** The node name along a sequence of events *)




(** ** Order of the forwarded events *)

Lemma handle_forwards (ev : event) (x x' : CopilotKitRunExecution)
  (out : option string) :
  handle_runtime_event parse ev x = (Ok out, x') -> forwards ev out.
Proof.
  intros E. open_handler E. unfold forwards.
  destruct (dict_get "type" ev) as [[t|n|j]|]; [destruct t| | |];
    eval_tests E; eval_goal; crunch;
    try match goal with
      | L : predict_state _ _ _ _ _ _ = (Ok (Some _), _) |- _ =>
          apply predict_state_some in L as (st & _ & ->)
      end;
    first
      [ left; reflexivity
      | right; eexists; split; [|reflexivity]; reflexivity
      | right; split; [reflexivity|];
        eexists; split; [|reflexivity]; reflexivity ].
Qed.

Lemma copilotkit_run_trace (queue : list event) :
  forall (x x' : CopilotKitRunExecution) (ys : list string) (e : run_end),
    copilotkit_run parse queue x = (ys, e, x') ->
    exists handled rest outs,
      queue = (handled ++ rest)%list
      /\ Forall2 forwards handled outs
      /\ ys = yields outs.
Proof.
  induction queue as [|ev q IH]; intros x x' ys e H; cbn [copilotkit_run] in H.
  - pair_inv H. exists [], [], []. repeat split. constructor.
  - destruct (handle_runtime_event parse ev x) as [[o|err] x1] eqn:E.
    + pose proof (handle_forwards _ _ _ _ E) as F.
      destruct (is_finished x1).
      * pair_inv H. exists [ev], q, [o]. repeat split.
        -- repeat constructor. exact F.
        -- unfold yields. cbn. now rewrite app_nil_r.
      * destruct (copilotkit_run parse q x1) as [[more e1] x2] eqn:R.
        pair_inv H. apply IH in R as (handled & rest & outs & -> & F2 & ->).
        exists (ev :: handled), rest, (o :: outs). repeat split.
        constructor; assumption.
    + pair_inv H. exists [], (ev :: q), []. repeat split. constructor.
Qed.

Lemma copilotkit_run_exact (queue : list event) :
  forall (x x' : CopilotKitRunExecution) (ys : list string) (e : run_end),
    copilotkit_run parse queue x = (ys, e, x') ->
    exists handled rest outs xh,
      queue = (handled ++ rest)%list
      /\ handle_all parse handled x = (Ok outs, xh)
      /\ ys = yields outs
      /\ Forall2 forwards handled outs
      /\ match e with
         | Waiting => rest = [] /\ x' = xh
         | Finished => handled <> [] /\ x' = xh /\ is_finished xh = true
         | Failed err =>
             exists ev rest',
               rest = ev :: rest'
               /\ handle_runtime_event parse ev xh = (Raise err, x')
         end
      /\ (forall h1 h2 o1 x1,
            handled = (h1 ++ h2)%list -> h1 <> [] ->
            h2 <> [] \/ e <> Finished ->
            handle_all parse h1 x = (Ok o1, x1) ->
            is_finished x1 = false).
Proof.
  induction queue as [|ev q IH]; intros x x' ys e H; cbn [copilotkit_run] in H.
  - pair_inv H. exists [], [], [], x'. repeat split; try constructor.
    intros h1 h2 o1 x1 Hh Hne. destruct h1; [congruence|discriminate Hh].
  - destruct (handle_runtime_event parse ev x) as [[o|err] x1] eqn:E.
    + pose proof (handle_forwards _ _ _ _ E) as F.
      destruct (is_finished x1) eqn:F1.
      * pair_inv H. exists [ev], q, [o], x'.
        split; [reflexivity|]. split; [cbn [handle_all]; now rewrite E|].
        split; [unfold yields; cbn; now rewrite app_nil_r|].
        split; [repeat constructor; exact F|].
        split; [repeat split; [discriminate|exact F1]|].
        intros h1 h2 o1 x2 Hh Hne Hor _. exfalso.
        destruct h1 as [|a h1]; [congruence|].
        cbn [app] in Hh. injection Hh as _ Hh.
        destruct h1; [|discriminate Hh].
        cbn [app] in Hh. subst h2. destruct Hor; congruence.
      * destruct (copilotkit_run parse q x1) as [[more e1] x2] eqn:R.
        pair_inv H.
        apply IH in R as (handled & rest & outs & xh & -> & A & -> & F2 & En & Np).
        exists (ev :: handled), rest, (o :: outs), xh.
        split; [reflexivity|].
        split; [cbn [handle_all]; now rewrite E, A|].
        split; [reflexivity|]. split; [constructor; assumption|]. split.
        -- destruct e; [|exact En|exact En].
           destruct En as (_ & En1 & En2). repeat split; try assumption.
           discriminate.
        -- intros h1 h2 o1 x3 Hh Hne Hor Hall.
           destruct h1 as [|a h1]; [congruence|].
           cbn [app] in Hh. injection Hh as <- Hh. subst handled.
           cbn [handle_all] in Hall. rewrite E in Hall.
           destruct (handle_all parse h1 x1) as [[os|er] x4] eqn:A1;
             [|discriminate Hall].
           pair_inv Hall. destruct h1 as [|b h1].
           ++ cbn [handle_all] in A1. pair_inv A1. exact F1.
           ++ apply (Np (b :: h1) h2 os x3 eq_refl);
                [discriminate|exact Hor|exact A1].
    + pair_inv H. exists [], (ev :: q), [], x.
      split; [reflexivity|]. split; [reflexivity|]. split; [reflexivity|].
      split; [constructor|]. split; [exists ev, q; now split|].
      intros h1 h2 o1 x1 Hh Hne. destruct h1; [congruence|discriminate Hh].
Qed.

Lemma copilotkit_run_app (before later : list event) :
  forall (x xb : CopilotKitRunExecution) (yb : list string),
    copilotkit_run parse before x = (yb, Waiting, xb) ->
    copilotkit_run parse (before ++ later) x
    = (let '(more, e, x') := copilotkit_run parse later xb in
       ((yb ++ more)%list, e, x')).
Proof.
  induction before as [|ev q IH]; intros x xb yb H;
    cbn [copilotkit_run app] in *.
  - pair_inv H. now destruct (copilotkit_run parse later xb) as [[more e] x'].
  - destruct (handle_runtime_event parse ev x) as [[o|err] x1];
      [|discriminate H].
    destruct (is_finished x1); [discriminate H|].
    destruct (copilotkit_run parse q x1) as [[ys1 e1] x2] eqn:R.
    pair_inv H. rewrite (IH _ _ _ R).
    destruct (copilotkit_run parse later xb) as [[more e] x'].
    now rewrite app_assoc.
Qed.

Lemma handle_with_snapshot (ev : event) (ty : pyval) (m : event)
  (x x' : CopilotKitRunExecution) :
  dict_get "type" ev = Some ty ->
  type_in ty predicting_event_types = true ->
  predict_state parse (thread_id x) (agent_name x) (run_id x) ev x
  = (Ok (Some m), x') ->
  handle_runtime_event parse ev x
  = (Ok (Some (emit_runtime_events [ev; m])), x').
Proof.
  intros Hty Hp P. open_goal. rewrite Hty.
  destruct ty as [[]|n|j]; try discriminate Hp; eval_goal; now rewrite P.
Qed.

(** C2.  When the dispatcher handles a tool start or a tool chunk and the
    predictor returns a snapshot, the text it returns is the triggering
    event on the first line and the snapshot, an AgentStateMessage, on
    the second and last line.  The run loop yields exactly the
    dispatcher's own texts, in the order the events come off the queue:
    the events it took are a prefix of the queue, the texts it yielded
    are what the dispatcher returned for them one after the other, each
    text beginning with its own event when that is a protocol event; the
    loop went on after each of them but the last, and it stopped because
    the queue ran dry, because the last of them set [is_finished], or
    because the dispatcher raised on the next one.  So, when the events
    before a trigger leave the loop waiting and the predictor returns a
    snapshot for the trigger, the stream is the texts of the events
    before, then the one text with the trigger and its snapshot, then
    the texts of the later events: the snapshot sits right after its
    trigger and before every later event. *)
Theorem snapshot_follows_its_trigger :
  (forall ev ty m x x',
      dict_get "type" ev = Some ty ->
      type_in ty predicting_event_types = true ->
      predict_state parse (thread_id x) (agent_name x) (run_id x) ev x
      = (Ok (Some m), x') ->
      handle_runtime_event parse ev x
      = (Ok (Some (emit_runtime_events [ev; m])), x')
      /\ split_lines (emit_runtime_events [ev; m])
         = ([json_line ev; json_line m], "")
      /\ is_snapshot m)
  /\ (forall queue x ys e x',
        copilotkit_run parse queue x = (ys, e, x') ->
        exists handled rest outs xh,
          queue = (handled ++ rest)%list
          /\ handle_all parse handled x = (Ok outs, xh)
          /\ ys = yields outs
          /\ Forall2 forwards handled outs
          /\ match e with
             | Waiting => rest = [] /\ x' = xh
             | Finished => handled <> [] /\ x' = xh /\ is_finished xh = true
             | Failed err =>
                 exists ev rest',
                   rest = ev :: rest'
                   /\ handle_runtime_event parse ev xh = (Raise err, x')
             end
          /\ (forall h1 h2 o1 x1,
                handled = (h1 ++ h2)%list -> h1 <> [] ->
                h2 <> [] \/ e <> Finished ->
                handle_all parse h1 x = (Ok o1, x1) ->
                is_finished x1 = false))
  /\ (forall before ev later ty m x yb xb xe,
        copilotkit_run parse before x = (yb, Waiting, xb) ->
        dict_get "type" ev = Some ty ->
        type_in ty predicting_event_types = true ->
        predict_state parse (thread_id xb) (agent_name xb) (run_id xb) ev xb
        = (Ok (Some m), xe) ->
        copilotkit_run parse (before ++ ev :: later) x
        = (let '(more, e, x') :=
             if is_finished xe then ([], Finished, xe)
             else copilotkit_run parse later xe in
           ((yb ++ emit_runtime_events [ev; m] :: more)%list, e, x'))).
Proof.
  split; [|split].
  - intros ev ty m x x' Hty Hp P. split; [|split].
    + now apply (handle_with_snapshot ev ty).
    + now apply split_lines_emit.
    + apply predict_state_some in P as (st & _ & ->). reflexivity.
  - intros queue x ys e x'. apply copilotkit_run_exact.
  - intros before ev later ty m x yb xb xe R Hty Hp P.
    rewrite (copilotkit_run_app before (ev :: later) _ _ _ R).
    cbn [copilotkit_run].
    rewrite (handle_with_snapshot ev ty m xb xe Hty Hp P).
    destruct (is_finished xe); [reflexivity|].
    now destruct (copilotkit_run parse later xe) as [[more e] x'].
Qed.

(** ** The state a snapshot carries *)

Lemma keep_default_business_state (d : dict) :
  business_state_of (keep_default d) d.
Proof.
  unfold business_state_of, keep_default.
  split; [|split; [|intros k H1 H2]];
    rewrite (dict_get_filter (fun k => negb (str_in k ["messages"; "id"])));
    try reflexivity.
  cbn [str_in existsb].
  destruct (String.eqb_spec k "messages"); [congruence|].
  destruct (String.eqb_spec k "id"); [congruence|]. reflexivity.
Qed.

Lemma decoded_carried_state (m : event) (d' : dict) :
  carries_state m d' ->
  well_formed (JDict d') = true ->
  decoded_state m = Some (JDict d').
Proof.
  unfold carries_state, decoded_state. intros -> Hwf.
  now apply json_loads_dumps.
Qed.

Lemma proper_state_kept (st predicted : dict) :
  proper_state st predicted = true ->
  well_formed (JDict (keep_default (dict_merge st predicted))) = true.
Proof.
  unfold proper_state, keep_default. intros H.
  apply andb_true_iff in H as [Hst Hp].
  now apply well_formed_filter, well_formed_dict_merge.
Qed.

(** C6.  Every AgentStateMessage the dispatcher synthesizes, by the
    predictor on a tool chunk as well as in the NodeStarted and
    NodeFinished branches, carries as its state the JSON text of an
    object that has neither the key ["messages"] nor the key ["id"] and
    that agrees on every other key with the state it was made from: the
    agent state overlaid with the predicted state for the predictor, the
    agent state for the node events.  Decoding the text gives that
    object back. *)
Theorem synthesized_state_is_filtered :
  (forall tid an rid ev x m x',
      predict_state parse tid an rid ev x = (Ok (Some m), x') ->
      exists st d',
        state x' = PJson (JDict st)
        /\ is_snapshot m
        /\ carries_state m d'
        /\ business_state_of d' (dict_merge st (predicted_state x'))
        /\ (proper_state st (predicted_state x') = true ->
            decoded_state m = Some (JDict d')))
  /\ (forall ev ty x text x',
        dict_get "type" ev = Some ty ->
        type_in ty [NODE_STARTED; NODE_FINISHED] = true ->
        handle_runtime_event parse ev x = (Ok (Some text), x') ->
        exists st d' m,
          state x' = PJson (JDict st)
          /\ text = emit_runtime_event m
          /\ is_snapshot m
          /\ carries_state m d'
          /\ business_state_of d' st
          /\ (well_formed (JDict st) = true ->
              decoded_state m = Some (JDict d'))).
Proof.
  split.
  - intros tid an rid ev x m x' P.
    apply predict_state_some in P as (st & Hst & ->).
    exists st, (keep_default (dict_merge st (predicted_state x'))).
    repeat split; try assumption; try reflexivity.
    + apply keep_default_business_state.
    + apply keep_default_business_state.
    + apply keep_default_business_state.
    + intros Hp. apply decoded_carried_state; [reflexivity|].
      now apply proper_state_kept.
  - intros ev ty x text x' Hty Hnode E. open_handler E. rewrite Hty in E.
    destruct ty as [[]|n|j]; try discriminate Hnode; eval_tests E; crunch;
      match goal with
      | L : _filter_state _ _ = Ok _ |- _ =>
          apply filter_state_ok in L as (d & L1 & ->)
      end;
      cbn [state set_state] in *; subst;
      eexists; eexists; eexists;
      (split; [reflexivity|]); (split; [reflexivity|]);
      (split; [reflexivity|]); (split; [reflexivity|]);
      (split; [apply keep_default_business_state|]);
      intros Hwf; (apply decoded_carried_state; [reflexivity|]);
      now apply well_formed_filter.
Qed.

(** ** The predictor on well-typed input *)

Lemma tool_names_of_ok (l : list json) :
  forallb config_ok l = true -> exists ns, tool_names_of l = Ok ns.
Proof.
  induction l as [|c r IH]; cbn [forallb tool_names_of]; intros H.
  - eauto.
  - apply andb_true_iff in H as [Hc Hr]. destruct (IH Hr) as [ns ->].
    destruct c; try discriminate Hc. cbn [config_get].
    destruct (dict_get "tool_name" d); eauto.
Qed.

Lemma predict_loop_ok (d : dict) (items : list (string * json)) :
  forall (b : bool) (x : CopilotKitRunExecution),
    forallb config_ok (dict_values items) = true ->
    exists b' x', predict_loop items (JDict d) b x = (Ok b', x').
Proof.
  induction items as [|[k v] rest IH]; intros b x H;
    cbn [predict_loop dict_values map forallb snd] in *.
  - unfold ret. eauto.
  - apply andb_true_iff in H as [Hv Hrest]. unfold_m.
    destruct v as [| | | |l|c]; try discriminate Hv. cbn [config_ok] in Hv.
    cbn [config_item config_get].
    destruct (dict_get "tool_name" c) as [[| | |tn| |]|]; try discriminate Hv.
    destruct (py_eqb (JStr tn) (current_tool_call x)); [|now apply IH].
    destruct (dict_get "tool_argument" c) as [[| | |a| |]|];
      try discriminate Hv; cbn [is_none negb arguments_get];
      try (now apply IH).
    destruct (dict_get a d) as [w|]; cbn [is_none negb]; [|now apply IH].
    destruct (is_none w); cbn [negb]; now apply IH.
Qed.

(** The predictor on a tool chunk, in three cases: the tool is not
    configured, the parser fails, or the parser reads an object and the
    loop over the configuration runs. *)
Lemma predict_state_on_chunk (tid an rid : string)
  (ev : event) (chunk : string) (cfg st : dict) (x : CopilotKitRunExecution)
  (k : result (option event) * CopilotKitRunExecution -> Prop) :
  dict_get "type" ev = Some (PType ACTION_EXECUTION_ARGS) ->
  dict_get "args" ev = Some (PJson (JStr chunk)) ->
  predict_state_configuration x = PJson (JDict cfg) ->
  forallb config_ok (dict_values cfg) = true ->
  state x = PJson (JDict st) ->
  (parse (argument_buffer x ++ chunk) = None
   \/ exists d, parse (argument_buffer x ++ chunk) = Some (JDict d)) ->
  k (Ok None, set_argument_buffer (argument_buffer x ++ chunk) x) ->
  (forall d b x1,
      parse (argument_buffer x ++ chunk) = Some (JDict d) ->
      predict_loop cfg (JDict d) false
        (set_argument_buffer (argument_buffer x ++ chunk) x)
      = (Ok b, x1) ->
      k (if b then
           (Ok (Some (agent_state_message tid an (node_name x1) rid
                        true "assistant"
                        (json_dumps
                           (JDict (keep_default
                                     (dict_merge st (predicted_state x1)))))
                        true)), x1)
         else (Ok None, x1))) ->
  k (predict_state parse tid an rid ev x).
Proof.
  intros Hty Hargs Hcfg Hok Hst Hparse K1 K3.
  destruct (tool_names_of_ok _ Hok) as [names Hnames].
  unfold predict_state. unfold_m.
  rewrite Hty. eval_goal. rewrite Hargs.
  cbn [predict_state_configuration set_argument_buffer current_tool_call
       argument_buffer].
  rewrite Hcfg. cbn [config_items]. rewrite Hnames.
  destruct (negb (py_in (current_tool_call x) names)) eqn:Hin;
    [exact K1|].
  cbn [argument_buffer set_argument_buffer].
  destruct Hparse as [Hnone|[d Hd]].
  - rewrite Hnone. exact K1.
  - rewrite Hd. cbn [predict_state_configuration set_argument_buffer].
    rewrite Hcfg. cbn [config_items].
    destruct (predict_loop_ok d cfg false
                (set_argument_buffer (argument_buffer x ++ chunk) x) Hok)
      as (b & x1 & L).
    specialize (K3 d b x1 Hd L). rewrite L.
    pose proof (predict_loop_frame _ _ _ _ _ _ L) as F.
    assert (Hst1 : state x1 = PJson (JDict st))
      by (rewrite F; cbn; exact Hst).
    destruct b; [|exact K3].
    rewrite Hst1. cbn [merged_state]. rewrite filter_state_default.
    exact K3.
Qed.

(** C4.  On a tool chunk, with a configuration made of well-typed
    entries and a dictionary as agent state, the predictor returns
    without an exception whenever the tolerant parser either fails on the
    accumulated buffer or reads it as an object, which is all it can do
    with a prefix of a JSON object.  When the parser fails the predictor
    returns [None], and the record differs from the one before only in
    the buffer, which has the chunk appended: [predicted_state] is
    untouched. *)
Theorem predictor_tolerates_partial_arguments (tid an rid : string)
  (ev : event) (chunk : string) (cfg st : dict) (x : CopilotKitRunExecution) :
  dict_get "type" ev = Some (PType ACTION_EXECUTION_ARGS) ->
  dict_get "args" ev = Some (PJson (JStr chunk)) ->
  predict_state_configuration x = PJson (JDict cfg) ->
  forallb config_ok (dict_values cfg) = true ->
  state x = PJson (JDict st) ->
  (parse (argument_buffer x ++ chunk) = None
   \/ exists d, parse (argument_buffer x ++ chunk) = Some (JDict d)) ->
  (exists out x', predict_state parse tid an rid ev x = (Ok out, x'))
  /\ (parse (argument_buffer x ++ chunk) = None ->
      predict_state parse tid an rid ev x
      = (Ok None, set_argument_buffer (argument_buffer x ++ chunk) x)
      /\ predicted_state (snd (predict_state parse tid an rid ev x))
         = predicted_state x).
Proof.
  intros Hty Hargs Hcfg Hok Hst Hparse. split.
  - apply (predict_state_on_chunk tid an rid ev chunk cfg st x); try assumption.
    + eauto.
    + intros d b x1 _ _. destruct b; eauto.
  - intros Hnone.
    apply (predict_state_on_chunk tid an rid ev chunk cfg st x);
      try assumption.
    + split; reflexivity.
    + intros d b x1 Hd. congruence.
Qed.

(** ** The concrete scenarios *)

(** C3.  From an execution record that is not finished, the run loop fed
    TextStart("m1"), TextContent("m1", "Hi"), TextEnd("m1") and
    RunFinished({}) yields exactly three texts, the JSON lines of the
    three text events in that order, and then ends; nothing is yielded
    for RunFinished, which only sets [is_finished]. *)
Theorem text_run_yields_three_lines (x : CopilotKitRunExecution) :
  is_finished x = false ->
  copilotkit_run parse text_run x
  = ([ py "{'type': 'TextMessageStart', 'messageId': 'm1', 'parentMessageId': null}" ++ NL;
       py "{'type': 'TextMessageContent', 'messageId': 'm1', 'content': 'Hi'}" ++ NL;
       py "{'type': 'TextMessageEnd', 'messageId': 'm1'}" ++ NL ],
     Finished, set_is_finished true x).
Proof.
  intros Hrun. unfold text_run. cbn [copilotkit_run].
  change (handle_runtime_event parse (text_message_start "m1" None) x)
    with (Ok (Some (emit_runtime_events [text_message_start "m1" None])), x).
  cbv iota beta. rewrite Hrun.
  change (handle_runtime_event parse (text_message_content "m1" "Hi") x)
    with (Ok (Some (emit_runtime_events [text_message_content "m1" "Hi"])), x).
  cbv iota beta. rewrite Hrun.
  change (handle_runtime_event parse (text_message_end "m1") x)
    with (Ok (Some (emit_runtime_events [text_message_end "m1"])), x).
  cbv iota beta. rewrite Hrun.
  change (handle_runtime_event parse (run_finished (JDict [])) x)
    with (Ok (@None string), set_is_finished true x).
  cbv iota beta. cbn [is_finished set_is_finished app].
  reflexivity.
Qed.

Lemma name_survives_filter (v : json) (st : dict) :
  dict_get "name" (keep_default (dict_merge st [("name", v)])) = Some v.
Proof.
  unfold keep_default.
  rewrite (dict_get_filter (fun k => negb (str_in k ["messages"; "id"]))).
  cbn. apply dict_get_set_same.
Qed.

(** C1, as the dispatcher behaves.  With ["name"] predicted from the
    argument ["name"] of ["update_user"], an empty predicted state and a
    dictionary as agent state, and with a tolerant parser that reads the
    buffer after the first chunk as the object with name "Al" and the
    buffer after the second chunk as the object with name "Alice":
    handling ToolStart, then the two ToolArgs, forwards the tool start
    alone, then the first chunk followed by a snapshot whose decoded
    state has name "Al", then the second chunk followed by a snapshot
    whose decoded state has name "Alice".  Two prediction snapshots are
    produced and the last one has name exactly "Alice". *)
Theorem name_prediction_follows_every_chunk (x : CopilotKitRunExecution)
  (st : dict) :
  predict_state_configuration x = PJson name_config ->
  predicted_state x = [] ->
  state x = PJson (JDict st) ->
  well_formed (JDict st) = true ->
  parse (py "{'name': 'Al") = Some (JDict [("name", JStr "Al")]) ->
  parse (py "{'name': 'Alice'}") = Some (JDict [("name", JStr "Alice")]) ->
  exists d1 d2 x',
    handle_all parse [tool_start; first_chunk; second_chunk] x
    = (Ok [ Some (emit_runtime_events [tool_start]);
            Some (emit_runtime_events [first_chunk; name_snapshot x d1]);
            Some (emit_runtime_events [second_chunk; name_snapshot x d2]) ],
       x')
    /\ decoded_state (name_snapshot x d1) = Some (JDict d1)
    /\ dict_get "name" d1 = Some (JStr "Al")
    /\ decoded_state (name_snapshot x d2) = Some (JDict d2)
    /\ dict_get "name" d2 = Some (JStr "Alice")
    /\ predicted_state x' = [("name", JStr "Alice")].
Proof.
  intros Hcfg Hps Hst Hwf H1 H2.
  destruct x as [tid an rid se node fin cfg ps buf cur s0].
  cbn [predict_state_configuration predicted_state state] in Hcfg, Hps, Hst.
  subst cfg ps s0.
  assert (Hdec : forall v, well_formed v = true ->
            PartialJson.json_loads
              (json_dumps (JDict (keep_default (dict_merge st [("name", v)]))))
            = Some (JDict (keep_default (dict_merge st [("name", v)])))).
  { intros v Hv. apply json_loads_dumps, proper_state_kept.
    unfold proper_state. now rewrite Hwf; cbn [forallb snd]; rewrite Hv. }
  exists (keep_default (dict_merge st [("name", JStr "Al")])),
         (keep_default (dict_merge st [("name", JStr "Alice")])).
  eexists. repeat split.
  - unfold handle_all, handle_runtime_event, predict_state. unfold_m.
    cbn.
    match goal with
    | |- context [parse ?s] =>
        change (parse s) with (parse (py "{'name': 'Al"))
    end.
    rewrite H1. cbn.
    match goal with
    | |- context [parse ?s] =>
        change (parse s) with (parse (py "{'name': 'Alice'}"))
    end.
    rewrite H2. cbn. reflexivity.
  - now apply Hdec.
  - apply name_survives_filter.
  - now apply Hdec.
  - apply name_survives_filter.
  - reflexivity.
Qed.

End WithParser.

End RunloopFacts.

(* ------------------------------------------------------------------ *)
(** ** The modelled parser and the scenarios, evaluated *)
(* ------------------------------------------------------------------ *)

Module ParserFacts.
Import PyFacts ProtocolFacts RunloopFacts PartialJson.

Ltac break_goal :=
  match goal with
  | |- context [match ?x with _ => _ end] => destruct x eqn:?
  end.

(** Reading an object gives an object or fails. *)
Lemma parse_object_shape (fuel : nat) :
  forall (s : string) (acc : dict),
    parse_object fuel s acc = None
    \/ exists d rest, parse_object fuel s acc = Some (JDict d, rest).
Proof.
  induction fuel as [|fuel IH]; intros s acc; cbn [parse_object].
  - now left.
  - repeat (break_goal; eauto).
Qed.

Lemma parse_reads_objects (s : string) :
  s = "" \/ (exists r, lstrip s = String "{" r) ->
  parse s = None \/ exists d, parse s = Some (JDict d).
Proof.
  intros [->|[r Hr]]; [right; now exists []|].
  unfold parse. destruct s as [|c s]; [right; now exists []|].
  remember (String c s) as t.
  replace (2 * String.length t + 2) with (S (S (2 * String.length t)))
    by lia.
  cbn [parse_any]. rewrite Hr.
  cbn [Ascii.eqb Bool.eqb]. cbn [option_map].
  destruct (parse_object_shape (S (2 * String.length t)) r [])
    as [->|(d & rest & ->)]; [now left|].
  right. now exists d.
Qed.

(** The JSON text of an object starts with a brace, so the modelled
    parser reads every prefix of it as an object or fails. *)
Lemma parse_prefix_of_object (d : dict) (s rest : string) :
  json_dumps (JDict d) = s ++ rest ->
  parse s = None \/ exists d', parse s = Some (JDict d').
Proof.
  intros H. apply parse_reads_objects.
  destruct s as [|c s]; [now left|right].
  cbn [json_dumps append] in H. injection H as <- _.
  now exists s.
Qed.

(** With the modelled parser, the predictor returns without an
    exception on every buffer that is a prefix of the JSON text of an
    object. *)
Lemma predictor_returns_on_object_prefix (tid an rid : string)
  (ev : event) (chunk rest : string) (cfg st d : dict)
  (x : CopilotKitRunExecution) :
  dict_get "type" ev = Some (PType ACTION_EXECUTION_ARGS) ->
  dict_get "args" ev = Some (PJson (JStr chunk)) ->
  predict_state_configuration x = PJson (JDict cfg) ->
  forallb config_ok (dict_values cfg) = true ->
  state x = PJson (JDict st) ->
  json_dumps (JDict d) = (argument_buffer x ++ chunk) ++ rest ->
  exists out x', predict_state parse tid an rid ev x = (Ok out, x').
Proof.
  intros Hty Hargs Hcfg Hok Hst Hprefix.
  apply (predict_state_on_chunk parse tid an rid ev chunk cfg st x);
    try assumption.
  - exact (parse_prefix_of_object d _ rest Hprefix).
  - eauto.
  - intros d' b x1 _ _. destruct b; eauto.
Qed.

(** ** The theorems at concrete inputs *)

Lemma name_prediction_follows_every_chunk_witness :
  (predict_state_configuration configured_execution = PJson name_config
   /\ predicted_state configured_execution = []
   /\ state configured_execution = PJson (JDict [])
   /\ well_formed (JDict []) = true
   /\ parse (py "{'name': 'Al") = Some (JDict [("name", JStr "Al")])
   /\ parse (py "{'name': 'Alice'}") = Some (JDict [("name", JStr "Alice")]))
  /\ exists d1 d2 x',
       handle_all parse [tool_start; first_chunk; second_chunk]
         configured_execution
       = (Ok [ Some (emit_runtime_events [tool_start]);
               Some (emit_runtime_events
                       [first_chunk; name_snapshot configured_execution d1]);
               Some (emit_runtime_events
                       [second_chunk; name_snapshot configured_execution d2]) ],
          x')
       /\ decoded_state (name_snapshot configured_execution d1)
          = Some (JDict d1)
       /\ dict_get "name" d1 = Some (JStr "Al")
       /\ decoded_state (name_snapshot configured_execution d2)
          = Some (JDict d2)
       /\ dict_get "name" d2 = Some (JStr "Alice")
       /\ predicted_state x' = [("name", JStr "Alice")].
Proof.
  split; [repeat split; reflexivity|].
  exact (name_prediction_follows_every_chunk parse configured_execution []
           eq_refl eq_refl eq_refl eq_refl eq_refl eq_refl).
Defined.

(** C1, as stated, fails on the modelled parser: the text forwarded for
    the first chunk is not the chunk alone, a snapshot with the partial
    value "Al" follows it. *)
Lemma first_chunk_already_forwards_a_snapshot :
  ~ (exists o1 o3 x',
        handle_all parse [tool_start; first_chunk; second_chunk]
          configured_execution
        = (Ok [o1; Some (emit_runtime_events [first_chunk]); o3], x')).
Proof.
  intros (o1 & o3 & x' & H). vm_compute in H. discriminate H.
Qed.

Lemma snapshot_follows_its_trigger_witness :
  (dict_get "type" second_chunk = Some (PType ACTION_EXECUTION_ARGS)
   /\ type_in (PType ACTION_EXECUTION_ARGS) predicting_event_types = true
   /\ predict_state parse "thread_1" "assistant" "run_1" second_chunk
        busy_execution
      = (Ok (Some alice_snapshot), predicted_execution)
   /\ copilotkit_run parse
        [second_chunk; closing_event; run_finished (JDict []); heartbeat]
        busy_execution
      = ([emit_runtime_events [second_chunk; alice_snapshot];
          emit_runtime_event closing_snapshot],
         Finished, set_is_finished true closed_execution)
   /\ copilotkit_run parse [text_message_end "m1"] busy_execution
      = ([emit_runtime_events [text_message_end "m1"]], Waiting,
         busy_execution))
  /\ (handle_runtime_event parse second_chunk busy_execution
      = (Ok (Some (emit_runtime_events [second_chunk; alice_snapshot])),
         predicted_execution)
      /\ split_lines (emit_runtime_events [second_chunk; alice_snapshot])
         = ([json_line second_chunk; json_line alice_snapshot], "")
      /\ is_snapshot alice_snapshot)
  /\ (exists handled rest outs xh,
         [second_chunk; closing_event; run_finished (JDict []); heartbeat]
         = (handled ++ rest)%list
         /\ handle_all parse handled busy_execution = (Ok outs, xh)
         /\ [emit_runtime_events [second_chunk; alice_snapshot];
             emit_runtime_event closing_snapshot] = yields outs
         /\ Forall2 forwards handled outs
         /\ (handled <> [] /\ set_is_finished true closed_execution = xh
             /\ is_finished xh = true)
         /\ (forall h1 h2 o1 x1,
               handled = (h1 ++ h2)%list -> h1 <> [] ->
               h2 <> [] \/ Finished <> Finished ->
               handle_all parse h1 busy_execution = (Ok o1, x1) ->
               is_finished x1 = false))
  /\ copilotkit_run parse
       ([text_message_end "m1"] ++ second_chunk :: [closing_event])
       busy_execution
     = ([emit_runtime_events [text_message_end "m1"];
         emit_runtime_events [second_chunk; alice_snapshot];
         emit_runtime_event closing_snapshot],
        Waiting, closed_execution).
Proof.
  split; [repeat split; reflexivity|]. split; [|split].
  - exact (proj1 (snapshot_follows_its_trigger parse)
             second_chunk (PType ACTION_EXECUTION_ARGS) alice_snapshot
             busy_execution predicted_execution eq_refl eq_refl eq_refl).
  - exact (proj1 (proj2 (snapshot_follows_its_trigger parse))
             [second_chunk; closing_event; run_finished (JDict []); heartbeat]
             busy_execution
             [emit_runtime_events [second_chunk; alice_snapshot];
              emit_runtime_event closing_snapshot]
             Finished (set_is_finished true closed_execution) eq_refl).
  - exact (proj2 (proj2 (snapshot_follows_its_trigger parse))
             [text_message_end "m1"] second_chunk [closing_event]
             (PType ACTION_EXECUTION_ARGS) alice_snapshot busy_execution
             [emit_runtime_events [text_message_end "m1"]]
             busy_execution predicted_execution
             eq_refl eq_refl eq_refl eq_refl).
Defined.

Lemma text_run_yields_three_lines_witness :
  is_finished fresh_execution = false
  /\ copilotkit_run parse text_run fresh_execution
     = ([ py "{'type': 'TextMessageStart', 'messageId': 'm1', 'parentMessageId': null}" ++ NL;
          py "{'type': 'TextMessageContent', 'messageId': 'm1', 'content': 'Hi'}" ++ NL;
          py "{'type': 'TextMessageEnd', 'messageId': 'm1'}" ++ NL ],
        Finished, set_is_finished true fresh_execution).
Proof.
  split; [reflexivity|].
  exact (text_run_yields_three_lines parse fresh_execution eq_refl).
Defined.

Lemma predictor_tolerates_partial_arguments_witness :
  (dict_get "type" unreadable_chunk = Some (PType ACTION_EXECUTION_ARGS)
   /\ dict_get "args" unreadable_chunk = Some (PJson (JStr (py "{'name': 1.")))
   /\ predict_state_configuration busy_execution = PJson name_config
   /\ forallb config_ok
        (dict_values [("name", JDict [("tool_name", JStr "update_user");
                                      ("tool_argument", JStr "name")])]) = true
   /\ parse (argument_buffer busy_execution ++ py "{'name': 1.") = None
   /\ dict_get "type" first_chunk = Some (PType ACTION_EXECUTION_ARGS)
   /\ dict_get "args" first_chunk = Some (PJson (JStr (py "{'name': 'Al")))
   /\ parse (argument_buffer started_execution ++ py "{'name': 'Al")
      = Some (JDict [("name", JStr "Al")]))
  /\ (exists out x',
         predict_state parse "thread_1" "assistant" "run_1" unreadable_chunk
           busy_execution = (Ok out, x'))
  /\ predict_state parse "thread_1" "assistant" "run_1" unreadable_chunk
       busy_execution
     = (Ok None,
        set_argument_buffer (argument_buffer busy_execution ++ py "{'name': 1.")
          busy_execution)
  /\ predicted_state
       (snd (predict_state parse "thread_1" "assistant" "run_1"
               unreadable_chunk busy_execution))
     = [("name", JStr "Al")]
  /\ (exists out x',
         predict_state parse "thread_1" "assistant" "run_1" first_chunk
           started_execution = (Ok out, x')).
Proof.
  split; [repeat split; reflexivity|].
  pose proof (predictor_tolerates_partial_arguments parse
                "thread_1" "assistant" "run_1" unreadable_chunk
                (py "{'name': 1.") _ _ busy_execution
                eq_refl eq_refl eq_refl eq_refl eq_refl
                (or_introl eq_refl)) as [H1 H2].
  split; [exact H1|]. split; [exact (proj1 (H2 eq_refl))|].
  split; [exact (proj2 (H2 eq_refl))|].
  exact (proj1 (predictor_tolerates_partial_arguments parse
                  "thread_1" "assistant" "run_1" first_chunk
                  (py "{'name': 'Al") _ _ started_execution
                  eq_refl eq_refl eq_refl eq_refl eq_refl
                  (or_intror (ex_intro _ [("name", JStr "Al")] eq_refl)))).
Defined.

Lemma node_finished_resets_prediction_witness :
  dict_get "type" (node_finished "n2" (JDict [])) = Some (PType NODE_FINISHED)
  /\ (let x' := snd (handle_runtime_event parse
                       (node_finished "n2" (JDict [])) busy_execution) in
      predicted_state x' = []
      /\ argument_buffer x' = ""
      /\ current_tool_call x' = PJson JNull
      /\ predict_state_configuration x' = PJson (JDict [])).
Proof.
  split; [reflexivity|].
  exact (node_finished_resets_prediction parse
           (node_finished "n2" (JDict [])) busy_execution eq_refl).
Defined.

Lemma synthesized_state_is_filtered_witness :
  (predict_state parse "thread_1" "assistant" "run_1" second_chunk
     busy_execution
   = (Ok (Some alice_snapshot), predicted_execution)
   /\ proper_state [("id", JStr "t"); ("city", JStr "Oslo")]
        [("name", JStr "Alice")] = true
   /\ dict_get "type" closing_event = Some (PType NODE_FINISHED)
   /\ type_in (PType NODE_FINISHED) [NODE_STARTED; NODE_FINISHED] = true
   /\ handle_runtime_event parse closing_event predicted_execution
      = (Ok (Some (emit_runtime_event closing_snapshot)), closed_execution)
   /\ well_formed (JDict [("messages", JList []); ("name", JStr "Alice")])
      = true)
  /\ (exists d',
         is_snapshot alice_snapshot
         /\ business_state_of d'
              (dict_merge [("id", JStr "t"); ("city", JStr "Oslo")]
                 [("name", JStr "Alice")])
         /\ decoded_state alice_snapshot = Some (JDict d'))
  /\ (exists d' m,
         emit_runtime_event closing_snapshot = emit_runtime_event m
         /\ is_snapshot m
         /\ business_state_of d'
              [("messages", JList []); ("name", JStr "Alice")]
         /\ decoded_state m = Some (JDict d')).
Proof.
  split; [repeat split; reflexivity|]. split.
  - destruct (proj1 (synthesized_state_is_filtered parse)
                "thread_1" "assistant" "run_1" second_chunk busy_execution
                alice_snapshot predicted_execution eq_refl)
      as (st & d' & Hst & Hsnap & _ & Hb & Hdec).
    injection Hst as <-. exists d'.
    split; [exact Hsnap|]. split; [exact Hb|]. exact (Hdec eq_refl).
  - destruct (proj2 (synthesized_state_is_filtered parse)
                closing_event (PType NODE_FINISHED) predicted_execution
                (emit_runtime_event closing_snapshot) closed_execution
                eq_refl eq_refl eq_refl)
      as (st & d' & m & Hst & Htext & Hsnap & _ & Hb & Hdec).
    injection Hst as <-. exists d', m.
    split; [exact Htext|]. split; [exact Hsnap|]. split; [exact Hb|].
    exact (Hdec eq_refl).
Defined.

Lemma unknown_event_is_a_no_op_witness :
  (dict_get "type" heartbeat = Some (PJson (JStr "Heartbeat"))
   /\ type_in (PJson (JStr "Heartbeat")) handled_event_types = false
   /\ dict_get "type" interrupt = Some (PType META_EVENT)
   /\ dict_get "name" interrupt = Some (PName LANG_GRAPH_INTERRUPT_EVENT)
   /\ is_name (PName LANG_GRAPH_INTERRUPT_EVENT) PREDICT_STATE = false
   /\ is_name (PName LANG_GRAPH_INTERRUPT_EVENT) EXIT = false)
  /\ handle_runtime_event parse heartbeat busy_execution
     = (Ok None, busy_execution)
  /\ handle_runtime_event parse interrupt busy_execution
     = (Ok None, busy_execution).
Proof.
  split; [repeat split; reflexivity|]. split.
  - exact (proj1 (unknown_event_is_a_no_op parse heartbeat busy_execution)
             (PJson (JStr "Heartbeat")) eq_refl eq_refl).
  - exact (proj2 (unknown_event_is_a_no_op parse interrupt busy_execution)
             (PName LANG_GRAPH_INTERRUPT_EVENT) eq_refl eq_refl eq_refl eq_refl).
Defined.

Lemma meta_event_updates_one_field_witness :
  (dict_get "type" (meta_event PREDICT_STATE name_config)
   = Some (PType META_EVENT)
   /\ dict_get "value" (meta_event PREDICT_STATE name_config)
      = Some (PJson name_config)
   /\ dict_get "name" (meta_event PREDICT_STATE name_config)
      = Some (PName PREDICT_STATE)
   /\ dict_get "type" (meta_event EXIT (JBool true)) = Some (PType META_EVENT)
   /\ dict_get "value" (meta_event EXIT (JBool true))
      = Some (PJson (JBool true))
   /\ dict_get "name" (meta_event EXIT (JBool true)) = Some (PName EXIT))
  /\ handle_runtime_event parse (meta_event PREDICT_STATE name_config)
       fresh_execution
     = (Ok None, configured_execution)
  /\ handle_runtime_event parse (meta_event EXIT (JBool true)) busy_execution
     = (Ok None, set_should_exit (PJson (JBool true)) busy_execution).
Proof.
  split; [repeat split; reflexivity|]. split.
  - exact (proj1 (meta_event_updates_one_field parse
                    (meta_event PREDICT_STATE name_config) (PJson name_config)
                    fresh_execution eq_refl eq_refl) eq_refl).
  - exact (proj1 (proj2 (meta_event_updates_one_field parse
                           (meta_event EXIT (JBool true)) (PJson (JBool true))
                           busy_execution eq_refl eq_refl)) eq_refl).
Defined.


End ParserFacts.

(* ------------------------------------------------------------------ *)
(** ** The serializer beyond one call *)
(* ------------------------------------------------------------------ *)

Module SerializerFacts.
Import PyFacts RoundTrip ProtocolFacts.

Lemma concat_empty_cons (x : string) (l : list string) :
  String.concat "" (x :: l) = x ++ String.concat "" l.
Proof.
  destruct l as [|y l]; cbn [String.concat].
  - now rewrite append_nil_r.
  - reflexivity.
Qed.

Lemma concat_empty_app (a b : list string) :
  String.concat "" (a ++ b) = String.concat "" a ++ String.concat "" b.
Proof.
  induction a as [|x a IH].
  - reflexivity.
  - cbn [app]. rewrite !concat_empty_cons, IH. now rewrite append_assoc.
Qed.

(** X1.  The text of a sequence of events is the texts of its parts put
    end to end: for two non-empty sequences, serializing them together
    gives the text of the first followed by the text of the second, and
    a non-empty sequence serialized at once gives the same text as one
    [emit_runtime_event] per event.  The empty call is the exception: it
    returns a lone newline, not the empty text. *)
Theorem emit_runtime_events_composes :
  (forall a b : list event, a <> [] -> b <> [] ->
     emit_runtime_events (a ++ b)
     = emit_runtime_events a ++ emit_runtime_events b)
  /\ (forall events : list event, events <> [] ->
        emit_runtime_events events = emit_each events)
  /\ emit_runtime_events [] = NL
  /\ emit_each [] = "".
Proof.
  split; [|split; [|split]]; try reflexivity.
  - intros a b Ha Hb.
    rewrite !emit_runtime_events_unfold; try assumption.
    + now rewrite !map_app, concat_empty_app.
    + destruct a; [congruence|discriminate].
  - intros events Hne. rewrite emit_runtime_events_unfold by assumption.
    unfold emit_each. rewrite map_map. reflexivity.
Qed.

Lemma emit_runtime_events_composes_witness :
  ([tool_start; first_chunk] <> [] /\ [second_chunk] <> [])
  /\ emit_runtime_events ([tool_start; first_chunk] ++ [second_chunk])
     = emit_runtime_events [tool_start; first_chunk]
       ++ emit_runtime_events [second_chunk].
Proof.
  split; [split; discriminate|].
  exact (proj1 emit_runtime_events_composes
           [tool_start; first_chunk] [second_chunk]
           ltac:(discriminate) ltac:(discriminate)).
Defined.

Lemma RuntimeEventTypes_value_inj (a b : RuntimeEventTypes) :
  RuntimeEventTypes_value a = RuntimeEventTypes_value b -> a = b.
Proof. destruct a, b; intros H; try reflexivity; discriminate H. Qed.

(** X2.  The JSON line tells the wire dictionary: two events whose wire
    dictionaries are proper data (no key twice) and whose lines are
    equal have the same wire dictionary, so the same keys in the same
    order with the same wire values; in particular two events typed by
    [RuntimeEventTypes] members that print the same line have the same
    type. *)
Theorem json_line_determines_event (e1 e2 : event) :
  well_formed (JDict (serialize_event e1)) = true ->
  well_formed (JDict (serialize_event e2)) = true ->
  json_line e1 = json_line e2 ->
  serialize_event e1 = serialize_event e2
  /\ (forall t1 t2,
        dict_get "type" e1 = Some (PType t1) ->
        dict_get "type" e2 = Some (PType t2) -> t1 = t2).
Proof.
  intros H1 H2 Hline.
  assert (Hs : serialize_event e1 = serialize_event e2).
  { apply json_loads_dumps in H1, H2. unfold json_line in Hline.
    rewrite Hline in H1. rewrite H1 in H2. now injection H2. }
  split; [exact Hs|].
  intros t1 t2 T1 T2.
  assert (G : dict_get "type" (serialize_event e1)
              = dict_get "type" (serialize_event e2)) by now rewrite Hs.
  rewrite !dict_get_serialize_event, T1, T2 in G. cbn in G.
  injection G as G. now apply RuntimeEventTypes_value_inj.
Qed.

Lemma json_line_determines_event_witness :
  (well_formed (JDict (serialize_event (text_message_end "m1"))) = true
   /\ well_formed (JDict (serialize_event spelled_end)) = true
   /\ json_line (text_message_end "m1") = json_line spelled_end)
  /\ serialize_event (text_message_end "m1") = serialize_event spelled_end.
Proof.
  split; [repeat split; reflexivity|].
  exact (proj1 (json_line_determines_event (text_message_end "m1") spelled_end
                  eq_refl eq_refl eq_refl)).
Defined.

End SerializerFacts.

(* ------------------------------------------------------------------ *)
(** ** The two state filters *)
(* ------------------------------------------------------------------ *)

Module FilterFacts.
Import PyFacts RoundTrip.

Lemma filter_twice {A : Type} (f : A -> bool) (l : list A) :
  filter f (filter f l) = filter f l.
Proof.
  induction l as [|a l IH]; [reflexivity|]. cbn [filter].
  destruct (f a) eqn:E; [|exact IH]. cbn [filter]. now rewrite E, IH.
Qed.

Lemma map_fst_filter {V : Type} (f : string -> bool) (d : list (string * V)) :
  map fst (filter (fun kv => f (fst kv)) d) = filter f (map fst d).
Proof.
  induction d as [|[k v] d IH]; [reflexivity|]. cbn [filter map fst].
  destruct (f k); cbn [map fst]; now rewrite IH.
Qed.

(** X3.  [_filter_state] with a non-empty list of keys to exclude
    returns the dictionary without exactly those keys: an excluded key
    is absent, every other key keeps its value, and the keys that stay
    keep their order.  The keys ["messages"] and ["id"] are then removed
    only when the list names them. *)
Theorem filter_state_excludes_listed_keys (d : dict) (keys : list string) :
  keys <> [] ->
  exists d',
    _filter_state (PJson (JDict d)) (Some keys) = Ok d'
    /\ (forall k, dict_get k d'
                  = if str_in k keys then None else dict_get k d)
    /\ dict_keys d' = filter (fun k => negb (str_in k keys)) (dict_keys d).
Proof.
  intros Hne. destruct keys as [|k0 keys]; [congruence|].
  eexists. split; [reflexivity|]. split.
  - intros k. cbn [default_exclude_keys].
    rewrite (dict_get_filter (fun k => negb (str_in k (k0 :: keys)))).
    now destruct (str_in k (k0 :: keys)).
  - unfold dict_keys. cbn [default_exclude_keys].
    apply (map_fst_filter (fun k => negb (str_in k (k0 :: keys)))).
Qed.

Lemma filter_state_excludes_listed_keys_witness :
  ["secret"] <> []
  /\ exists d',
       _filter_state (PJson (JDict secret_state)) (Some ["secret"]) = Ok d'
       /\ (forall k, dict_get k d'
                     = if str_in k ["secret"] then None
                       else dict_get k secret_state)
       /\ dict_keys d'
          = filter (fun k => negb (str_in k ["secret"])) (dict_keys secret_state).
Proof.
  split; [discriminate|].
  exact (filter_state_excludes_listed_keys secret_state ["secret"]
           ltac:(discriminate)).
Defined.

(** X4.  An empty list of keys to exclude is taken as no list at all:
    [_filter_state] then removes ["messages"] and ["id"], as by default.
    Filtering is idempotent: filtering a result again with the same keys
    gives it back.  A state that is not a dictionary raises
    [AttributeError]. *)
Theorem filter_state_empty_list_is_the_default (st : pyval)
  (keys : option (list string)) :
  _filter_state st (Some []) = _filter_state st None
  /\ (forall d', _filter_state st keys = Ok d' ->
        _filter_state (PJson (JDict d')) keys = Ok d')
  /\ (is_dict_value st = false ->
        _filter_state st keys = Raise (AttributeError "items")).
Proof.
  split; [reflexivity|]. split.
  - intros d' H. unfold _filter_state, _to_dict_if_pydantic in *.
    destruct st as [t|n|[]]; try discriminate H. injection H as <-.
    now rewrite filter_twice.
  - intros H. destruct st as [t|n|[]]; try reflexivity. discriminate H.
Qed.

Lemma filter_state_empty_list_is_the_default_witness :
  (_filter_state (PJson (JDict secret_state)) (Some [])
   = Ok [("secret", JInt 1); ("city", JStr "Oslo")]
   /\ is_dict_value (PJson (JList [])) = false)
  /\ _filter_state (PJson (JDict [("secret", JInt 1); ("city", JStr "Oslo")]))
       (Some [])
     = Ok [("secret", JInt 1); ("city", JStr "Oslo")]
  /\ _filter_state (PJson (JList [])) None = Raise (AttributeError "items").
Proof.
  split; [split; reflexivity|]. split.
  - exact (proj1 (proj2 (filter_state_empty_list_is_the_default
                           (PJson (JDict secret_state)) (Some [])))
             [("secret", JInt 1); ("city", JStr "Oslo")] eq_refl).
  - exact (proj2 (proj2 (filter_state_empty_list_is_the_default
                           (PJson (JList [])) None)) eq_refl).
Defined.

Lemma schema_items_dict (schema : dict) (d : dict) :
  schema_items d (JDict schema)
  = Ok (filter (fun kv => kept_by_schema schema (fst kv)) d).
Proof.
  induction d as [|[k v] d IH]; [reflexivity|].
  cbn [schema_items schema_has filter fst]. rewrite IH.
  unfold kept_by_schema, has_key.
  now destruct (dict_get k schema); destruct (String.eqb k "messages").
Qed.

(** X5.  [filter_by_schema_keys] on a dictionary, with a dictionary as
    schema, keeps exactly the keys that the schema has, and ["messages"]:
    such a key keeps its value, every other key is gone.  So ["messages"]
    always survives, and filtering a result again with the same schema
    gives it back. *)
Theorem filter_by_schema_keys_keeps_schema_keys (d schema : dict) :
  exists d',
    filter_by_schema_keys (JDict d) (JDict schema) = JDict d'
    /\ (forall k, dict_get k d'
                  = if kept_by_schema schema k then dict_get k d else None)
    /\ dict_get "messages" d' = dict_get "messages" d
    /\ filter_by_schema_keys (JDict d') (JDict schema) = JDict d'.
Proof.
  exists (filter (fun kv => kept_by_schema schema (fst kv)) d).
  unfold filter_by_schema_keys, schema_filter.
  rewrite !schema_items_dict. split; [reflexivity|]. split; [|split].
  - intros k. apply (dict_get_filter (kept_by_schema schema)).
  - rewrite (dict_get_filter (kept_by_schema schema)).
    unfold kept_by_schema. cbn [String.eqb Ascii.eqb Bool.eqb].
    now rewrite orb_true_r.
  - now rewrite filter_twice.
Qed.

Lemma schema_items_not_iterable (schema : json) (d : dict) :
  iterable schema = false -> d <> [] ->
  exists e, schema_items d schema = Raise e.
Proof.
  intros Hs Hd. destruct d as [|[k v] d]; [congruence|].
  cbn [schema_items]. destruct schema; try discriminate Hs; cbn; eauto.
Qed.

(** X6.  [filter_by_schema_keys] never raises; where its comprehension
    fails it hands back the object it was given.  That is so for every
    object that is not a dictionary, and, for every object, when the
    schema is a value [in] does not work on, such as [None]: a
    dictionary then comes back with all its keys, nothing filtered. *)
Theorem filter_by_schema_keys_returns_the_object_on_error
  (obj schema : json) :
  (is_dict obj = false -> filter_by_schema_keys obj schema = obj)
  /\ (iterable schema = false -> filter_by_schema_keys obj schema = obj).
Proof.
  split.
  - intros H. destruct obj; try reflexivity. discriminate H.
  - intros H. unfold filter_by_schema_keys, schema_filter.
    destruct obj as [| | | | |d]; try reflexivity.
    destruct d as [|kv d]; [reflexivity|].
    destruct (schema_items_not_iterable schema (kv :: d) H) as [e ->];
      [discriminate|reflexivity].
Qed.

Lemma filter_by_schema_keys_returns_the_object_on_error_witness :
  (is_dict (JStr "not a dict") = false /\ iterable JNull = false)
  /\ filter_by_schema_keys (JStr "not a dict") (JDict [("city", JNull)])
     = JStr "not a dict"
  /\ filter_by_schema_keys (JDict secret_state) JNull = JDict secret_state.
Proof.
  split; [split; reflexivity|]. split.
  - exact (proj1 (filter_by_schema_keys_returns_the_object_on_error
                    (JStr "not a dict") (JDict [("city", JNull)])) eq_refl).
  - exact (proj2 (filter_by_schema_keys_returns_the_object_on_error
                    (JDict secret_state) JNull) eq_refl).
Defined.

End FilterFacts.

(* ------------------------------------------------------------------ *)
(** ** The context variables and [queue_put] *)
(* ------------------------------------------------------------------ *)

Module ContextFacts.

Lemma run_enqueues (events : list event) (tail : list step) :
  forall (others : list interference) (q : list event),
    run_steps (map Enqueue events ++ tail) others q
    = run_steps tail others (q ++ events)%list.
Proof.
  induction events as [|ev events IH]; intros others q;
    cbn [map app run_steps].
  - now rewrite app_nil_r.
  - rewrite IH. unfold put. now rewrite <- app_assoc.
Qed.

Lemma queue_put_alone (events : list event) (priority : bool)
  (q : list event) :
  run_steps (queue_put_steps events priority) [] q = (q ++ events)%list.
Proof.
  unfold queue_put_steps, yield_control.
  destruct priority; cbn [app run_steps]; now rewrite run_enqueues.
Qed.

(** X7.  [queue_put] needs the queue of a run.  When the context holds
    no queue it raises [RuntimeError], whatever the events and the
    priority, even for no event at all, and nothing is stored; when it
    holds one, the events are appended to it in the order given, behind
    what was waiting, and the execution bound to the context is left
    alone.  Outside a run [get_context_queue] raises as well, while
    [get_context_execution] returns [None] without raising. *)
Theorem queue_put_needs_the_context_queue (events : list event)
  (priority : bool) (c : context) :
  (_CONTEXT_QUEUE c = None ->
   queue_put events priority c = inl (RuntimeError "No context queue is set!"))
  /\ (forall q, _CONTEXT_QUEUE c = Some q ->
        queue_put events priority c
        = inr (mkContext (Some (q ++ events)%list) (_CONTEXT_EXECUTION c)))
  /\ get_context_execution default_context = None
  /\ get_context_queue default_context
     = inl (RuntimeError "No context queue is set!").
Proof.
  split; [|split; [|split]]; try reflexivity.
  - intros H. unfold queue_put, queue_put_among, get_context_queue.
    now rewrite H.
  - intros q H. unfold queue_put, queue_put_among, get_context_queue.
    rewrite H. now rewrite queue_put_alone.
Qed.

Lemma queue_put_needs_the_context_queue_witness :
  (_CONTEXT_QUEUE default_context = None
   /\ _CONTEXT_QUEUE running_context = Some [tool_start])
  /\ queue_put [] true default_context
     = inl (RuntimeError "No context queue is set!")
  /\ queue_put [first_chunk; second_chunk] false running_context
     = inr (mkContext (Some [tool_start; first_chunk; second_chunk])
              (Some fresh_execution)).
Proof.
  split; [split; reflexivity|]. split.
  - exact (proj1 (queue_put_needs_the_context_queue [] true default_context)
             eq_refl).
  - exact (proj1 (proj2 (queue_put_needs_the_context_queue
                           [first_chunk; second_chunk] false running_context))
             [tool_start] eq_refl).
Defined.

(** X9.  Binding a queue and an execution record to the context, as
    [copilotkit_run] does on entry, makes them what the getters return;
    handing the two tokens back to the reset functions, as its [finally]
    block does, restores the context as it was before, whether or not
    events were put on the queue in between. *)
Theorem context_is_restored_by_reset (q : list event)
  (x : CopilotKitRunExecution) (events : list event) (priority : bool)
  (c : context) :
  let (token_queue, c1) := set_context_queue q c in
  let (token_execution, c2) := set_context_execution x c1 in
  get_context_queue c2 = inr q
  /\ get_context_execution c2 = Some x
  /\ (forall c3, queue_put events priority c2 = inr c3 ->
        get_context_queue c3 = inr (q ++ events)%list
        /\ reset_context_execution token_execution
             (reset_context_queue token_queue c3) = c)
  /\ reset_context_execution token_execution
       (reset_context_queue token_queue c2) = c.
Proof.
  destruct c as [cq cx]. cbn.
  split; [reflexivity|]. split; [reflexivity|]. split; [|reflexivity].
  intros c3 H. unfold queue_put, queue_put_among in H.
  cbn [get_context_queue _CONTEXT_QUEUE _CONTEXT_EXECUTION] in H.
  rewrite queue_put_alone in H. injection H as <-. split; reflexivity.
Qed.

Lemma context_is_restored_by_reset_witness :
  queue_put [tool_start] false
    (mkContext (Some []) (Some fresh_execution))
  = inr running_context
  /\ reset_context_execution None (reset_context_queue None running_context)
     = default_context.
Proof.
  split; [reflexivity|].
  exact (proj2 (proj1 (proj2 (proj2
           (context_is_restored_by_reset [] fresh_execution [tool_start]
              false default_context))) running_context eq_refl)).
Defined.

End ContextFacts.

(* ------------------------------------------------------------------ *)
(** ** The dispatcher, field by field *)
(* ------------------------------------------------------------------ *)

Module DispatcherFacts.
Import PyFacts RoundTrip ProtocolFacts RunloopFacts.

Local Open Scope py_scope.

Ltac eval_tests H :=
  cbn [type_in is_type is_name existsb RuntimeEventTypes_eqb
       RuntimeEventTypes_value String.eqb Ascii.eqb Bool.eqb orb andb
       protocol_event_types predicting_event_types plain_event_types] in H.

Ltac eval_goal :=
  cbn [type_in is_type is_name existsb RuntimeEventTypes_eqb
       RuntimeEventTypes_value String.eqb Ascii.eqb Bool.eqb orb andb
       protocol_event_types predicting_event_types plain_event_types].

Ltac open_handler E :=
  unfold handle_runtime_event, node_state_message in E; unfold_m.

Ltac open_goal :=
  unfold handle_runtime_event, node_state_message; unfold_m.

Ltac use_predict_frame :=
  try match goal with
    | L : predict_state _ _ _ _ _ _ = _ |- _ =>
        apply predict_state_frame in L; rewrite L
    end.

Section WithParser.

Variable parse : string -> option json.

(** X10.  Each branch of the dispatcher writes only its own fields,
    also when it raises.  No event changes [thread_id], [agent_name] or
    [run_id].  Only RunStarted, NodeStarted and NodeFinished change
    [state]; only a MetaEvent and NodeFinished change
    [predict_state_configuration]; only a MetaEvent changes
    [should_exit]; only NodeStarted changes [node_name]; only
    RunFinished and RunError change [is_finished]; only a tool start, a
    tool chunk and NodeFinished change [predicted_state],
    [argument_buffer] and [current_tool_call]. *)
Theorem handler_changes_only_the_fields_of_its_branch (ev : event)
  (ty : pyval) (x x' : CopilotKitRunExecution) (r : result (option string)) :
  dict_get "type" ev = Some ty ->
  handle_runtime_event parse ev x = (r, x') ->
  thread_id x' = thread_id x
  /\ agent_name x' = agent_name x
  /\ run_id x' = run_id x
  /\ (type_in ty [RUN_STARTED; NODE_STARTED; NODE_FINISHED] = false ->
      state x' = state x)
  /\ (type_in ty [META_EVENT; NODE_FINISHED] = false ->
      predict_state_configuration x' = predict_state_configuration x)
  /\ (is_type ty META_EVENT = false -> should_exit x' = should_exit x)
  /\ (is_type ty NODE_STARTED = false -> node_name x' = node_name x)
  /\ (type_in ty [RUN_FINISHED; RUN_ERROR] = false ->
      is_finished x' = is_finished x)
  /\ (type_in ty [ACTION_EXECUTION_START; ACTION_EXECUTION_ARGS;
                  NODE_FINISHED] = false ->
      predicted_state x' = predicted_state x
      /\ argument_buffer x' = argument_buffer x
      /\ current_tool_call x' = current_tool_call x).
Proof.
  intros Hty E. open_handler E. rewrite Hty in E.
  destruct ty as [t|n|j]; [destruct t| |];
    eval_tests E; eval_goal; crunch; use_predict_frame;
    repeat split; intros; try reflexivity; discriminate.
Qed.

(** X11.  A text-message event, a tool end, a tool result and an
    AgentStateMessage taken from the queue are passed on as they are:
    the dispatcher returns the event's own JSON line, newline-terminated
    and nothing more, and leaves the execution record untouched.  It
    looks at no field but the type, so an AgentStateMessage from the
    queue keeps its state text unfiltered. *)
Theorem plain_protocol_event_is_forwarded_as_it_is (ev : event) (ty : pyval)
  (x : CopilotKitRunExecution) :
  dict_get "type" ev = Some ty ->
  type_in ty plain_event_types = true ->
  handle_runtime_event parse ev x = (Ok (Some (json_line ev ++ NL)), x)
  /\ split_lines (json_line ev ++ NL) = ([json_line ev], "").
Proof.
  intros Hty Hin. split.
  - open_goal. rewrite Hty.
    destruct ty as [[]|n|j]; try discriminate Hin; reflexivity.
  - apply (split_lines_emit [ev]). discriminate.
Qed.

(** X12.  A tool start forwards its own line only, never a snapshot.
    It stores the event's [actionName] as the current tool call and
    empties the argument buffer, and it keeps [predicted_state]: what an
    earlier tool call of the node predicted stays in place.  Without an
    [actionName] it raises [KeyError] and changes nothing. *)
Theorem tool_start_keeps_the_predicted_state (ev : event)
  (x : CopilotKitRunExecution) :
  dict_get "type" ev = Some (PType ACTION_EXECUTION_START) ->
  (forall name, dict_get "actionName" ev = Some name ->
     handle_runtime_event parse ev x
     = (Ok (Some (json_line ev ++ NL)),
        set_argument_buffer "" (set_current_tool_call name x)))
  /\ (dict_get "actionName" ev = None ->
      handle_runtime_event parse ev x = (Raise (KeyError "actionName"), x))
  /\ predicted_state (snd (handle_runtime_event parse ev x))
     = predicted_state x.
Proof.
  intros Hty. split; [|split].
  - intros name Hname. open_goal. unfold predict_state. unfold_m.
    rewrite Hty. eval_goal. now rewrite Hname.
  - intros Hname. open_goal. unfold predict_state. unfold_m.
    rewrite Hty. eval_goal. now rewrite Hname.
  - open_goal. unfold predict_state. unfold_m.
    rewrite Hty. eval_goal. now destruct (dict_get "actionName" ev).
Qed.

(** X13.  An event that lacks a field its branch reads raises
    [KeyError] for that field and forwards nothing.  What the branch
    wrote before the read stays written: a NodeStarted event without
    ["state"] has already replaced [node_name], and a NodeFinished event
    without ["state"] has already reset the prediction working set.  In
    every other case, among them an event without ["type"] and a
    RunError without ["error"], the record is unchanged, so that
    RunError does not finish the run. *)
Theorem missing_key_raises_key_error (ev : event)
  (x : CopilotKitRunExecution) :
  (dict_get "type" ev = None ->
   handle_runtime_event parse ev x = (Raise (KeyError "type"), x))
  /\ (dict_get "type" ev = Some (PType RUN_STARTED) ->
      dict_get "state" ev = None ->
      handle_runtime_event parse ev x = (Raise (KeyError "state"), x))
  /\ (dict_get "type" ev = Some (PType NODE_STARTED) ->
      dict_get "node_name" ev = None ->
      handle_runtime_event parse ev x = (Raise (KeyError "node_name"), x))
  /\ (forall node, dict_get "type" ev = Some (PType NODE_STARTED) ->
      dict_get "node_name" ev = Some node ->
      dict_get "state" ev = None ->
      handle_runtime_event parse ev x
      = (Raise (KeyError "state"), set_node_name node x))
  /\ (dict_get "type" ev = Some (PType NODE_FINISHED) ->
      dict_get "state" ev = None ->
      handle_runtime_event parse ev x
      = (Raise (KeyError "state"), reset_prediction x))
  /\ (dict_get "type" ev = Some (PType META_EVENT) ->
      dict_get "name" ev = None ->
      handle_runtime_event parse ev x = (Raise (KeyError "name"), x))
  /\ (forall name, dict_get "type" ev = Some (PType META_EVENT) ->
      dict_get "name" ev = Some (PName name) ->
      name <> LANG_GRAPH_INTERRUPT_EVENT ->
      dict_get "value" ev = None ->
      handle_runtime_event parse ev x = (Raise (KeyError "value"), x))
  /\ (dict_get "type" ev = Some (PType RUN_ERROR) ->
      dict_get "error" ev = None ->
      handle_runtime_event parse ev x = (Raise (KeyError "error"), x))
  /\ (dict_get "type" ev = Some (PType ACTION_EXECUTION_ARGS) ->
      dict_get "args" ev = None ->
      handle_runtime_event parse ev x = (Raise (KeyError "args"), x)).
Proof.
  repeat split.
  - intros Hty. open_goal. now rewrite Hty.
  - intros Hty H. open_goal. now rewrite Hty, H.
  - intros Hty H. open_goal. now rewrite Hty, H.
  - intros node Hty H1 H2. open_goal. now rewrite Hty, H1, H2.
  - intros Hty H. open_goal. rewrite Hty. eval_goal.
    cbn [set_predict_state_configuration]. now rewrite H.
  - intros Hty H. open_goal. now rewrite Hty, H.
  - intros name Hty H1 Hn H2. open_goal. rewrite Hty, H1. eval_goal.
    destruct name; try congruence; now rewrite H2.
  - intros Hty H. open_goal. now rewrite Hty, H.
  - intros Hty H. open_goal. unfold predict_state. unfold_m.
    rewrite Hty. eval_goal. now rewrite H.
Qed.

(** X14.  A NodeStarted or NodeFinished event whose ["state"] is not a
    dictionary raises [AttributeError] when the snapshot is built, after
    the branch has done all its writes: the record holds that state, and
    the new node name or the reset prediction working set, and nothing
    is forwarded.  RunStarted stores such a state without complaint. *)
Theorem node_event_needs_a_dictionary_state (ev : event) (st : pyval)
  (x : CopilotKitRunExecution) :
  dict_get "state" ev = Some st ->
  is_dict_value st = false ->
  (forall node, dict_get "type" ev = Some (PType NODE_STARTED) ->
     dict_get "node_name" ev = Some node ->
     handle_runtime_event parse ev x
     = (Raise (AttributeError "items"), set_state st (set_node_name node x)))
  /\ (dict_get "type" ev = Some (PType NODE_FINISHED) ->
      handle_runtime_event parse ev x
      = (Raise (AttributeError "items"), set_state st (reset_prediction x)))
  /\ (dict_get "type" ev = Some (PType RUN_STARTED) ->
      handle_runtime_event parse ev x = (Ok None, set_state st x)).
Proof.
  intros Hst Hnd. split; [|split].
  - intros node Hty Hn. open_goal. rewrite Hty, Hn. eval_goal.
    rewrite Hst. cbn [state set_state].
    destruct st as [t|n|[]]; try reflexivity. discriminate Hnd.
  - intros Hty. open_goal. rewrite Hty. eval_goal.
    rewrite Hst. cbn [state set_state].
    destruct st as [t|n|[]]; try reflexivity. discriminate Hnd.
  - intros Hty. open_goal. now rewrite Hty, Hst.
Qed.

Lemma is_finished_after (ev : event) (x x' : CopilotKitRunExecution)
  (r : result (option string)) :
  handle_runtime_event parse ev x = (r, x') ->
  is_finished x' = is_finished x || ends_run ev.
Proof.
  intros E. open_handler E. unfold ends_run, has_key.
  destruct (dict_get "type" ev) as [[t|n|j]|]; [destruct t| | |];
    eval_tests E; eval_goal; crunch; use_predict_frame;
    cbn [is_finished set_is_finished set_state set_node_name
         set_predict_state_configuration set_should_exit
         set_predicted_state set_argument_buffer set_current_tool_call
         with_prediction_of];
    now rewrite ?orb_false_r, ?orb_true_r.
Qed.

(** X15.  [is_finished] is never reset and is set by a run-end event
    only: after any event, handled or raising, it holds exactly when it
    held before or the event is a RunFinished, or a RunError that
    carries its ["error"]. *)
Theorem is_finished_is_set_at_a_run_end_only (ev : event)
  (x x' : CopilotKitRunExecution) (r : result (option string)) :
  handle_runtime_event parse ev x = (r, x') ->
  is_finished x' = is_finished x || ends_run ev.
Proof. apply is_finished_after. Qed.

End WithParser.

Lemma handler_changes_only_the_fields_of_its_branch_witness :
  (dict_get "type" closing_event = Some (PType NODE_FINISHED)
   /\ handle_runtime_event PartialJson.parse closing_event predicted_execution
      = (Ok (Some (emit_runtime_event closing_snapshot)), closed_execution))
  /\ run_id closed_execution = run_id predicted_execution
  /\ should_exit closed_execution = should_exit predicted_execution
  /\ node_name closed_execution = node_name predicted_execution
  /\ is_finished closed_execution = is_finished predicted_execution.
Proof.
  split; [split; reflexivity|].
  destruct (handler_changes_only_the_fields_of_its_branch PartialJson.parse
              closing_event (PType NODE_FINISHED) predicted_execution
              closed_execution (Ok (Some (emit_runtime_event closing_snapshot)))
              eq_refl eq_refl)
    as (_ & _ & A & _ & _ & B & C & D & _).
  exact (conj A (conj (B eq_refl) (conj (C eq_refl) (D eq_refl)))).
Defined.

Lemma plain_protocol_event_is_forwarded_as_it_is_witness :
  (dict_get "type" alice_snapshot = Some (PType AGENT_STATE_MESSAGE)
   /\ type_in (PType AGENT_STATE_MESSAGE) plain_event_types = true)
  /\ handle_runtime_event PartialJson.parse alice_snapshot busy_execution
     = (Ok (Some (json_line alice_snapshot ++ NL)), busy_execution)
  /\ split_lines (json_line alice_snapshot ++ NL)
     = ([json_line alice_snapshot], "").
Proof.
  split; [split; reflexivity|].
  exact (plain_protocol_event_is_forwarded_as_it_is PartialJson.parse
           alice_snapshot (PType AGENT_STATE_MESSAGE) busy_execution
           eq_refl eq_refl).
Defined.

Lemma tool_start_keeps_the_predicted_state_witness :
  (dict_get "type" tool_start = Some (PType ACTION_EXECUTION_START)
   /\ dict_get "actionName" tool_start = Some (PJson (JStr "update_user")))
  /\ handle_runtime_event PartialJson.parse tool_start predicted_execution
     = (Ok (Some (json_line tool_start ++ NL)),
        set_argument_buffer ""
          (set_current_tool_call (PJson (JStr "update_user"))
             predicted_execution)).
Proof.
  split; [split; reflexivity|].
  exact (proj1 (tool_start_keeps_the_predicted_state PartialJson.parse
                  tool_start predicted_execution eq_refl)
           (PJson (JStr "update_user")) eq_refl).
Defined.

Lemma missing_key_raises_key_error_witness :
  (dict_get "type" stateless_node_started = Some (PType NODE_STARTED)
   /\ dict_get "node_name" stateless_node_started = Some (PJson (JStr "n2"))
   /\ dict_get "state" stateless_node_started = None)
  /\ handle_runtime_event PartialJson.parse stateless_node_started
       busy_execution
     = (Raise (KeyError "state"),
        set_node_name (PJson (JStr "n2")) busy_execution).
Proof.
  split; [repeat split; reflexivity|].
  destruct (missing_key_raises_key_error PartialJson.parse
              stateless_node_started busy_execution)
    as (_ & _ & _ & A & _).
  exact (A (PJson (JStr "n2")) eq_refl eq_refl eq_refl).
Defined.

Lemma node_event_needs_a_dictionary_state_witness :
  (dict_get "state" (node_finished "n1" JNull) = Some (PJson JNull)
   /\ is_dict_value (PJson JNull) = false
   /\ dict_get "type" (node_finished "n1" JNull) = Some (PType NODE_FINISHED))
  /\ handle_runtime_event PartialJson.parse (node_finished "n1" JNull)
       busy_execution
     = (Raise (AttributeError "items"),
        set_state (PJson JNull) (reset_prediction busy_execution)).
Proof.
  split; [repeat split; reflexivity|].
  exact (proj1 (proj2 (node_event_needs_a_dictionary_state PartialJson.parse
                         (node_finished "n1" JNull) (PJson JNull)
                         busy_execution eq_refl eq_refl)) eq_refl).
Defined.

Lemma is_finished_is_set_at_a_run_end_only_witness :
  handle_runtime_event PartialJson.parse (meta_event EXIT (JBool true))
    fresh_execution
  = (Ok None, set_should_exit (PJson (JBool true)) fresh_execution)
  /\ is_finished (set_should_exit (PJson (JBool true)) fresh_execution)
     = is_finished fresh_execution || ends_run (meta_event EXIT (JBool true)).
Proof.
  split; [reflexivity|].
  exact (is_finished_is_set_at_a_run_end_only PartialJson.parse
           (meta_event EXIT (JBool true)) fresh_execution
           (set_should_exit (PJson (JBool true)) fresh_execution) (Ok None)
           eq_refl).
Defined.

End DispatcherFacts.

(* ------------------------------------------------------------------ *)
(** ** Where the run loop ends *)
(* ------------------------------------------------------------------ *)

Module RunFacts.
Import PyFacts RoundTrip ProtocolFacts RunloopFacts DispatcherFacts.

Section WithParser.

Variable parse : string -> option json.

(** X16.  Once the run loop has ended, by the end of the run or by an
    exception of the dispatcher, whatever else the producer puts on the
    queue is never taken from it: with more events behind the ones
    given, the loop yields the same texts, ends the same way and leaves
    the same record. *)
Theorem run_ignores_events_after_its_end (queue more : list event) :
  forall (x x' : CopilotKitRunExecution) (ys : list string) (e : run_end),
    copilotkit_run parse queue x = (ys, e, x') ->
    e <> Waiting ->
    copilotkit_run parse (queue ++ more) x = (ys, e, x').
Proof.
  induction queue as [|ev q IH]; intros x x' ys e H He;
    cbn [copilotkit_run app] in *.
  - pair_inv H. congruence.
  - destruct (handle_runtime_event parse ev x) as [[o|err] x1]; [|exact H].
    destruct (is_finished x1); [exact H|].
    destruct (copilotkit_run parse q x1) as [[ys1 e1] x2] eqn:R.
    pair_inv H. now rewrite (IH _ _ _ _ R He).
Qed.

(** X17.  The run loop leaves through its [break] only with
    [is_finished] set, and from a record that is not finished nothing
    but a RunFinished event, or a RunError that carries its ["error"],
    gets it there: a queue without such an event never ends the run, the
    loop stays waiting for the next event or fails with the dispatcher's
    exception, and [is_finished] is still unset.  A MetaEvent Exit, which
    sets [should_exit], is no such event. *)
Theorem run_ends_only_on_a_run_end_event (queue : list event) :
  forall (x x' : CopilotKitRunExecution) (ys : list string) (e : run_end),
    copilotkit_run parse queue x = (ys, e, x') ->
    (e = Finished -> is_finished x' = true)
    /\ (is_finished x = false -> existsb ends_run queue = false ->
        e <> Finished /\ is_finished x' = false).
Proof.
  induction queue as [|ev q IH]; intros x x' ys e H;
    cbn [copilotkit_run existsb] in *.
  - pair_inv H. split; [discriminate|]. intros Hx _. split; [discriminate|].
    exact Hx.
  - destruct (handle_runtime_event parse ev x) as [[o|err] x1] eqn:E.
    + pose proof (is_finished_after parse _ _ _ _ E) as F.
      destruct (is_finished x1) eqn:F1.
      * pair_inv H. split; [intros _; exact F1|].
        intros Hx Hq. apply orb_false_iff in Hq as [Hev _].
        rewrite Hx, Hev in F. discriminate F.
      * destruct (copilotkit_run parse q x1) as [[ys1 e1] x2] eqn:R.
        pair_inv H. destruct (IH _ _ _ _ R) as [A B]. split; [exact A|].
        intros Hx Hq. apply orb_false_iff in Hq as [_ Hq]. now apply B.
    + pair_inv H. split; [discriminate|]. intros Hx Hq.
      apply orb_false_iff in Hq as [Hev _].
      pose proof (is_finished_after parse _ _ _ _ E) as F.
      rewrite Hx, Hev in F. split; [discriminate|exact F].
Qed.

(** X18.  Started on a record whose [is_finished] is already set, the
    run loop still takes one event from the queue, handles it and yields
    what it forwards, and only then ends: the flag is tested after the
    event, not before, and every later event is left on the queue. *)
Theorem finished_record_handles_one_event (ev : event) (rest : list event)
  (x : CopilotKitRunExecution) :
  is_finished x = true ->
  copilotkit_run parse (ev :: rest) x
  = single_step (handle_runtime_event parse ev x).
Proof.
  intros Hx. cbn [copilotkit_run]. unfold single_step, yields.
  destruct (handle_runtime_event parse ev x) as [[o|err] x1] eqn:E;
    [|reflexivity].
  pose proof (is_finished_after parse _ _ _ _ E) as F.
  rewrite Hx in F. cbn [orb] in F. rewrite F.
  cbn [flat_map]. now rewrite app_nil_r.
Qed.

(** X19.  A RunFinished event, and a RunError that carries its
    ["error"], whatever the error is, forward nothing and only set
    [is_finished]; a run loop that meets one as its first event yields
    nothing at all and ends, whatever the record and whatever follows on
    the queue. *)
Theorem run_end_event_forwards_nothing (ev : event) (rest : list event)
  (x : CopilotKitRunExecution) :
  ends_run ev = true ->
  handle_runtime_event parse ev x = (Ok None, set_is_finished true x)
  /\ copilotkit_run parse (ev :: rest) x = ([], Finished, set_is_finished true x).
Proof.
  intros H.
  assert (E : handle_runtime_event parse ev x
              = (Ok None, set_is_finished true x)).
  { unfold ends_run, has_key in H. open_goal.
    destruct (dict_get "type" ev) as [[t|n|j]|]; try discriminate H.
    destruct t; try discriminate H; eval_goal; [reflexivity|].
    destruct (dict_get "error" ev); [reflexivity|discriminate H]. }
  split; [exact E|]. cbn [copilotkit_run]. now rewrite E.
Qed.

Lemma forwards_lines (ev : event) (out : option string) (text : string) :
  forwards ev out -> out = Some text -> one_or_two_lines text.
Proof.
  unfold forwards, one_or_two_lines. intros F ->.
  destruct (dict_get "type" ev) as [ty|]; [|contradiction].
  destruct (type_in ty protocol_event_types).
  - destruct F as [F|(_ & m & _ & F)]; injection F as ->.
    + exists [json_line ev]. split; [|now left].
      apply (split_lines_emit [ev]). discriminate.
    + exists [json_line ev; json_line m]. split; [|now right].
      apply (split_lines_emit [ev; m]). discriminate.
  - destruct F as [F|(m & _ & F)]; [discriminate F|]. injection F as ->.
    exists [json_line m]. split; [|now left].
    apply (split_lines_emit [m]). discriminate.
Qed.

Lemma yields_lines (handled : list event) (outs : list (option string)) :
  Forall2 forwards handled outs ->
  length (yields outs) <= length handled
  /\ Forall one_or_two_lines (yields outs).
Proof.
  induction 1 as [|ev o handled outs F _ [IH1 IH2]].
  - split; [apply le_n|constructor].
  - unfold yields in *. cbn [flat_map length]. destruct o as [text|].
    + cbn [app length]. split; [lia|]. constructor; [|exact IH2].
      now apply (forwards_lines ev (Some text)).
    + cbn [app]. split; [lia|exact IH2].
Qed.

(** X20.  The run loop yields at most one text per event it is given,
    and every text it yields is one or two newline-terminated JSON lines
    with nothing after the last newline: never an empty text, never a
    partial line. *)
Theorem run_yields_at_most_one_text_per_event (queue : list event)
  (x x' : CopilotKitRunExecution) (ys : list string) (e : run_end) :
  copilotkit_run parse queue x = (ys, e, x') ->
  length ys <= length queue
  /\ Forall one_or_two_lines ys.
Proof.
  intros H.
  apply copilotkit_run_trace in H as (handled & rest & outs & -> & F & ->).
  destruct (yields_lines _ _ F) as [L1 L2]. split; [|exact L2].
  rewrite List.length_app. lia.
Qed.

End WithParser.

Lemma run_ignores_events_after_its_end_witness :
  (copilotkit_run PartialJson.parse [text_message_end "m1"; run_error JNull]
     fresh_execution
   = ([json_line (text_message_end "m1") ++ NL], Finished, finished_execution)
   /\ Finished <> Waiting)
  /\ copilotkit_run PartialJson.parse
       ([text_message_end "m1"; run_error JNull] ++ full_run) fresh_execution
     = ([json_line (text_message_end "m1") ++ NL], Finished, finished_execution).
Proof.
  split; [split; [reflexivity|discriminate]|].
  exact (run_ignores_events_after_its_end PartialJson.parse
           [text_message_end "m1"; run_error JNull] full_run
           fresh_execution finished_execution
           [json_line (text_message_end "m1") ++ NL] Finished
           eq_refl ltac:(discriminate)).
Defined.

Lemma run_ends_only_on_a_run_end_event_witness :
  (copilotkit_run PartialJson.parse exit_run fresh_execution
   = ([json_line (text_message_end "m1") ++ NL], Waiting,
      set_should_exit (PJson (JBool true)) fresh_execution)
   /\ is_finished fresh_execution = false
   /\ existsb ends_run exit_run = false)
  /\ Waiting <> Finished
  /\ is_finished (set_should_exit (PJson (JBool true)) fresh_execution) = false.
Proof.
  split; [repeat split; reflexivity|].
  exact (proj2 (run_ends_only_on_a_run_end_event PartialJson.parse exit_run
                  fresh_execution
                  (set_should_exit (PJson (JBool true)) fresh_execution)
                  [json_line (text_message_end "m1") ++ NL] Waiting eq_refl)
           eq_refl eq_refl).
Defined.

Lemma finished_record_handles_one_event_witness :
  is_finished finished_execution = true
  /\ copilotkit_run PartialJson.parse text_run finished_execution
     = ([json_line (text_message_start "m1" None) ++ NL], Finished,
        finished_execution).
Proof.
  split; [reflexivity|].
  exact (finished_record_handles_one_event PartialJson.parse
           (text_message_start "m1" None)
           [text_message_content "m1" "Hi"; text_message_end "m1";
            run_finished (JDict [])]
           finished_execution eq_refl).
Defined.

Lemma run_end_event_forwards_nothing_witness :
  ends_run (run_error (JStr "boom")) = true
  /\ copilotkit_run PartialJson.parse (run_error (JStr "boom") :: text_run)
       fresh_execution
     = ([], Finished, finished_execution).
Proof.
  split; [reflexivity|].
  exact (proj2 (run_end_event_forwards_nothing PartialJson.parse
                  (run_error (JStr "boom")) text_run fresh_execution eq_refl)).
Defined.

Lemma run_yields_at_most_one_text_per_event_witness :
  copilotkit_run PartialJson.parse exit_run fresh_execution
  = ([json_line (text_message_end "m1") ++ NL], Waiting,
     set_should_exit (PJson (JBool true)) fresh_execution)
  /\ length [json_line (text_message_end "m1") ++ NL] <= length exit_run
  /\ Forall one_or_two_lines [json_line (text_message_end "m1") ++ NL].
Proof.
  split; [reflexivity|].
  exact (run_yields_at_most_one_text_per_event PartialJson.parse exit_run
           fresh_execution
           (set_should_exit (PJson (JBool true)) fresh_execution)
           [json_line (text_message_end "m1") ++ NL] Waiting eq_refl).
Defined.

End RunFacts.

(* ------------------------------------------------------------------ *)
(** ** What the predictor does with a tool call *)
(* ------------------------------------------------------------------ *)

Module PredictorFacts.
Import PyFacts RoundTrip ProtocolFacts RunloopFacts SerializerFacts DispatcherFacts.

Local Open Scope py_scope.

Lemma predict_loop_flag (items : list (string * json)) (args : json) :
  forall (b b' : bool) (x x' : CopilotKitRunExecution),
    predict_loop items args b x = (Ok b', x') ->
    (b = true -> b' = true) /\ (b' = false -> x' = x).
Proof.
  induction items as [|[k v] rest IH]; intros b b' x x' H;
    cbn [predict_loop] in H; unfold_m.
  - pair_inv H. split; [auto|reflexivity].
  - repeat (break_hyp H; try discriminate H);
      apply IH in H as [A B]; split; auto;
      intros Hb; rewrite (A eq_refl) in Hb; discriminate Hb.
Qed.

Lemma tool_names_of_dicts (cfg : dict) :
  forallb is_dict (dict_values cfg) = true ->
  tool_names_of (dict_values cfg) = Ok (configured_tools cfg).
Proof.
  unfold configured_tools.
  induction (dict_values cfg) as [|c r IH]; cbn [forallb tool_names_of map];
    intros H; [reflexivity|].
  apply andb_true_iff in H as [Hc Hr]. rewrite (IH Hr).
  destruct c; try discriminate Hc. cbn [config_get].
  now destruct (dict_get "tool_name" d).
Qed.

Lemma tool_names_of_not_dicts (l : list json) :
  forallb is_dict l = false ->
  tool_names_of l = Raise (AttributeError "get").
Proof.
  induction l as [|c r IH]; cbn [forallb tool_names_of]; intros H;
    [discriminate H|].
  destruct c; try reflexivity. cbn [is_dict andb] in H. rewrite (IH H).
  cbn [config_get]. now destruct (dict_get "tool_name" d).
Qed.

Lemma config_ok_is_dict (l : list json) :
  forallb config_ok l = true -> forallb is_dict l = true.
Proof.
  induction l as [|c r IH]; cbn [forallb]; intros H; [reflexivity|].
  apply andb_true_iff in H as [Hc Hr]. rewrite (IH Hr).
  now destruct c.
Qed.

Lemma dict_get_merge (k : string) (b : dict) :
  forall a : dict,
    distinct (dict_keys b) = true ->
    dict_get k (dict_merge a b)
    = match dict_get k b with
      | Some v => Some v
      | None => dict_get k a
      end.
Proof.
  unfold dict_merge, dict_keys.
  induction b as [|[k1 v1] b IH]; intros a H; cbn [fold_left dict_get map fst snd].
  - reflexivity.
  - cbn [distinct map fst] in H. apply andb_true_iff in H as [H1 H2].
    rewrite (IH _ H2).
    destruct (String.eqb_spec k k1) as [->|Hne].
    + assert (G : dict_get k1 b = None).
      { clear -H1. apply negb_true_iff in H1.
        induction b as [|[k2 v2] b IHb]; [reflexivity|].
        cbn [map fst str_in existsb dict_get] in *.
        apply orb_false_iff in H1 as [E1 E2]. rewrite E1. now apply IHb. }
      rewrite G. apply dict_get_set_same.
    + destruct (dict_get k b); [reflexivity|].
      now apply dict_get_set_other.
Qed.

Lemma set_predicted_state_twice (a b : dict) (x : CopilotKitRunExecution) :
  set_predicted_state a (set_predicted_state b x) = set_predicted_state a x.
Proof. reflexivity. Qed.

Lemma predict_loop_spec (args : dict) (items : list (string * json)) :
  forall (b : bool) (x : CopilotKitRunExecution),
    forallb config_ok (dict_values items) = true ->
    predict_loop items (JDict args) b x
    = (Ok (b || existsb (predicts (current_tool_call x) args) (dict_values items)),
       set_predicted_state
         (predicted_after (current_tool_call x) args items (predicted_state x))
         x).
Proof.
  unfold predicted_after.
  induction items as [|[k v] rest IH]; intros b x H;
    cbn [predict_loop dict_values map forallb snd fst existsb fold_left] in *.
  - unfold ret. now rewrite orb_false_r, set_predicted_state_id.
  - apply andb_true_iff in H as [Hv Hrest]. unfold_m.
    unfold predicts at 1. 
    destruct v as [| | | |l|c]; try discriminate Hv. cbn [config_ok] in Hv.
    cbn [config_item config_get prediction_for].
    destruct (dict_get "tool_name" c) as [[| | |tn| |]|]; try discriminate Hv.
    destruct (py_eqb (JStr tn) (current_tool_call x)) eqn:Heq;
      [|rewrite (IH _ _ Hrest); reflexivity].
    destruct (dict_get "tool_argument" c) as [[| | |a| |]|];
      try discriminate Hv; cbn [is_none negb arguments_get].
    + rewrite (IH _ _ Hrest). cbn [current_tool_call predicted_state
                                    set_predicted_state].
      now rewrite orb_true_r.
    + destruct (dict_get a args) as [w|]; cbn [is_none negb];
        [|rewrite (IH _ _ Hrest); reflexivity].
      destruct (is_none w); cbn [negb]; rewrite (IH _ _ Hrest);
        [reflexivity|].
      cbn [current_tool_call predicted_state set_predicted_state].
      now rewrite orb_true_r.
    + rewrite (IH _ _ Hrest). cbn [current_tool_call predicted_state
                                    set_predicted_state].
      now rewrite orb_true_r.
Qed.

Lemma not_in_keys (k : string) (items : dict) :
  str_in k (map fst items) = false -> dict_get k items = None.
Proof.
  induction items as [|[k2 v2] items IH]; [reflexivity|].
  cbn [map fst str_in existsb dict_get]. intros H.
  apply orb_false_iff in H as [E1 E2]. rewrite E1. now apply IH.
Qed.

Lemma predicted_after_other (current : pyval) (args : dict) (k : string)
  (items : dict) :
  forall ps, dict_get k items = None ->
    dict_get k (predicted_after current args items ps) = dict_get k ps.
Proof.
  unfold predicted_after.
  induction items as [|[k1 c1] items IH]; intros ps H;
    cbn [fold_left dict_get fst snd] in *; [reflexivity|].
  destruct (String.eqb_spec k k1) as [->|Hne]; [discriminate H|].
  rewrite (IH _ H).
  destruct (prediction_for current args c1); [|reflexivity].
  now apply dict_get_set_other.
Qed.

Lemma predicted_after_key (current : pyval) (args : dict) (k : string)
  (c : json) (items : dict) :
  forall ps,
    distinct (dict_keys items) = true ->
    dict_get k items = Some c ->
    dict_get k (predicted_after current args items ps)
    = match prediction_for current args c with
      | Some v => Some v
      | None => dict_get k ps
      end.
Proof.
  unfold dict_keys.
  induction items as [|[k1 c1] items IH]; intros ps Hd H;
    cbn [dict_get map fst distinct] in *; [discriminate H|].
  apply andb_true_iff in Hd as [H1 H2]. apply negb_true_iff in H1.
  change (predicted_after current args ((k1, c1) :: items) ps)
    with (predicted_after current args items
            match prediction_for current args c1 with
            | Some v => dict_set k1 v ps
            | None => ps
            end).
  destruct (String.eqb_spec k k1) as [->|Hne].
  - injection H as ->.
    rewrite predicted_after_other by now apply not_in_keys.
    destruct (prediction_for current args c); [|reflexivity].
    apply dict_get_set_same.
  - rewrite (IH _ H2 H).
    destruct (prediction_for current args c); [reflexivity|].
    destruct (prediction_for current args c1); [|reflexivity].
    now apply dict_get_set_other.
Qed.

Lemma json_eqb_str_sym (s : string) (j : json) :
  json_eqb j (JStr s) = json_eqb (JStr s) j.
Proof. destruct j; try reflexivity. cbn. apply String.eqb_sym. Qed.

Lemma unconfigured_predicts_nothing (current : pyval) (args : dict)
  (cfg : dict) :
  forallb config_ok (dict_values cfg) = true ->
  py_in current (configured_tools cfg) = false ->
  existsb (predicts current args) (dict_values cfg) = false.
Proof.
  unfold configured_tools.
  induction (dict_values cfg) as [|c r IH]; cbn [forallb existsb map];
    intros Hok Hin; [reflexivity|].
  apply andb_true_iff in Hok as [Hc Hr].
  assert (Hin' : py_in current
                   (map (fun c => match c with
                                  | JDict d =>
                                      match dict_get "tool_name" d with
                                      | Some n => n
                                      | None => JNull
                                      end
                                  | _ => JNull
                                  end) r) = false
                 /\ predicts current args c = false).
  { destruct current as [t|n|j]; cbn [py_in existsb] in *.
    - split; [reflexivity|]. unfold predicts, prediction_for.
      destruct c; try reflexivity.
      destruct (dict_get "tool_name" d); reflexivity.
    - split; [reflexivity|]. unfold predicts, prediction_for.
      destruct c; try reflexivity.
      destruct (dict_get "tool_name" d); reflexivity.
    - apply orb_false_iff in Hin as [E1 E2]. split; [exact E2|].
      unfold predicts, prediction_for.
      destruct c; try discriminate Hc. cbn [config_ok] in Hc.
      destruct (dict_get "tool_name" d) as [[| | |tn| |]|];
        try discriminate Hc.
      cbn [py_eqb]. rewrite <- json_eqb_str_sym. now rewrite E1. }
  destruct Hin' as [A B]. rewrite B. cbn [orb]. now apply IH.
Qed.

Lemma existsb_predicts_none (current : pyval) (args : dict) (cfg : dict) :
  existsb (predicts current args) (dict_values cfg) = false ->
  forall k c, dict_get k cfg = Some c -> prediction_for current args c = None.
Proof.
  unfold dict_values.
  induction cfg as [|[k1 c1] cfg IH]; cbn [map snd existsb dict_get];
    intros H k c G; [discriminate G|].
  apply orb_false_iff in H as [H1 H2].
  destruct (String.eqb k k1).
  - injection G as <-. unfold predicts in H1.
    now destruct (prediction_for current args c1).
  - now apply (IH H2 k).
Qed.

Lemma existsb_predicts_some (current : pyval) (args : dict) (cfg : dict) :
  distinct (dict_keys cfg) = true ->
  existsb (predicts current args) (dict_values cfg) = true ->
  exists k c v, dict_get k cfg = Some c
                /\ prediction_for current args c = Some v.
Proof.
  unfold dict_values, dict_keys.
  induction cfg as [|[k1 c1] cfg IH]; cbn [map snd fst existsb dict_get distinct];
    intros Hd H; [discriminate H|].
  apply andb_true_iff in Hd as [D1 D2]. apply negb_true_iff in D1.
  apply orb_true_iff in H as [H|H].
  - exists k1, c1. unfold predicts in H.
    destruct (prediction_for current args c1) as [v|]; [|discriminate H].
    exists v. now rewrite String.eqb_refl.
  - destruct (IH D2 H) as (k & c & v & G1 & G2). exists k, c, v.
    split; [|exact G2].
    destruct (String.eqb_spec k k1) as [->|]; [|exact G1].
    rewrite not_in_keys in G1 by exact D1. discriminate G1.
Qed.

Section WithParser.

Variable parse : string -> option json.

Lemma chunk_appends (ev : event) (chunk : string)
  (x x' : CopilotKitRunExecution) (r : result (option string)) :
  dict_get "type" ev = Some (PType ACTION_EXECUTION_ARGS) ->
  dict_get "args" ev = Some (PJson (JStr chunk)) ->
  handle_runtime_event parse ev x = (r, x') ->
  argument_buffer x' = argument_buffer x ++ chunk
  /\ current_tool_call x' = current_tool_call x
  /\ (forall out, r = Ok out -> out <> None).
Proof.
  intros Hty Hargs E. open_handler E. unfold predict_state in E. unfold_m.
  rewrite Hty in E. eval_tests E. rewrite Hargs in E.
  crunch;
    try match goal with
      | L : predict_loop _ _ _ _ = _ |- _ =>
          apply predict_loop_frame in L; rewrite L
      end;
    (split; [reflexivity|]); (split; [reflexivity|]);
    intros out Hout; try discriminate Hout; injection Hout as <-;
    discriminate.
Qed.

Lemma chunks_append (chunks : list (string * string)) :
  forall (x x' : CopilotKitRunExecution) (outs : list (option string)),
    handle_all parse (chunk_events chunks) x = (Ok outs, x') ->
    argument_buffer x' = argument_buffer x ++ chunk_texts chunks
    /\ current_tool_call x' = current_tool_call x
    /\ length outs = length chunks
    /\ Forall (fun out => out <> None) outs.
Proof.
  unfold chunk_events, chunk_texts.
  induction chunks as [|[id text] chunks IH]; intros x x' outs H;
    cbn [map handle_all fst snd] in H.
  - pair_inv H. cbn. rewrite append_nil_r. repeat split. constructor.
  - destruct (handle_runtime_event parse (action_execution_args id text) x)
      as [[o|e] x1] eqn:E; [|discriminate H].
    destruct (handle_all parse
                (map (fun c => action_execution_args (fst c) (snd c)) chunks)
                x1) as [[os|e] x2] eqn:R; [|discriminate H].
    pair_inv H.
    apply chunk_appends with (chunk := text) in E as (E1 & E2 & E3);
      try reflexivity.
    apply IH in R as (R1 & R2 & R3 & R4).
    cbn [map snd length]. rewrite concat_empty_cons.
    rewrite R1, R2, R3, E1, E2, append_assoc. repeat split.
    constructor; [now apply E3|exact R4].
Qed.

(** X21.  After a tool start and any number of tool chunks, all handled
    without an exception, [argument_buffer] is the texts of the chunks
    put end to end, in the order they came, and [current_tool_call] is
    the name the start gave; every one of these events forwarded
    something.  The [actionExecutionId] of a chunk plays no part: chunks
    that name another tool call go into the same buffer. *)
Theorem argument_buffer_accumulates (id name : string)
  (parent : option string) (chunks : list (string * string))
  (x x' : CopilotKitRunExecution) (outs : list (option string)) :
  handle_all parse (action_execution_start id name parent :: chunk_events chunks) x
  = (Ok outs, x') ->
  argument_buffer x' = chunk_texts chunks
  /\ current_tool_call x' = PJson (JStr name)
  /\ length outs = S (length chunks)
  /\ Forall (fun out => out <> None) outs.
Proof.
  intros H. cbn [handle_all] in H.
  change (handle_runtime_event parse (action_execution_start id name parent) x)
    with (Ok (Some (emit_runtime_events [action_execution_start id name parent])),
          set_argument_buffer "" (set_current_tool_call (PJson (JStr name)) x))
    in H.
  cbv iota beta in H.
  destruct (handle_all parse (chunk_events chunks) _) as [[os|e] x2] eqn:R;
    [|discriminate H].
  pair_inv H. apply chunks_append in R as (R1 & R2 & R3 & R4).
  cbn [length]. rewrite R1, R2, R3. repeat split.
  constructor; [discriminate|exact R4].
Qed.

(** X22.  With a configuration that is a dictionary of dictionaries:
    while the current tool call is not the [tool_name] of any of its
    entries, which is so for every tool while the configuration is
    empty, a tool chunk is only appended to the buffer:
    the predictor returns [None] without consulting the parser, leaves
    [predicted_state] alone, and the dispatcher forwards the chunk's own
    line with no snapshot. *)
Theorem unconfigured_tool_is_not_parsed (tid an rid : string) (ev : event)
  (chunk : string) (cfg : dict) (x : CopilotKitRunExecution) :
  dict_get "type" ev = Some (PType ACTION_EXECUTION_ARGS) ->
  dict_get "args" ev = Some (PJson (JStr chunk)) ->
  predict_state_configuration x = PJson (JDict cfg) ->
  forallb is_dict (dict_values cfg) = true ->
  py_in (current_tool_call x) (configured_tools cfg) = false ->
  predict_state parse tid an rid ev x
  = (Ok None, set_argument_buffer (argument_buffer x ++ chunk) x)
  /\ handle_runtime_event parse ev x
     = (Ok (Some (json_line ev ++ NL)),
        set_argument_buffer (argument_buffer x ++ chunk) x).
Proof.
  intros Hty Hargs Hcfg Hok Hin.
  assert (P : forall tid an rid,
             predict_state parse tid an rid ev x
             = (Ok None, set_argument_buffer (argument_buffer x ++ chunk) x)).
  { intros t a r. unfold predict_state. unfold_m.
    rewrite Hty. eval_goal. rewrite Hargs.
    cbn [predict_state_configuration set_argument_buffer current_tool_call].
    rewrite Hcfg. cbn [config_items]. rewrite (tool_names_of_dicts _ Hok).
    now rewrite Hin. }
  split; [apply P|].
  open_goal. rewrite Hty. eval_goal. now rewrite P.
Qed.

(** X23.  The predictor never predicts in silence: whenever it returns
    [None], for whatever event and record, [predicted_state] is what it
    was before the call. *)
Theorem predictor_returning_none_predicted_nothing (tid an rid : string)
  (ev : event) (x x' : CopilotKitRunExecution) :
  predict_state parse tid an rid ev x = (Ok None, x') ->
  predicted_state x' = predicted_state x.
Proof.
  unfold predict_state. unfold_m. intros H.
  crunch; try reflexivity.
  match goal with
  | L : predict_loop _ _ _ _ = (Ok false, _) |- _ =>
      apply predict_loop_flag in L as [_ L]; now rewrite (L eq_refl)
  end.
Qed.

(** X24.  In the snapshot the predictor returns, a predicted value
    wins over the agent state: with a [predicted_state] that has no key
    twice, as a Python dictionary, the state text is the JSON of a
    dictionary that gives, for every key other than ["messages"] and
    ["id"], the predicted value when [predicted_state] has the key and
    the value of the agent state otherwise. *)
Theorem predicted_values_override_agent_state (tid an rid : string)
  (ev : event) (x x' : CopilotKitRunExecution) (m : event) :
  predict_state parse tid an rid ev x = (Ok (Some m), x') ->
  distinct (dict_keys (predicted_state x')) = true ->
  exists st d',
    state x' = PJson (JDict st)
    /\ carries_state m d'
    /\ (forall k, str_in k ["messages"; "id"] = false ->
          dict_get k d'
          = match dict_get k (predicted_state x') with
            | Some v => Some v
            | None => dict_get k st
            end).
Proof.
  intros P Hd. apply predict_state_some in P as (st & Hst & ->).
  exists st, (keep_default (dict_merge st (predicted_state x'))).
  split; [exact Hst|]. split; [reflexivity|].
  intros k Hk. unfold keep_default.
  rewrite (dict_get_filter (fun k => negb (str_in k ["messages"; "id"]))).
  rewrite Hk. cbn [negb]. now apply dict_get_merge.
Qed.

(** X25.  A tool chunk raises [AttributeError] when the stored
    configuration is not a dictionary, or is a dictionary one of whose
    values is not a dictionary, as is the flat dictionary of strings in
    the docstring of [meta_event].  The chunk has been appended to the
    buffer by then, and nothing is forwarded, not even the chunk. *)
Theorem malformed_configuration_raises (ev : event) (chunk : string)
  (x : CopilotKitRunExecution) :
  dict_get "type" ev = Some (PType ACTION_EXECUTION_ARGS) ->
  dict_get "args" ev = Some (PJson (JStr chunk)) ->
  (is_dict_value (predict_state_configuration x) = false ->
   handle_runtime_event parse ev x
   = (Raise (AttributeError "values"),
      set_argument_buffer (argument_buffer x ++ chunk) x))
  /\ (forall cfg,
        predict_state_configuration x = PJson (JDict cfg) ->
        forallb is_dict (dict_values cfg) = false ->
        handle_runtime_event parse ev x
        = (Raise (AttributeError "get"),
           set_argument_buffer (argument_buffer x ++ chunk) x)).
Proof.
  intros Hty Hargs. split.
  - intros Hnd. open_goal. unfold predict_state. unfold_m.
    rewrite Hty. eval_goal. rewrite Hargs.
    cbn [predict_state_configuration set_argument_buffer].
    destruct (predict_state_configuration x) as [t|n|[]]; try reflexivity.
    discriminate Hnd.
  - intros cfg Hcfg Hbad. open_goal. unfold predict_state. unfold_m.
    rewrite Hty. eval_goal. rewrite Hargs.
    cbn [predict_state_configuration set_argument_buffer].
    rewrite Hcfg. cbn [config_items].
    now rewrite (tool_names_of_not_dicts _ Hbad).
Qed.

(** X26.  What a tool chunk predicts, on a well-typed configuration
    with a dictionary as agent state, when the parser reads the buffer as
    an object: the predictor returns without an exception, and for every
    entry of the configuration the state key it is filed under holds,
    afterwards, the whole parsed object when the entry is for the
    current tool and names no argument, the value of the named argument
    when it is for the current tool and the object has that argument with
    a value other than [None], and what it held before in every other
    case; keys the configuration does not have are left as they were.  A
    snapshot is returned exactly when some entry predicted a value. *)
Theorem predictor_applies_every_matching_entry (tid an rid : string)
  (ev : event) (chunk : string) (cfg st args : dict)
  (x : CopilotKitRunExecution) :
  dict_get "type" ev = Some (PType ACTION_EXECUTION_ARGS) ->
  dict_get "args" ev = Some (PJson (JStr chunk)) ->
  predict_state_configuration x = PJson (JDict cfg) ->
  forallb config_ok (dict_values cfg) = true ->
  distinct (dict_keys cfg) = true ->
  state x = PJson (JDict st) ->
  parse (argument_buffer x ++ chunk) = Some (JDict args) ->
  exists out x',
    predict_state parse tid an rid ev x = (Ok out, x')
    /\ (forall k c, dict_get k cfg = Some c ->
          dict_get k (predicted_state x')
          = match prediction_for (current_tool_call x) args c with
            | Some v => Some v
            | None => dict_get k (predicted_state x)
            end)
    /\ (forall k, dict_get k cfg = None ->
          dict_get k (predicted_state x') = dict_get k (predicted_state x))
    /\ (out = None <->
        forall k c, dict_get k cfg = Some c ->
                    prediction_for (current_tool_call x) args c = None).
Proof.
  intros Hty Hargs Hcfg Hok Hd Hst Hparse.
  unfold predict_state. unfold_m.
  rewrite Hty. eval_goal. rewrite Hargs.
  cbn [predict_state_configuration set_argument_buffer current_tool_call
       argument_buffer].
  rewrite Hcfg. cbn [config_items].
  rewrite (tool_names_of_dicts _ (config_ok_is_dict _ Hok)).
  destruct (py_in (current_tool_call x) (configured_tools cfg)) eqn:Hin;
    cbn [negb].
  - cbn [argument_buffer set_argument_buffer]. rewrite Hparse.
    cbn [predict_state_configuration set_argument_buffer].
    rewrite Hcfg. cbn [config_items].
    rewrite (predict_loop_spec args cfg _ _ Hok).
    cbn [orb current_tool_call set_argument_buffer predicted_state].
    destruct (existsb (predicts (current_tool_call x) args) (dict_values cfg))
      eqn:Hex.
    + cbn [state set_predicted_state set_argument_buffer]. rewrite Hst.
      cbn [merged_state]. rewrite filter_state_default.
      eexists. eexists. split; [reflexivity|].
      cbn [predicted_state set_predicted_state]. split; [|split].
      * intros k c G. now apply predicted_after_key.
      * intros k G. now apply predicted_after_other.
      * split; [discriminate|]. intros Hall.
        destruct (existsb_predicts_some _ _ _ Hd Hex) as (k & c & v & G1 & G2).
        rewrite (Hall k c G1) in G2. discriminate G2.
    + eexists. eexists. split; [reflexivity|].
      cbn [predicted_state set_predicted_state]. split; [|split].
      * intros k c G. now apply predicted_after_key.
      * intros k G. now apply predicted_after_other.
      * split; [|reflexivity]. intros _. now apply existsb_predicts_none.
  - pose proof (unconfigured_predicts_nothing _ args _ Hok Hin) as Hex.
    pose proof (existsb_predicts_none _ _ _ Hex) as Hnone.
    eexists. eexists. split; [reflexivity|].
    cbn [predicted_state set_argument_buffer]. split; [|split].
    + intros k c G. now rewrite (Hnone k c G).
    + reflexivity.
    + split; [|reflexivity]. intros _. exact Hnone.
Qed.

Lemma needs_argument_configured (current : pyval) (cfg : dict) :
  forallb config_ok (dict_values cfg) = true ->
  existsb (needs_argument current) (dict_values cfg) = true ->
  py_in current (configured_tools cfg) = true.
Proof.
  unfold configured_tools.
  induction (dict_values cfg) as [|c r IH]; cbn [forallb existsb map];
    intros Hok Hex; [discriminate Hex|].
  apply andb_true_iff in Hok as [Hc Hr].
  destruct current as [t|n|j].
  - exfalso. clear IH Hc Hr. 
    assert (G : forall l, existsb (needs_argument (PType t)) l = false).
    { induction l as [|c' l IHl]; [reflexivity|]. cbn [existsb]. rewrite IHl.
      unfold needs_argument. destruct c'; try reflexivity.
      destruct (dict_get "tool_name" d); [|reflexivity].
      destruct (dict_get "tool_argument" d) as [[]|]; reflexivity. }
    pose proof (G (c :: r)) as G'. cbn [existsb] in G'.
    rewrite G' in Hex. discriminate Hex.
  - exfalso. clear IH Hc Hr.
    assert (G : forall l, existsb (needs_argument (PName n)) l = false).
    { induction l as [|c' l IHl]; [reflexivity|]. cbn [existsb]. rewrite IHl.
      unfold needs_argument. destruct c'; try reflexivity.
      destruct (dict_get "tool_name" d); [|reflexivity].
      destruct (dict_get "tool_argument" d) as [[]|]; reflexivity. }
    pose proof (G (c :: r)) as G'. cbn [existsb] in G'.
    rewrite G' in Hex. discriminate Hex.
  - cbn [py_in existsb] in *. apply orb_true_iff in Hex as [Hex|Hex].
    + destruct c; try discriminate Hc. cbn [config_ok needs_argument] in *.
      destruct (dict_get "tool_name" d) as [[| | |tn| |]|];
        try discriminate Hc.
      destruct (dict_get "tool_argument" d) as [[| | |a| |]|];
        try discriminate Hex.
      cbn [py_eqb] in Hex. now rewrite json_eqb_str_sym, Hex.
    + rewrite (IH Hr Hex). apply orb_true_r.
Qed.

Lemma predict_loop_non_object (j : json) (items : list (string * json)) :
  is_dict j = false ->
  forall (b : bool) (x : CopilotKitRunExecution),
    forallb config_ok (dict_values items) = true ->
    existsb (needs_argument (current_tool_call x)) (dict_values items) = true ->
    fst (predict_loop items j b x) = Raise (AttributeError "get").
Proof.
  intros Hj.
  induction items as [|[k v] rest IH]; intros b x Hok Hex;
    cbn [predict_loop dict_values map forallb snd existsb] in *.
  - discriminate Hex.
  - apply andb_true_iff in Hok as [Hv Hrest]. unfold_m.
    destruct v as [| | | |l|c]; try discriminate Hv.
    cbn [config_ok needs_argument] in Hv, Hex.
    cbn [config_item config_get].
    destruct (dict_get "tool_name" c) as [[| | |tn| |]|]; try discriminate Hv.
    destruct (py_eqb (JStr tn) (current_tool_call x)) eqn:Heq.
    + destruct (dict_get "tool_argument" c) as [[| | |a| |]|];
        try discriminate Hv; cbn [is_none negb arguments_get orb] in *.
      * now apply IH.
      * destruct j; try reflexivity. discriminate Hj.
      * now apply IH.
    + destruct (dict_get "tool_argument" c) as [[| | |a| |]|];
        cbn [orb] in Hex; now apply IH.
Qed.

(** X27.  Only the parse is guarded.  When the parser reads the buffer
    as a value that is not an object, a list for one, and an entry of a
    well-typed configuration for the current tool names an argument,
    looking that argument up raises [AttributeError]: the predictor
    raises and so does the dispatcher, which forwards nothing. *)
Theorem arguments_that_are_no_object_raise (tid an rid : string)
  (ev : event) (chunk : string) (cfg : dict) (j : json)
  (x : CopilotKitRunExecution) :
  dict_get "type" ev = Some (PType ACTION_EXECUTION_ARGS) ->
  dict_get "args" ev = Some (PJson (JStr chunk)) ->
  predict_state_configuration x = PJson (JDict cfg) ->
  forallb config_ok (dict_values cfg) = true ->
  existsb (needs_argument (current_tool_call x)) (dict_values cfg) = true ->
  parse (argument_buffer x ++ chunk) = Some j ->
  is_dict j = false ->
  fst (predict_state parse tid an rid ev x) = Raise (AttributeError "get")
  /\ fst (handle_runtime_event parse ev x) = Raise (AttributeError "get").
Proof.
  intros Hty Hargs Hcfg Hok Hex Hparse Hj.
  assert (P : forall tid an rid,
             fst (predict_state parse tid an rid ev x)
             = Raise (AttributeError "get")).
  { intros t a r. unfold predict_state. unfold_m.
    rewrite Hty. eval_goal. rewrite Hargs.
    cbn [predict_state_configuration set_argument_buffer current_tool_call
         argument_buffer].
    rewrite Hcfg. cbn [config_items].
    rewrite (tool_names_of_dicts _ (config_ok_is_dict _ Hok)).
    rewrite (needs_argument_configured _ _ Hok Hex). cbn [negb].
    cbn [argument_buffer set_argument_buffer]. rewrite Hparse.
    cbn [predict_state_configuration set_argument_buffer].
    rewrite Hcfg. cbn [config_items].
    pose proof (predict_loop_non_object j cfg Hj false
                  (set_argument_buffer (argument_buffer x ++ chunk) x) Hok Hex)
      as L.
    destruct (predict_loop cfg j false _) as [[b|e] x1]; cbn [fst] in L;
      [discriminate L|]. injection L as ->. reflexivity. }
  split; [apply P|].
  open_goal. rewrite Hty. eval_goal.
  specialize (P (thread_id x) (agent_name x) (run_id x)).
  destruct (predict_state parse _ _ _ ev x) as [[o|e] x1]; cbn [fst] in P;
    [discriminate P|]. injection P as ->. reflexivity.
Qed.

End WithParser.

Lemma argument_buffer_accumulates_witness :
  handle_all PartialJson.parse (tool_start :: chunk_events mixed_chunks)
    fresh_execution
  = (Ok [ Some (json_line tool_start ++ NL);
          Some (json_line first_chunk ++ NL);
          Some (json_line (action_execution_args "exec2" (py "ice'}")) ++ NL) ],
     set_argument_buffer (py "{'name': 'Alice'}")
       (set_current_tool_call (PJson (JStr "update_user")) fresh_execution))
  /\ argument_buffer
       (set_argument_buffer (py "{'name': 'Alice'}")
          (set_current_tool_call (PJson (JStr "update_user")) fresh_execution))
     = chunk_texts mixed_chunks.
Proof.
  split; [reflexivity|].
  exact (proj1 (argument_buffer_accumulates PartialJson.parse
                  "exec1" "update_user" None mixed_chunks fresh_execution
                  (set_argument_buffer (py "{'name': 'Alice'}")
                     (set_current_tool_call (PJson (JStr "update_user"))
                        fresh_execution))
                  [ Some (json_line tool_start ++ NL);
                    Some (json_line first_chunk ++ NL);
                    Some (json_line (action_execution_args "exec2" (py "ice'}"))
                          ++ NL) ]
                  eq_refl)).
Defined.

Lemma unconfigured_tool_is_not_parsed_witness :
  (dict_get "type" first_chunk = Some (PType ACTION_EXECUTION_ARGS)
   /\ dict_get "args" first_chunk = Some (PJson (JStr (py "{'name': 'Al")))
   /\ predict_state_configuration search_execution
      = PJson (JDict [("name", JDict [("tool_name", JStr "update_user");
                                      ("tool_argument", JStr "name")])])
   /\ py_in (current_tool_call search_execution)
        (configured_tools
           [("name", JDict [("tool_name", JStr "update_user");
                            ("tool_argument", JStr "name")])]) = false)
  /\ handle_runtime_event PartialJson.parse first_chunk search_execution
     = (Ok (Some (json_line first_chunk ++ NL)),
        set_argument_buffer (py "{'name': 'Al") search_execution).
Proof.
  split; [repeat split; reflexivity|].
  exact (proj2 (unconfigured_tool_is_not_parsed PartialJson.parse
                  "thread_1" "assistant" "run_1" first_chunk
                  (py "{'name': 'Al")
                  [("name", JDict [("tool_name", JStr "update_user");
                                   ("tool_argument", JStr "name")])]
                  search_execution eq_refl eq_refl eq_refl eq_refl eq_refl)).
Defined.

Lemma predictor_returning_none_predicted_nothing_witness :
  predict_state PartialJson.parse "thread_1" "assistant" "run_1"
    first_chunk
    (set_predicted_state [("name", JStr "Al")] search_execution)
  = (Ok None,
     set_argument_buffer (py "{'name': 'Al")
       (set_predicted_state [("name", JStr "Al")] search_execution))
  /\ predicted_state
       (set_argument_buffer (py "{'name': 'Al")
          (set_predicted_state [("name", JStr "Al")] search_execution))
     = [("name", JStr "Al")].
Proof.
  split; [reflexivity|].
  exact (predictor_returning_none_predicted_nothing PartialJson.parse
           "thread_1" "assistant" "run_1" first_chunk
           (set_predicted_state [("name", JStr "Al")] search_execution)
           (set_argument_buffer (py "{'name': 'Al")
              (set_predicted_state [("name", JStr "Al")] search_execution))
           eq_refl).
Defined.

Lemma predicted_values_override_agent_state_witness :
  (predict_state PartialJson.parse "thread_1" "assistant" "run_1"
     second_chunk bob_execution
   = (Ok (Some (agent_state_message "thread_1" "assistant" (PJson (JStr "n1"))
                  "run_1" true "assistant"
                  (py "{'name': 'Alice', 'city': 'Oslo'}") true)),
      set_predicted_state [("name", JStr "Alice")]
        (set_argument_buffer (py "{'name': 'Alice'}") bob_execution))
   /\ distinct (dict_keys [("name", JStr "Alice")]) = true)
  /\ exists st d',
       PJson (JDict [("name", JStr "Bob"); ("city", JStr "Oslo")])
       = PJson (JDict st)
       /\ carries_state
            (agent_state_message "thread_1" "assistant" (PJson (JStr "n1"))
               "run_1" true "assistant"
               (py "{'name': 'Alice', 'city': 'Oslo'}") true) d'
       /\ (forall k, str_in k ["messages"; "id"] = false ->
             dict_get k d'
             = match dict_get k [("name", JStr "Alice")] with
               | Some v => Some v
               | None => dict_get k st
               end).
Proof.
  split; [split; reflexivity|].
  exact (predicted_values_override_agent_state PartialJson.parse
           "thread_1" "assistant" "run_1" second_chunk bob_execution
           (set_predicted_state [("name", JStr "Alice")]
              (set_argument_buffer (py "{'name': 'Alice'}") bob_execution))
           (agent_state_message "thread_1" "assistant" (PJson (JStr "n1"))
              "run_1" true "assistant"
              (py "{'name': 'Alice', 'city': 'Oslo'}") true)
           eq_refl eq_refl).
Defined.

Lemma malformed_configuration_raises_witness :
  (dict_get "type" first_chunk = Some (PType ACTION_EXECUTION_ARGS)
   /\ dict_get "args" first_chunk = Some (PJson (JStr (py "{'name': 'Al")))
   /\ predict_state_configuration flat_execution
      = PJson (JDict [ ("state_key", JStr "user_data");
                       ("tool", JStr "update_user");
                       ("tool_argument", JStr "profile") ])
   /\ forallb is_dict
        (dict_values [ ("state_key", JStr "user_data");
                       ("tool", JStr "update_user");
                       ("tool_argument", JStr "profile") ]) = false)
  /\ handle_runtime_event PartialJson.parse first_chunk flat_execution
     = (Raise (AttributeError "get"),
        set_argument_buffer (py "{'name': 'Al") flat_execution).
Proof.
  split; [repeat split; reflexivity|].
  exact (proj2 (malformed_configuration_raises PartialJson.parse first_chunk
                  (py "{'name': 'Al") flat_execution eq_refl eq_refl)
           [ ("state_key", JStr "user_data"); ("tool", JStr "update_user");
             ("tool_argument", JStr "profile") ]
           eq_refl eq_refl).
Defined.

Lemma predictor_applies_every_matching_entry_witness :
  (dict_get "type" second_chunk = Some (PType ACTION_EXECUTION_ARGS)
   /\ dict_get "args" second_chunk = Some (PJson (JStr (py "ice'}")))
   /\ predict_state_configuration busy_execution = PJson name_config
   /\ state busy_execution
      = PJson (JDict [("id", JStr "t"); ("city", JStr "Oslo")])
   /\ PartialJson.parse (argument_buffer busy_execution ++ py "ice'}")
      = Some (JDict [("name", JStr "Alice")]))
  /\ exists out x',
       predict_state PartialJson.parse "thread_1" "assistant" "run_1"
         second_chunk busy_execution = (Ok out, x')
       /\ dict_get "name" (predicted_state x') = Some (JStr "Alice")
       /\ dict_get "city" (predicted_state x') = None.
Proof.
  split; [repeat split; reflexivity|].
  destruct (predictor_applies_every_matching_entry PartialJson.parse
              "thread_1" "assistant" "run_1" second_chunk (py "ice'}")
              [("name", JDict [("tool_name", JStr "update_user");
                               ("tool_argument", JStr "name")])]
              [("id", JStr "t"); ("city", JStr "Oslo")]
              [("name", JStr "Alice")] busy_execution
              eq_refl eq_refl eq_refl eq_refl eq_refl eq_refl eq_refl)
    as (out & x' & P & K & O & _).
  exists out, x'. split; [exact P|]. split.
  - exact (K "name" _ eq_refl).
  - exact (O "city" eq_refl).
Defined.

Lemma arguments_that_are_no_object_raise_witness :
  (dict_get "type" list_chunk = Some (PType ACTION_EXECUTION_ARGS)
   /\ dict_get "args" list_chunk = Some (PJson (JStr "[1, 2]"))
   /\ predict_state_configuration started_execution = PJson name_config
   /\ existsb (needs_argument (current_tool_call started_execution))
        (dict_values [("name", JDict [("tool_name", JStr "update_user");
                                      ("tool_argument", JStr "name")])]) = true
   /\ PartialJson.parse (argument_buffer started_execution ++ "[1, 2]")
      = Some (JList [JInt 1; JInt 2]))
  /\ fst (handle_runtime_event PartialJson.parse list_chunk started_execution)
     = Raise (AttributeError "get").
Proof.
  split; [repeat split; reflexivity|].
  exact (proj2 (arguments_that_are_no_object_raise PartialJson.parse
                  "thread_1" "assistant" "run_1" list_chunk "[1, 2]"
                  [("name", JDict [("tool_name", JStr "update_user");
                                   ("tool_argument", JStr "name")])]
                  (JList [JInt 1; JInt 2]) started_execution
                  eq_refl eq_refl eq_refl eq_refl eq_refl eq_refl eq_refl)).
Defined.

End PredictorFacts.
